(** * update.py: a shallow embedding of the static-site updater

    The script takes a date code, inserts a dated entry into four per-game
    index pages, generates a daily page per game, patches the homepage and
    the "today" landing page, and commits the changed files on a branch
    named after the date.

    Python strings are sequences of Unicode code points, so a string is a
    list of code points here; the working tree is a finite map from paths
    to file texts; effects (file system, standard output, child processes,
    exceptions, [sys.exit]) are threaded through a state-and-error monad. *)

From Stdlib Require Import Strings.String Strings.Ascii NArith ZArith Lia.
From Stdlib Require Import Sorting.Sorted.
From stdpp Require Import gmap list.

Abbreviation char := N.
Abbreviation str := (list N).

(** ** String literals *)

(** An ASCII literal as a Python string. *)
Definition lit (s : string) : str := map N_of_ascii (list_ascii_of_string s).

Definition DQ : char := 34%N.
Definition NL : char := 10%N.

(** A literal in which the backquote stands for the double quote (none of
    the script's literals holds a backquote). *)
Definition litq (s : string) : str :=
  map (fun c => if (c =? 96)%N then DQ else c) (lit s).

(** ** Python's [str] operations used by the script *)

(** [s.startswith(p)] *)
Fixpoint startswith (s p : str) : bool :=
  match p, s with
  | [], _ => true
  | _ :: _, [] => false
  | x :: p', c :: s' => (c =? x)%N && startswith s' p'
  end.

(** [needle in hay] *)
Fixpoint str_in (needle hay : str) : bool :=
  startswith hay needle ||
  match hay with
  | [] => false
  | _ :: hay' => str_in needle hay'
  end.

(** [str.isspace] on one character: the code points CPython's
    [_PyUnicode_IsWhitespace] accepts. *)
Definition isspace (c : char) : bool :=
  ((9 <=? c) && (c <=? 13) || (28 <=? c) && (c <=? 32) ||
   (c =? 133) || (c =? 160) || (c =? 5760) ||
   (8192 <=? c) && (c <=? 8202) || (c =? 8232) || (c =? 8233) ||
   (c =? 8239) || (c =? 8287) || (c =? 12288))%N.

Fixpoint lstrip (s : str) : str :=
  match s with
  | [] => []
  | c :: s' => if isspace c then lstrip s' else s
  end.

Definition rstrip (s : str) : str := rev (lstrip (rev s)).

(** [s.strip()] *)
Definition strip (s : str) : str := rstrip (lstrip s).

(** [a == b] on strings *)
Definition str_eqb (a b : str) : bool := bool_decide (a = b).

(** [a < b] on strings: lexicographic on code points, a proper prefix is
    smaller. *)
Fixpoint str_ltb (a b : str) : bool :=
  match a, b with
  | _, [] => false
  | [], _ :: _ => true
  | x :: a', y :: b' =>
      if (x <? y)%N then true
      else if (y <? x)%N then false
      else str_ltb a' b'
  end.

(** [str(n)] for a non-negative integer. *)
Fixpoint uint_chars (d : Decimal.uint) : str :=
  match d with
  | Decimal.Nil => []
  | Decimal.D0 d' => 48%N :: uint_chars d'
  | Decimal.D1 d' => 49%N :: uint_chars d'
  | Decimal.D2 d' => 50%N :: uint_chars d'
  | Decimal.D3 d' => 51%N :: uint_chars d'
  | Decimal.D4 d' => 52%N :: uint_chars d'
  | Decimal.D5 d' => 53%N :: uint_chars d'
  | Decimal.D6 d' => 54%N :: uint_chars d'
  | Decimal.D7 d' => 55%N :: uint_chars d'
  | Decimal.D8 d' => 56%N :: uint_chars d'
  | Decimal.D9 d' => 57%N :: uint_chars d'
  end.

Definition str_of_N (n : N) : str := uint_chars (N.to_uint n).

(** [sorted(keys, reverse=True)] on strings.  Equal strings are
    indistinguishable, so the descending arrangement is unique and an
    insertion sort computes it. *)
Fixpoint insert_desc (k : str) (l : list str) : list str :=
  match l with
  | [] => [k]
  | h :: t => if str_ltb h k then k :: l else h :: insert_desc k t
  end.

Definition sorted_desc (l : list str) : list str := foldr insert_desc [] l.

(** ** Exceptions *)

Inductive exn : Type :=
| ValueError
| KeyError
| TypeError
| IndexError
| OSError
| CalledProcessError
| SystemExit (code : Z)
| OutOfFuel.

Inductive result (A : Type) : Type :=
| Ok (a : A)
| Raise (e : exn).
Arguments Ok {A} a.
Arguments Raise {A} e.

(** ** An insertion-ordered dictionary with string keys *)

Definition dict := list (str * str).

(** [d[k] = v]: an existing key keeps its position. *)
Fixpoint dict_set (k v : str) (d : dict) : dict :=
  match d with
  | [] => [(k, v)]
  | (k', v') :: d' =>
      if str_eqb k k' then (k', v) :: d' else (k', v') :: dict_set k v d'
  end.

(** [d[k]]; [None] stands for [KeyError]. *)
Fixpoint dict_get (k : str) (d : dict) : option str :=
  match d with
  | [] => None
  | (k', v') :: d' => if str_eqb k k' then Some v' else dict_get k d'
  end.

(** [k in d] *)
Definition dict_mem (k : str) (d : dict) : bool :=
  match dict_get k d with Some _ => true | None => false end.

(** [d.keys()] *)
Definition dict_keys (d : dict) : list str := map fst d.

(** [[d[k] for k in ks]] *)
Fixpoint dict_get_all (ks : list str) (d : dict) : result (list str) :=
  match ks with
  | [] => Ok []
  | k :: ks' =>
      match dict_get k d with
      | None => Raise KeyError
      | Some v =>
          match dict_get_all ks' d with
          | Ok vs => Ok (v :: vs)
          | Raise e => Raise e
          end
      end
  end.

(** ** The world the script runs in

    The working tree holds regular files only: [files] maps a path to the
    decoded text of the file there.  [creatable p] tells whether a file can
    be created at a path that holds none (its directory exists and is
    writable).  [child history argv] is what a child process started with
    [argv] after the events [history] exits with and prints; the effect of
    a child process on the working tree is not modelled.  [trace] records
    the script's observable operations, oldest first. *)

Inductive event : Type :=
| EPrint (msg : str)
| EExists (path : str)
| EOpenR (path : str)
| EOpenW (path : str)
| ERun (argv : list str).

Record CompletedProcess : Type := { returncode : Z; stdout : str }.

Record world : Type := World {
  files : gmap str str;
  creatable : str -> bool;
  child : list event -> list str -> CompletedProcess;
  trace : list event
}.

Definition log (e : event) (w : world) : world :=
  World (files w) (creatable w) (child w) (trace w ++ [e]).

Definition store (p t : str) (w : world) : world :=
  World (<[p := t]> (files w)) (creatable w) (child w) (trace w).

Definition is_file (w : world) (p : str) : bool :=
  match files w !! p with Some _ => true | None => false end.

(** ** The monad of the script: state and exceptions *)

Definition M (A : Type) : Type := world -> result A * world.

#[global] Instance result_ret : MRet result := fun A a => Ok a.
#[global] Instance result_bind : MBind result := fun A B k m =>
  match m with
  | Ok a => k a
  | Raise e => Raise e
  end.

#[global] Instance M_ret : MRet M := fun A a w => (Ok a, w).
#[global] Instance M_bind : MBind M := fun A B k m w =>
  match m w with
  | (Ok a, w') => k a w'
  | (Raise e, w') => (Raise e, w')
  end.

Definition raise {A : Type} (e : exn) : M A := fun w => (Raise e, w).

(** A pure computation that may raise, run inside the script. *)
Definition lift {A : Type} (r : result A) : M A := fun w => (r, w).

(** ** The runtime's input and output *)

(** [print(msg)] *)
Definition print (msg : str) : M unit := fun w => (Ok tt, log (EPrint msg) w).

(** [os.path.exists(p)] *)
Definition os_path_exists (p : str) : M bool :=
  fun w => (Ok (is_file w p), log (EExists p) w).

(** [os.path.join(a, b)] (POSIX) *)
Definition os_path_join (a b : str) : str :=
  if startswith b (lit "/") then b
  else match last a with
       | None => b
       | Some c => if (c =? 47)%N then a ++ b else a ++ lit "/" ++ b
       end.

(** Reading in text mode with universal newlines: "\r\n" and a lone "\r"
    are read as "\n". *)
Fixpoint universal_newlines (s : str) : str :=
  match s with
  | [] => []
  | c :: s' =>
      if (c =? 13)%N then
        NL :: match s' with
              | c' :: s'' =>
                  if (c' =? NL)%N then universal_newlines s''
                  else universal_newlines s'
              | [] => []
              end
      else c :: universal_newlines s'
  end.

(** The lines of a text, each with its "\n" (the last one may lack it). *)
Fixpoint split_lines (s : str) : list str :=
  match s with
  | [] => []
  | c :: s' =>
      if (c =? NL)%N then [c] :: split_lines s'
      else match split_lines s' with
           | [] => [[c]]
           | l :: ls => (c :: l) :: ls
           end
  end.

(** [with open(p, "r", encoding="utf-8") as f: lines = f.readlines()] *)
Definition read_lines (p : str) : M (list str) := fun w =>
  match files w !! p with
  | Some t => (Ok (split_lines (universal_newlines t)), log (EOpenR p) w)
  | None => (Raise OSError, log (EOpenR p) w)
  end.

(** [with open(p, "w", encoding="utf-8") as f: f.write(t)]: an existing
    file is truncated and rewritten, a missing one is created where that
    is possible. *)
Definition write_text (p t : str) : M unit := fun w =>
  if is_file w p || creatable w p
  then (Ok tt, store p t (log (EOpenW p) w))
  else (Raise OSError, log (EOpenW p) w).

(** [... f.writelines(lines)] *)
Definition write_lines (p : str) (lines : list str) : M unit :=
  write_text p (concat lines).

(** [subprocess.run(argv, check=check)] *)
Definition subprocess_run (argv : list str) (check : bool)
  : M CompletedProcess := fun w =>
  let r := child w (trace w) argv in
  let w' := log (ERun argv) w in
  if check && negb (returncode r =? 0)%Z
  then (Raise CalledProcessError, w')
  else (Ok r, w').

(** [l[i]] *)
Definition py_index (l : list str) (i : nat) : result str :=
  match l !! i with
  | Some x => Ok x
  | None => Raise IndexError
  end.

(** [l[a:b]] *)
Definition slice (l : list str) (a b : nat) : list str :=
  take (b - a) (drop a l).

(** [next(i for i, line in enumerate(lines) if p(line))]; [None] stands
    for [StopIteration]. *)
Fixpoint first_index (p : str -> bool) (lines : list str) : option nat :=
  match lines with
  | [] => None
  | l :: lines' => if p l then Some 0 else S <$> first_index p lines'
  end.

(** The symbols the script's messages start with. *)
Definition CROSS : str := [10060%N].
Definition CHECKMARK : str := [9989%N].
Definition WARN : str := [9888%N; 65039%N].
Definition INFO : str := [8505%N; 65039%N].
Definition ARROW : str := [8594%N].

(** An instance of the Unicode table below for closed examples: no
    decimal digit outside ASCII. *)
Definition ascii_digits_only : char -> option N := fun _ => None.

Section Updater.

(** The decimal-digit property of the non-ASCII code points
    ([Py_UNICODE_TODECIMAL]): it belongs to the interpreter's Unicode
    database, not to the script, and is taken as given.  [\d] in a [str]
    pattern and [int()] both read it. *)
Variable uni_decimal : char -> option N.

Definition to_decimal (c : char) : option N :=
  if (c <? 128)%N then
    if ((48 <=? c) && (c <=? 57))%N then Some (c - 48)%N else None
  else uni_decimal c.

(** [\d] *)
Definition isdecimal (c : char) : bool :=
  match to_decimal c with Some _ => true | None => false end.

(** [int(s)] on the texts [strptime] extracts: surrounding whitespace is
    stripped, then every character must be a decimal digit. *)
Fixpoint int_digits (acc : N) (s : str) : option N :=
  match s with
  | [] => Some acc
  | c :: s' =>
      match to_decimal c with
      | Some d => int_digits (10 * acc + d)%N s'
      | None => None
      end
  end.

Definition py_int (s : str) : option N :=
  match strip s with
  | [] => None
  | t => int_digits 0%N t
  end.

(** ** [re.fullmatch(r"\d{8}", s)] *)
Definition fullmatch_d8 (s : str) : bool :=
  (length s =? 8)%nat && forallb isdecimal s.

(** ** [re.search(r'href="(\d{8})\.html"', line)]: group 1 of the leftmost
    match. *)
Definition match_li_here (s : str) : option str :=
  if startswith s (litq "href=`") then
    let r := drop 6 s in
    let d := take 8 r in
    if (length d =? 8)%nat && forallb isdecimal d
       && startswith (drop 8 r) (litq ".html`")
    then Some d else None
  else None.

Fixpoint search_li (s : str) : option str :=
  match match_li_here s with
  | Some d => Some d
  | None =>
      match s with
      | [] => None
      | _ :: s' => search_li s'
      end
  end.

(** ** [datetime.strptime(s, "%Y%m%d")]

    CPython compiles the format to the pattern
    [(?P<Y>\d\d\d\d)(?P<m>1[0-2]|0[1-9]|[1-9])(?P<d>3[0-1]|[1-2]\d|0[1-9]|[1-9]| [1-9])],
    matches it at the start of the string, rejects unconverted trailing
    data, converts the groups with [int] and builds the date, which checks
    the ranges.  Every failure is a [ValueError].  Each group matcher lists
    its matches in the order the backtracking tries them. *)
Definition in_range (lo hi c : N) : bool := ((lo <=? c) && (c <=? hi))%N.

Definition match_Y (s : str) : list (str * str) :=
  let y := take 4 s in
  if (length y =? 4)%nat && forallb isdecimal y then [(y, drop 4 s)] else [].

Definition match_m (s : str) : list (str * str) :=
  match s with
  | a :: b :: r =>
      (if (a =? 49)%N && in_range 48 50 b then [([a; b], r)] else []) ++
      (if (a =? 48)%N && in_range 49 57 b then [([a; b], r)] else []) ++
      (if in_range 49 57 a then [([a], b :: r)] else [])
  | [a] => if in_range 49 57 a then [([a], [])] else []
  | [] => []
  end.

Definition match_d (s : str) : list (str * str) :=
  match s with
  | a :: b :: r =>
      (if (a =? 51)%N && in_range 48 49 b then [([a; b], r)] else []) ++
      (if in_range 49 50 a && isdecimal b then [([a; b], r)] else []) ++
      (if (a =? 48)%N && in_range 49 57 b then [([a; b], r)] else []) ++
      (if in_range 49 57 a then [([a], b :: r)] else []) ++
      (if (a =? 32)%N && in_range 49 57 b then [([a; b], r)] else [])
  | [a] => if in_range 49 57 a then [([a], [])] else []
  | [] => []
  end.

(** All matches of the whole pattern at the start of [s], first tried
    first: (year text, month text, day text, unmatched rest). *)
Definition match_Ymd (s : str) : list (str * str * str * str) :=
  '(y, r1) ← match_Y s;
  '(m, r2) ← match_m r1;
  '(d, r3) ← match_d r2;
  [(y, m, d, r3)].

Definition is_leap (y : N) : bool :=
  ((y mod 4 =? 0) && (negb (y mod 100 =? 0) || (y mod 400 =? 0)))%N.

Definition days_in_month (y m : N) : N :=
  if (m =? 2)%N then (if is_leap y then 29 else 28)%N
  else if ((m =? 4) || (m =? 6) || (m =? 9) || (m =? 11))%N then 30%N
  else 31%N.

(** The date constructor's range checks. *)
Definition valid_date (y m d : N) : bool :=
  ((1 <=? y) && (y <=? 9999) && (1 <=? m) && (m <=? 12) &&
   (1 <=? d) && (d <=? days_in_month y m))%N.

(** (year, month, day) of the parsed date, or [None] for [ValueError]. *)
Definition strptime_Ymd (s : str) : option (N * N * N) :=
  match match_Ymd s with
  | [] => None
  | (yt, mt, dt, rest) :: _ =>
      match rest with
      | _ :: _ => None
      | [] =>
          match py_int yt, py_int mt, py_int dt with
          | Some y, Some m, Some d =>
              if valid_date y m d then Some (y, m, d) else None
          | _, _, _ => None
          end
      end
  end.

(** ** The script: the date formatter *)

Definition MONTHS_TR : list (N * str) :=
  [ (1%N, lit "January"); (2%N, lit "February"); (3%N, lit "March");
    (4%N, lit "April"); (5%N, lit "May"); (6%N, lit "June");
    (7%N, lit "July"); (8%N, lit "August"); (9%N, lit "September");
    (10%N, lit "October"); (11%N, lit "November"); (12%N, lit "December") ].

Fixpoint table_get (k : N) (t : list (N * str)) : option str :=
  match t with
  | [] => None
  | (k', v) :: t' => if (k =? k')%N then Some v else table_get k t'
  end.

Definition format_turkish_date (yyyymmdd : str) : result str :=
  match strptime_Ymd yyyymmdd with
  | None => Raise ValueError
  | Some (year, month, day) =>
      match table_get month MONTHS_TR with
      | None => Raise KeyError
      | Some name =>
          Ok (name ++ lit " " ++ str_of_N day ++ lit ", " ++ str_of_N year)
      end
  end.

(** ** The script: the index merge *)

(** [parse_li_line]: the date and the line, or [None] for the pair
    [(None, None)]. *)
Definition parse_li_line (line : str) : option (str * str) :=
  match search_li line with
  | Some yyyymmdd => Some (yyyymmdd, line)
  | None => None
  end.

(** The [<ul>] block: [start] and [end], or [None] when [next] raises
    [StopIteration] for either marker. *)
Definition find_ul_block (lines : list str) : option (nat * nat) :=
  match first_index (str_in (lit "<ul>")) lines with
  | None => None
  | Some i =>
      match first_index (str_in (lit "</ul>")) lines with
      | None => None
      | Some e => Some (i + 1, e)
      end
  end.

(** The loop that fills [existing]. *)
Fixpoint parse_existing (li_lines : list str) (existing : dict) : dict :=
  match li_lines with
  | [] => existing
  | line :: rest =>
      match parse_li_line line with
      | Some (date_str, full_line) =>
          match date_str with
          | [] => parse_existing rest existing
          | _ :: _ => parse_existing rest (dict_set date_str full_line existing)
          end
      | None => parse_existing rest existing
      end
  end.

Definition new_li_line (yyyymmdd display_date : str) : str :=
  litq "    <li><a href=`" ++ yyyymmdd ++ litq ".html`>" ++ display_date
  ++ lit "</a></li>" ++ [NL].

Definition add_entry_to_index (folder yyyymmdd : str) : M bool :=
  let index_path := os_path_join folder (lit "index.html") in
  found ← os_path_exists index_path;
  if negb found then
    print (CROSS ++ lit " " ++ index_path ++ lit " not found.");;
    mret false
  else
    display_date ← lift (format_turkish_date yyyymmdd);
    let new_line := new_li_line yyyymmdd display_date in
    lines ← read_lines index_path;
    match find_ul_block lines with
    | None =>
        print (CROSS ++ lit " No <ul> block found in " ++ index_path);;
        mret false
    | Some (start, end_) =>
        let li_lines := slice lines start end_ in
        let existing := parse_existing li_lines [] in
        '(existing, changed) ←
          (if negb (dict_mem yyyymmdd existing) then
             print (CHECKMARK ++ lit " Added " ++ yyyymmdd ++ lit " " ++ ARROW
                    ++ lit " " ++ display_date ++ lit " to " ++ index_path);;
             mret (dict_set yyyymmdd new_line existing, true)
           else
             print (WARN ++ lit " " ++ yyyymmdd ++ lit " already exists in "
                    ++ index_path ++ lit ", skipping insert.");;
             mret (existing, false));
        let sorted_dates := sorted_desc (dict_keys existing) in
        sorted_li_lines ← lift (dict_get_all sorted_dates existing);
        let new_lines := take start lines ++ sorted_li_lines ++ drop end_ lines in
        write_lines index_path new_lines;;
        mret changed
    end.

(** ** The script: the daily page *)

Definition dict_title : dict :=
  [ (lit "minisudoku", lit "Mini Sudoku"); (lit "zip", lit "Zip");
    (lit "queens", lit "Queens"); (lit "tango", lit "Tango") ].

Definition daily_content (title display_date folder yyyymmdd : str) : str :=
  lit "<!DOCTYPE html>" ++ [NL] ++
  litq "<html lang=`en`>" ++ [NL] ++
  lit "<head>" ++ [NL] ++
  litq "  <meta charset=`UTF-8`>" ++ [NL] ++
  litq "  <meta name=`viewport` content=`width=device-width, initial-scale=1.0` />" ++ [NL] ++
  lit "  <title>" ++ title ++ lit " Solution " ++ [8211%N] ++ lit " " ++ display_date ++ lit "</title>" ++ [NL] ++
  litq "  <link rel=`stylesheet` href=`../style.css`>" ++ [NL] ++
  lit "</head>" ++ [NL] ++
  lit "<body>" ++ [NL] ++
  lit "  <header>" ++ [NL] ++
  litq "    <div class=`container`>" ++ [NL] ++
  litq "      <a href=`/` class=`logo`>LinkedIn <span>Games</span></a>" ++ [NL] ++
  lit "      <nav>" ++ [NL] ++
  litq "        <a href=`/`>Home</a>" ++ [NL] ++
  litq "        <a href=`/today/`>Today's Solutions</a>" ++ [NL] ++
  litq "        <a href=`/about.html`>About</a>" ++ [NL] ++
  lit "      </nav>" ++ [NL] ++
  lit "    </div>" ++ [NL] ++
  lit "  </header>" ++ [NL] ++
  [NL] ++
  litq "  <main class=`container`>" ++ [NL] ++
  lit "    <h1>" ++ title ++ lit " " ++ [8211%N] ++ lit " " ++ display_date ++ lit "</h1>" ++ [NL] ++
  [NL] ++
  litq "    <img src=`../images/" ++ folder ++ lit "_" ++ yyyymmdd ++ litq ".jpeg` alt=`" ++ title ++ litq " Solution` style=`max-width: 60%;`>" ++ [NL] ++
  [NL] ++
  lit "    <footer>" ++ [NL] ++
  lit "      <hr>" ++ [NL] ++
  litq "      <a href=`../today/` class=`nav`>" ++ [8592%N] ++ lit " Back to Today's Solutions</a>" ++ [NL] ++
  lit "    </footer>" ++ [NL] ++
  lit "  </main>" ++ [NL] ++
  lit "</body>" ++ [NL] ++
  lit "</html>" ++ [NL].

Definition create_daily_file (folder yyyymmdd : str) : M bool :=
  let daily_path := os_path_join folder (yyyymmdd ++ lit ".html") in
  found ← os_path_exists daily_path;
  if (found : bool) then
    print (WARN ++ lit " " ++ daily_path ++ lit " already exists, skipping.");;
    mret false
  else
    display_date ← lift (format_turkish_date yyyymmdd);
    match dict_get folder dict_title with
    | None => raise KeyError
    | Some title =>
        let content := daily_content title display_date folder yyyymmdd in
        write_text daily_path content;;
        print (CHECKMARK ++ lit " Created " ++ daily_path);;
        mret true
    end.

(** ** The script: the homepage *)

(** The loop over [enumerate(lines)]: [todo] are the lines still to visit,
    [i] the index of the first of them, [lines] the list being updated in
    place. *)
Fixpoint root_loop (new_list_item new_title new_og_title : str)
    (i : nat) (todo lines : list str) (changed : bool) : list str * bool :=
  match todo with
  | [] => (lines, changed)
  | line :: todo' =>
      let continue := root_loop new_list_item new_title new_og_title (S i) todo' in
      if str_in (litq "<a href=`/today/`>") line then
        if negb (str_eqb new_list_item line)
        then continue (<[i := new_list_item]> lines) true
        else continue lines changed
      else if startswith (strip line) (lit "<title>") then
        if negb (str_eqb (strip new_title) (strip line))
        then continue (<[i := new_title]> lines) true
        else continue lines changed
      else if str_in (litq "property=`og:title`") line then
        if negb (str_eqb (strip new_og_title) (strip line))
        then continue (<[i := new_og_title]> lines) true
        else continue lines changed
      else continue lines changed
  end.

Definition update_root_index (yyyymmdd : str) : M bool :=
  let index_path := lit "index.html" in
  found ← os_path_exists index_path;
  if negb found then
    print (CROSS ++ lit " " ++ index_path ++ lit " not found.");;
    mret false
  else
    display_date ← lift (format_turkish_date yyyymmdd);
    let new_list_item :=
      litq "    <li><a href=`/today/`>" ++ [127919%N] ++ lit " " ++ display_date
      ++ lit "</a></li>" ++ [NL] in
    let new_title :=
      lit "  <title>LinkedIn Games Solutions " ++ [8211%N]
      ++ lit " Mini Sudoku, Zip, Queens & Tango</title>" ++ [NL] in
    let new_og_title :=
      litq "  <meta property=`og:title` content=`LinkedIn Games Solutions`>"
      ++ [NL] in
    lines ← read_lines index_path;
    let '(lines, changed) :=
      root_loop new_list_item new_title new_og_title 0 lines lines false in
    (if changed then
       write_lines index_path lines;;
       print (CHECKMARK ++ lit " Updated root index.html with " ++ display_date)
     else
       print (WARN ++ lit " Root index.html already up to date."));;
    mret changed.

(** ** The script: the landing page *)

(** The search for the card's link line:
    [for j in range(i + 2, min(i + 6, len(lines)))]. *)
Definition card_link_index (lines : list str) (i : nat) : option nat :=
  find (fun j =>
          match lines !! j with
          | Some l => str_in (lit "<a href=") l && str_in (lit "../") l
          | None => false
          end)
       (seq (i + 2) (min (i + 6) (length lines) - (i + 2))).

(** [while i < len(lines) and i < next_a_line_idx]: comparing an integer
    with [None] raises [TypeError]. *)
Fixpoint copy_card_lines (fuel : nat) (lines : list str)
    (next_a_line_idx : option nat) (i : nat) (new_lines : list str)
  : result (nat * list str) :=
  if i <? length lines then
    match next_a_line_idx with
    | None => Raise TypeError
    | Some j =>
        if i <? j then
          match fuel with
          | 0 => Raise OutOfFuel
          | S fuel' =>
              line ← py_index lines i;
              copy_card_lines fuel' lines next_a_line_idx (i + 1)
                (new_lines ++ [line])
          end
        else Ok (i, new_lines)
    end
  else Ok (i, new_lines).

Definition card_link (game yyyymmdd : str) : str :=
  litq "        <a href=`../" ++ game ++ lit "/" ++ yyyymmdd
  ++ litq ".html`>View Solution</a>" ++ [NL].

(** The state of the scan: [i], [new_lines], [changed]. *)
Definition scan_state : Type := nat * list str * bool.

(** One turn of the outer [while] loop, entered with [i < len(lines)]. *)
Definition today_step (yyyymmdd display_date : str) (lines : list str)
    (st : scan_state) : result scan_state :=
  let '(i, new_lines, changed) := st in
  line ← py_index lines i;
  let plain : result scan_state := Ok (i + 1, new_lines ++ [line], changed) in
  if startswith (strip line) (lit "<h1>") then
    Ok (i + 1, new_lines ++ [lit "    <h1>" ++ display_date ++ lit "</h1>" ++ [NL]],
        true)
  else if str_in (litq "<div class=`game-card`>") line && (i + 2 <? length lines)
  then
    h3_line ← py_index lines (i + 1);
    if startswith (strip h3_line) (lit "<h3>") then
      let next_a_line_idx := card_link_index lines i in
      let new_lines := new_lines ++ [line] ++ [h3_line] in
      '(i, new_lines) ←
        copy_card_lines (length lines) lines next_a_line_idx (i + 2) new_lines;
      if match next_a_line_idx with Some j => negb (j =? 0) | None => false end
         && (i <? length lines)
      then
        a_line ← py_index lines i;
        if str_in (lit "../minisudoku/") a_line then
          Ok (i + 1, new_lines ++ [card_link (lit "minisudoku") yyyymmdd], true)
        else if str_in (lit "../zip/") a_line then
          Ok (i + 1, new_lines ++ [card_link (lit "zip") yyyymmdd], true)
        else if str_in (lit "../queens/") a_line then
          Ok (i + 1, new_lines ++ [card_link (lit "queens") yyyymmdd], true)
        else if str_in (lit "../tango/") a_line then
          Ok (i + 1, new_lines ++ [card_link (lit "tango") yyyymmdd], true)
        else Ok (i + 1, new_lines ++ [a_line], changed)
      else Ok (i + 1, new_lines, changed)
    else plain
  else plain.

(** The outer [while i < len(lines)] loop. *)
Fixpoint today_loop (fuel : nat) (yyyymmdd display_date : str)
    (lines : list str) (st : scan_state) : result (list str * bool) :=
  if fst (fst st) <? length lines then
    match fuel with
    | 0 => Raise OutOfFuel
    | S fuel' =>
        st' ← today_step yyyymmdd display_date lines st;
        today_loop fuel' yyyymmdd display_date lines st'
    end
  else Ok (snd (fst st), snd st).

(** The whole scan; every turn advances [i], so [len(lines)] turns
    suffice. *)
Definition today_scan (yyyymmdd display_date : str) (lines : list str)
  : result (list str * bool) :=
  today_loop (length lines) yyyymmdd display_date lines (0, [], false).

Definition update_today_index (yyyymmdd : str) : M bool :=
  let today_path := os_path_join (lit "today") (lit "index.html") in
  found ← os_path_exists today_path;
  if negb found then
    print (CROSS ++ lit " " ++ today_path ++ lit " not found.");;
    mret false
  else
    display_date ← lift (format_turkish_date yyyymmdd);
    lines ← read_lines today_path;
    '(new_lines, changed) ← lift (today_scan yyyymmdd display_date lines);
    (if (changed : bool) then
       write_lines today_path new_lines;;
       print (CHECKMARK ++ lit " Updated today/index.html for " ++ display_date)
     else
       print (WARN ++ lit " today/index.html already up to date."));;
    mret changed.

(** ** The script: the commit *)

Definition git_commit_changes (yyyymmdd : str) (changed_files : list str)
  : M unit :=
  match changed_files with
  | [] => print (WARN ++ lit " No changes to commit.")
  | _ :: _ =>
      let branch_name := yyyymmdd in
      result ← subprocess_run
                 [lit "git"; lit "branch"; lit "--list"; branch_name] false;
      (match strip (stdout (result : CompletedProcess)) with
       | _ :: _ =>
           subprocess_run [lit "git"; lit "checkout"; branch_name] true;;
           print (INFO ++ lit " Branch '" ++ branch_name
                  ++ lit "' already exists, checking it out.")
       | [] =>
           subprocess_run [lit "git"; lit "checkout"; lit "-b"; branch_name] true;;
           print (CHECKMARK ++ lit " Created new branch '" ++ branch_name
                  ++ lit "'.")
       end);;
      subprocess_run ([lit "git"; lit "add"] ++ changed_files) true;;
      let commit_msg := lit "Add " ++ yyyymmdd ++ lit " entry" in
      subprocess_run [lit "git"; lit "commit"; lit "-m"; commit_msg] true;;
      print (CHECKMARK ++ lit " Committed changes in branch '" ++ branch_name
             ++ lit "'.")
  end.

(** ** The script: the entry point *)

(** The loop over the game folders. *)
Fixpoint process_folders (folders : list str) (yyyymmdd : str)
    (changed_files : list str) : M (list str) :=
  match folders with
  | [] => mret changed_files
  | folder :: rest =>
      added ← add_entry_to_index folder yyyymmdd;
      let changed_files :=
        if (added : bool)
        then changed_files ++ [os_path_join folder (lit "index.html")]
        else changed_files in
      created ← create_daily_file folder yyyymmdd;
      let changed_files :=
        if (created : bool)
        then changed_files ++ [os_path_join folder (yyyymmdd ++ lit ".html")]
        else changed_files in
      process_folders rest yyyymmdd changed_files
  end.

Definition folders : list str :=
  [lit "minisudoku"; lit "zip"; lit "queens"; lit "tango"].

(** The [__main__] block after its argument checks. *)
Definition run_updates (yyyymmdd : str) : M unit :=
  changed_files ← process_folders folders yyyymmdd [];
  root_changed ← update_root_index yyyymmdd;
  let changed_files :=
    if (root_changed : bool) then changed_files ++ [lit "index.html"]
    else changed_files in
  today_changed ← update_today_index yyyymmdd;
  let changed_files :=
    if (today_changed : bool)
    then changed_files ++ [os_path_join (lit "today") (lit "index.html")]
    else changed_files in
  match changed_files with
  | _ :: _ => git_commit_changes yyyymmdd changed_files
  | [] => mret tt
  end.

(** The [__main__] block, given [sys.argv]. *)
Definition main (argv : list str) : M unit :=
  if negb (length argv =? 2) then
    print (lit "Usage: python add_entry.py YYYYMMDD");;
    raise (SystemExit 1)
  else
    yyyymmdd ← lift (py_index argv 1);
    if negb (fullmatch_d8 yyyymmdd) then
      print (CROSS ++ lit " Date must be in format YYYYMMDD, e.g., 20250923");;
      raise (SystemExit 1)
    else run_updates yyyymmdd.

(** * Verification *)

(** ** Running the monad *)

Lemma bind_ok {A B : Type} (m : M A) (k : A -> M B) (w w' : world) (a : A) :
  m w = (Ok a, w') -> (m ≫= k) w = k a w'.
Proof. intros E. unfold mbind, M_bind. now rewrite E. Qed.

Lemma bind_raise {A B : Type} (m : M A) (k : A -> M B) (w w' : world) (e : exn) :
  m w = (Raise e, w') -> (m ≫= k) w = (Raise e, w').
Proof. intros E. unfold mbind, M_bind. now rewrite E. Qed.

Lemma bind_print {B : Type} (msg : str) (k : unit -> M B) (w : world) :
  (print msg ≫= k) w = k tt (log (EPrint msg) w).
Proof. reflexivity. Qed.

Lemma bind_exists {B : Type} (p : str) (k : bool -> M B) (w : world) :
  (os_path_exists p ≫= k) w = k (is_file w p) (log (EExists p) w).
Proof. reflexivity. Qed.

Lemma bind_lift_ok {A B : Type} (a : A) (k : A -> M B) (w : world) :
  (lift (Ok a) ≫= k) w = k a w.
Proof. reflexivity. Qed.

Lemma bind_lift_raise {A B : Type} (e : exn) (k : A -> M B) (w : world) :
  (lift (Raise e) ≫= k) w = (Raise e, w).
Proof. reflexivity. Qed.

Lemma bind_assoc {A B C : Type} (m : M A) (k1 : A -> M B) (k2 : B -> M C) (w : world) :
  ((m ≫= k1) ≫= k2) w = (m ≫= (fun a => k1 a ≫= k2)) w.
Proof. unfold mbind, M_bind. destruct (m w) as [[a|e] w1]; reflexivity. Qed.

Lemma bind_read {B : Type} (p t : str) (k : list str -> M B) (w : world) :
  files w !! p = Some t ->
  (read_lines p ≫= k) w
  = k (split_lines (universal_newlines t)) (log (EOpenR p) w).
Proof. intros E. unfold mbind, M_bind, read_lines. now rewrite E. Qed.

Lemma bind_write_existing {B : Type} (p t t0 : str) (k : unit -> M B) (w : world) :
  files w !! p = Some t0 ->
  (write_text p t ≫= k) w = k tt (store p t (log (EOpenW p) w)).
Proof. intros E. unfold mbind, M_bind, write_text, is_file. now rewrite E. Qed.

Lemma files_log (e : event) (w : world) : files (log e w) = files w.
Proof. reflexivity. Qed.

Lemma is_file_log (e : event) (w : world) (p : str) :
  is_file (log e w) p = is_file w p.
Proof. reflexivity. Qed.

(** ** The daily page is never overwritten *)

(** C6: when a file already exists at the page's path, whatever it holds
    and whatever the game and the date are, [create_daily_file] returns
    [False], leaves every file as it is and only asks whether the path
    exists and prints the skip message. *)
Theorem create_daily_file_never_overwrites (folder yyyymmdd content : str) (w : world) :
  let daily_path := os_path_join folder (yyyymmdd ++ lit ".html") in
  files w !! daily_path = Some content ->
  exists w',
    create_daily_file folder yyyymmdd w = (Ok false, w')
    /\ files w' = files w
    /\ files w' !! daily_path = Some content
    /\ trace w' = trace w ++
         [EExists daily_path;
          EPrint (WARN ++ lit " " ++ daily_path ++ lit " already exists, skipping.")].
Proof.
  intros daily_path Hfile.
  eexists. split.
  - unfold create_daily_file. fold daily_path.
    rewrite bind_exists. unfold is_file. rewrite Hfile.
    rewrite bind_print. reflexivity.
  - cbn. rewrite <- app_assoc. auto.
Qed.

(** ** Invariants every operation of the script keeps

    [R] is a preorder on worlds that logging keeps and that storing a file
    keeps at the paths in [allowed]; an operation [preserves] it when the
    world it leaves is related to the world it found, whether it returns
    or raises. *)

Section Preserves.

Variable R : relation world.
Context `{!PreOrder R}.
Variable allowed : str -> Prop.
Hypothesis R_log : forall e w, R w (log e w).
Hypothesis R_store : forall p t w, allowed p -> R w (store p t w).

Definition preserves {A : Type} (m : M A) : Prop := forall w, R w (snd (m w)).

Lemma preserves_ret {A : Type} (a : A) : preserves (mret a).
Proof. intros w. cbn. reflexivity. Qed.

Lemma preserves_raise {A : Type} (e : exn) : preserves (@raise A e).
Proof. intros w. cbn. reflexivity. Qed.

Lemma preserves_lift {A : Type} (r : result A) : preserves (lift r).
Proof. intros w. cbn. reflexivity. Qed.

Lemma preserves_bind {A B : Type} (m : M A) (k : A -> M B) :
  preserves m -> (forall a, preserves (k a)) -> preserves (m ≫= k).
Proof.
  intros Hm Hk w. unfold mbind, M_bind.
  specialize (Hm w). destruct (m w) as [[a|e] w1]; cbn in *; [|assumption].
  etransitivity; [eassumption|apply Hk].
Qed.

Lemma preserves_print (msg : str) : preserves (print msg).
Proof. intros w. cbn. apply R_log. Qed.

Lemma preserves_exists (p : str) : preserves (os_path_exists p).
Proof. intros w. cbn. apply R_log. Qed.

Lemma preserves_read (p : str) : preserves (read_lines p).
Proof. intros w. unfold read_lines. destruct (files w !! p); cbn; apply R_log. Qed.

Lemma preserves_write (p t : str) : allowed p -> preserves (write_text p t).
Proof.
  intros Hp w. unfold write_text.
  destruct (is_file w p || creatable w p); cbn; [|apply R_log].
  etransitivity; [apply R_log|]. now apply R_store.
Qed.

Lemma preserves_run (argv : list str) (check : bool) :
  preserves (subprocess_run argv check).
Proof.
  intros w. unfold subprocess_run.
  destruct (check && _); cbn; apply R_log.
Qed.

Ltac preserves_tac :=
  repeat first
    [ apply preserves_ret | apply preserves_raise | apply preserves_lift
    | apply preserves_print | apply preserves_exists | apply preserves_read
    | apply preserves_run
    | apply preserves_write; assumption
    | apply preserves_bind; [|intros; cbv beta]
    | match goal with
      | |- preserves (if ?b then _ else _) => destruct b
      | |- preserves (match ?x with _ => _ end) => destruct x
      end ].

Lemma preserves_add_entry (folder yyyymmdd : str) :
  allowed (os_path_join folder (lit "index.html")) ->
  preserves (add_entry_to_index folder yyyymmdd).
Proof. intros Hp. unfold add_entry_to_index, write_lines. preserves_tac. Qed.

Lemma preserves_create_daily (folder yyyymmdd : str) :
  allowed (os_path_join folder (yyyymmdd ++ lit ".html")) ->
  preserves (create_daily_file folder yyyymmdd).
Proof. intros Hp. unfold create_daily_file. preserves_tac. Qed.

Lemma preserves_update_root (yyyymmdd : str) :
  allowed (lit "index.html") -> preserves (update_root_index yyyymmdd).
Proof. intros Hp. unfold update_root_index, write_lines. preserves_tac. Qed.

Lemma preserves_update_today (yyyymmdd : str) :
  allowed (os_path_join (lit "today") (lit "index.html")) ->
  preserves (update_today_index yyyymmdd).
Proof. intros Hp. unfold update_today_index, write_lines. preserves_tac. Qed.

Lemma preserves_git_commit (yyyymmdd : str) (changed_files : list str) :
  preserves (git_commit_changes yyyymmdd changed_files).
Proof. unfold git_commit_changes. preserves_tac. Qed.

Lemma preserves_process_folders (fs : list str) (yyyymmdd : str) (cf : list str) :
  (forall f, f ∈ fs ->
     allowed (os_path_join f (lit "index.html"))
     /\ allowed (os_path_join f (yyyymmdd ++ lit ".html"))) ->
  preserves (process_folders fs yyyymmdd cf).
Proof.
  revert cf. induction fs as [|f fs IH]; intros cf Hfs; cbn [process_folders].
  - apply preserves_ret.
  - destruct (Hfs f) as [H1 H2]; [left|].
    apply preserves_bind; [now apply preserves_add_entry|intros a].
    apply preserves_bind; [now apply preserves_create_daily|intros b].
    apply IH. intros g Hg. apply Hfs. now right.
Qed.

Lemma preserves_after {A B : Type} (m : M A) (k : A -> M B) (w : world) :
  (forall a, preserves (k a)) -> R (snd (m w)) (snd ((m ≫= k) w)).
Proof.
  intros Hk. unfold mbind, M_bind.
  destruct (m w) as [[a|e] w1]; cbn; [apply Hk|reflexivity].
Qed.

Lemma preserves_run_updates (yyyymmdd : str) :
  (forall p, allowed p) -> preserves (run_updates yyyymmdd).
Proof.
  intros Hall. unfold run_updates.
  apply preserves_bind; [apply preserves_process_folders; auto|intros cf].
  apply preserves_bind; [apply preserves_update_root; auto|intros a].
  apply preserves_bind; [apply preserves_update_today; auto|intros b].
  destruct (if b then _ else _); [apply preserves_ret|apply preserves_git_commit].
Qed.

(** What follows the first query of [add_entry_to_index] keeps the
    invariant too. *)
Lemma add_entry_after_query {B : Type} (folder yyyymmdd : str)
    (k : bool -> M B) (w : world) :
  allowed (os_path_join folder (lit "index.html")) ->
  (forall a, preserves (k a)) ->
  R (log (EExists (os_path_join folder (lit "index.html"))) w)
    (snd ((add_entry_to_index folder yyyymmdd ≫= k) w)).
Proof.
  intros Hp Hk. unfold add_entry_to_index. cbv zeta.
  rewrite bind_assoc, bind_exists.
  match goal with
  | |- R ?w1 (snd (?k ?w1)) => enough (Hk' : preserves k) by apply Hk'
  end.
  unfold write_lines. preserves_tac; apply Hk.
Qed.

Lemma run_updates_after_first_query (yyyymmdd : str) (w : world) :
  (forall p, allowed p) ->
  R (log (EExists (lit "minisudoku/index.html")) w) (snd (run_updates yyyymmdd w)).
Proof.
  intros Hall. unfold run_updates, folders. cbn [process_folders].
  rewrite bind_assoc.
  change (lit "minisudoku/index.html")
    with (os_path_join (lit "minisudoku") (lit "index.html")).
  apply add_entry_after_query; [apply Hall|intros a].
  repeat first
    [ apply preserves_process_folders; auto
    | apply preserves_update_root; auto
    | apply preserves_update_today; auto
    | apply preserves_git_commit
    | apply preserves_create_daily; auto
    | apply preserves_add_entry; auto
    | apply preserves_write; auto
    | progress unfold write_lines
    | progress preserves_tac ].
Qed.

End Preserves.

(** ** The trace only grows *)

Definition trace_grows (w w' : world) : Prop := trace w `prefix_of` trace w'.

#[local] Instance trace_grows_preorder : PreOrder trace_grows.
Proof.
  split.
  - intros w. unfold trace_grows. reflexivity.
  - intros a b c Hab Hbc. unfold trace_grows in *. now transitivity (trace b).
Qed.

Lemma trace_grows_log (e : event) (w : world) : trace_grows w (log e w).
Proof. now exists [e]. Qed.

Lemma trace_grows_store (p t : str) (w : world) :
  True -> trace_grows w (store p t w).
Proof. intros _. unfold trace_grows. reflexivity. Qed.

(** ** The command line *)

(** C9: an invocation whose argument count is not one positional argument
    ([len(sys.argv) != 2]), or whose argument fails the 8-digit check
    (the 7-digit "2025923" among them), prints one message and exits with
    code 1; the world it leaves differs from the one it found by that
    message only, so no path was queried, read or written.  An argument
    that passes the check is not examined further at this stage: whether or
    not it is a calendar date ("20250230" is none), the run goes on to its
    first file-system query. *)
Theorem main_rejects_malformed_arguments (argv : list str) (w : world) :
  (length argv <> 2
   \/ (exists code, argv !! 1 = Some code /\ fullmatch_d8 code = false) ->
   exists msg, main argv w = (Raise (SystemExit 1), log (EPrint msg) w))
  /\ (forall prog code, argv = [prog; code] -> fullmatch_d8 code = true ->
      exists evs, trace (snd (main argv w))
                  = trace w ++ EExists (lit "minisudoku/index.html") :: evs)
  /\ fullmatch_d8 (lit "2025923") = false
  /\ fullmatch_d8 (lit "20250230") = true
  /\ format_turkish_date (lit "20250230") = Raise ValueError.
Proof.
  split; [|split; [|repeat split; vm_compute; reflexivity]].
  - intros Hbad. unfold main.
    destruct (length argv =? 2) eqn:Hlen; cbn [negb].
    + apply Nat.eqb_eq in Hlen.
      destruct Hbad as [Hne|(code & Hcode & Hfm)]; [contradiction|].
      unfold py_index. rewrite Hcode, bind_lift_ok, Hfm. cbn [negb].
      eexists. reflexivity.
    + eexists. reflexivity.
  - intros prog code -> Hfm. unfold main.
    cbn [length Nat.eqb negb py_index lookup list_lookup].
    rewrite bind_lift_ok, Hfm. cbn [negb].
    destruct (run_updates_after_first_query trace_grows (fun _ => True)
                trace_grows_log trace_grows_store code w (fun _ => I))
      as [evs Hevs].
    exists evs. rewrite Hevs. cbn [log trace]. now rewrite <- app_assoc.
Qed.

(** ** The landing-page scan *)

Lemma py_index_lt (l : list str) (i : nat) :
  i < length l -> exists x, l !! i = Some x /\ py_index l i = Ok x.
Proof.
  intros Hi. destruct (lookup_lt_is_Some_2 l i Hi) as [x Hx].
  exists x. unfold py_index. now rewrite Hx.
Qed.

(** The inner loop stops at the link line when there is one, and raises
    [TypeError] at its first test when there is none. *)
Lemma copy_card_lines_none (fuel : nat) (lines : list str) (i : nat) (acc : list str) :
  i < length lines -> copy_card_lines fuel lines None i acc = Raise TypeError.
Proof.
  intros Hi. apply Nat.ltb_lt in Hi.
  destruct fuel; cbn [copy_card_lines]; now rewrite Hi.
Qed.

Lemma copy_card_lines_some (fuel : nat) (lines : list str) (i j : nat) (acc : list str) :
  i <= j -> j < length lines -> j - i <= fuel ->
  copy_card_lines fuel lines (Some j) i acc
  = Ok (j, acc ++ take (j - i) (drop i lines)).
Proof.
  revert i acc. induction fuel as [|fuel IH]; intros i acc Hij Hj Hfuel.
  - assert (i = j) as -> by lia.
    cbn [copy_card_lines].
    rewrite (proj2 (Nat.ltb_lt _ _) Hj), Nat.ltb_irrefl, Nat.sub_diag.
    cbn. now rewrite app_nil_r.
  - cbn [copy_card_lines]. rewrite (proj2 (Nat.ltb_lt i (length lines))) by lia.
    destruct (Nat.ltb_spec i j) as [Hlt|Hge].
    + destruct (py_index_lt lines i) as (x & Hx & ->); [lia|].
      cbn [mbind result_bind]. rewrite IH by lia.
      f_equal. f_equal. rewrite <- app_assoc. f_equal.
      replace (j - i) with (S (j - (i + 1))) by lia.
      rewrite (drop_S _ _ _ Hx). cbn. now rewrite Nat.add_1_r.
    + assert (i = j) as -> by lia. rewrite Nat.sub_diag. cbn.
      now rewrite app_nil_r.
Qed.

Lemma card_link_index_some (lines : list str) (i j : nat) :
  card_link_index lines i = Some j ->
  i + 2 <= j /\ j < i + 6 /\ j < length lines
  /\ exists l, lines !! j = Some l
       /\ str_in (lit "<a href=") l = true /\ str_in (lit "../") l = true.
Proof.
  unfold card_link_index. intros Hfind.
  apply find_some in Hfind as [Hin Hp].
  apply in_seq in Hin.
  destruct (lines !! j) as [l|] eqn:Hl; [|discriminate].
  apply andb_true_iff in Hp as [H1 H2].
  repeat split; [lia..|]. exists l. auto.
Qed.

(** One turn of the scan moves forward, and the only exception it can
    raise is [TypeError]. *)
Lemma today_step_advances (yyyymmdd display_date : str) (lines : list str)
    (i : nat) (acc : list str) (ch : bool) :
  i < length lines ->
  match today_step yyyymmdd display_date lines (i, acc, ch) with
  | Ok (i', _, ch') => i < i' /\ (ch = true -> ch' = true)
  | Raise e => e = TypeError
  end.
Proof.
  intros Hi. unfold today_step.
  destruct (py_index_lt lines i Hi) as (line & Hline & ->).
  cbn [mbind result_bind].
  destruct (startswith (strip line) (lit "<h1>")); [split; [lia|auto]|].
  destruct (str_in _ line && (i + 2 <? length lines)) eqn:Hcard;
    [|split; [lia|auto]].
  apply andb_true_iff in Hcard as [_ Hlen]. apply Nat.ltb_lt in Hlen.
  destruct (py_index_lt lines (i + 1)) as (h3 & Hh3 & ->); [lia|].
  cbn [mbind result_bind].
  destruct (startswith (strip h3) (lit "<h3>")); [|split; [lia|auto]].
  destruct (card_link_index lines i) as [j|] eqn:Hj.
  - apply card_link_index_some in Hj as (Hj1 & Hj2 & Hj3 & l & Hl & _).
    rewrite copy_card_lines_some by lia.
    cbn [mbind result_bind].
    rewrite (proj2 (Nat.ltb_lt _ _) Hj3).
    destruct j as [|j']; [lia|]. cbn [Nat.eqb negb andb].
    destruct (py_index_lt lines (S j') Hj3) as (a & Ha & ->).
    cbn [mbind result_bind].
    repeat match goal with
           | |- context [if ?b then _ else _] => destruct b
           end; split; (lia || auto).
  - rewrite copy_card_lines_none by lia. reflexivity.
Qed.

(** The loop never runs out of fuel: with enough of it the result does
    not depend on it, it is a return or a [TypeError], and a flag that is
    set stays set. *)
Lemma today_loop_fuel (yyyymmdd display_date : str) (lines : list str)
    (fuel fuel' : nat) (st : scan_state) :
  length lines - fst (fst st) <= fuel ->
  length lines - fst (fst st) <= fuel' ->
  today_loop fuel yyyymmdd display_date lines st
  = today_loop fuel' yyyymmdd display_date lines st
  /\ ((exists r, today_loop fuel yyyymmdd display_date lines st = Ok r)
      \/ today_loop fuel yyyymmdd display_date lines st = Raise TypeError)
  /\ (snd st = true ->
      forall r, today_loop fuel yyyymmdd display_date lines st = Ok r ->
                snd r = true).
Proof.
  revert fuel' st. induction fuel as [|fuel IH]; intros fuel' [[i acc] ch] H1 H2;
    cbn [fst snd] in *.
  - assert (Hi : (i <? length lines) = false) by (apply Nat.ltb_ge; lia).
    destruct fuel'; cbn [today_loop fst snd]; rewrite Hi;
      (split; [reflexivity|split; [left; eauto|]]);
      intros -> r [= <-]; reflexivity.
  - cbn [today_loop fst snd].
    destruct (Nat.ltb_spec i (length lines)) as [Hi|Hi].
    + destruct fuel' as [|fuel']; [lia|].
      cbn [today_loop fst snd]. rewrite (proj2 (Nat.ltb_lt _ _) Hi).
      pose proof (today_step_advances yyyymmdd display_date lines i acc ch Hi) as Hs.
      destruct (today_step yyyymmdd display_date lines (i, acc, ch))
        as [[[i' acc'] ch']|e]; cbn [mbind result_bind].
      * destruct Hs as [Hs Hch].
        destruct (IH fuel' (i', acc', ch')) as (IH1 & IH2 & IH3);
          cbn [fst snd]; [lia..|].
        split; [exact IH1|split; [exact IH2|]].
        intros -> r Hr. apply IH3; auto.
      * subst e. split; [reflexivity|split; [now right|discriminate]].
    + destruct fuel'; cbn [today_loop fst snd];
        rewrite (proj2 (Nat.ltb_ge _ _) Hi);
        (split; [reflexivity|split; [left; eauto|]]);
        intros -> r [= <-]; reflexivity.
Qed.

(** The scan ends: it returns the new lines and the flag, or raises
    [TypeError]. *)
Lemma today_scan_total (yyyymmdd display_date : str) (lines : list str) :
  (exists r, today_scan yyyymmdd display_date lines = Ok r)
  \/ today_scan yyyymmdd display_date lines = Raise TypeError.
Proof.
  unfold today_scan.
  apply (today_loop_fuel yyyymmdd display_date lines (length lines) (length lines));
    cbn [fst]; lia.
Qed.

(** The states the scan passes through. *)
Inductive scan_reaches (yyyymmdd display_date : str) (lines : list str)
  : scan_state -> Prop :=
| reaches_start : scan_reaches yyyymmdd display_date lines (0, [], false)
| reaches_step (st st' : scan_state) :
    scan_reaches yyyymmdd display_date lines st ->
    fst (fst st) < length lines ->
    today_step yyyymmdd display_date lines st = Ok st' ->
    scan_reaches yyyymmdd display_date lines st'.

(** From a state it passes through, the scan ends as the loop started
    there ends. *)
Lemma today_scan_from_reached (yyyymmdd display_date : str) (lines : list str)
    (st : scan_state) :
  scan_reaches yyyymmdd display_date lines st ->
  today_scan yyyymmdd display_date lines
  = today_loop (length lines) yyyymmdd display_date lines st.
Proof.
  induction 1 as [|st st' Hr IH Hi Hstep]; [reflexivity|].
  rewrite IH. destruct st as [[i acc] ch]. cbn [fst] in Hi.
  destruct (today_loop_fuel yyyymmdd display_date lines
              (length lines) (S (length lines)) (i, acc, ch)) as [-> _];
    cbn [fst]; [lia..|].
  cbn [today_loop fst]. rewrite (proj2 (Nat.ltb_lt _ _) Hi), Hstep.
  reflexivity.
Qed.

(** A turn of the scan at a recognized card whose lookahead window holds
    no link line raises [TypeError]. *)
Lemma today_step_card_without_link (yyyymmdd display_date : str)
    (lines : list str) (i : nat) (acc : list str) (ch : bool) (line h3 : str) :
  lines !! i = Some line ->
  startswith (strip line) (lit "<h1>") = false ->
  str_in (litq "<div class=`game-card`>") line = true ->
  i + 2 < length lines ->
  lines !! (i + 1) = Some h3 ->
  startswith (strip h3) (lit "<h3>") = true ->
  card_link_index lines i = None ->
  today_step yyyymmdd display_date lines (i, acc, ch) = Raise TypeError.
Proof.
  intros Hline Hh1 Hcard Hlen Hh3 Hsub Hnone. unfold today_step, py_index.
  rewrite Hline. cbn [mbind result_bind].
  rewrite Hh1, Hcard, (proj2 (Nat.ltb_lt _ _) Hlen), Hh3. cbn [andb mbind result_bind].
  rewrite Hsub, Hnone, copy_card_lines_none by lia. reflexivity.
Qed.

(** So does the whole scan once it gets to such a card, and then
    [update_today_index] raises it and writes nothing. *)
Lemma today_scan_card_without_link (yyyymmdd display_date : str)
    (lines : list str) (i : nat) (acc : list str) (ch : bool) (line h3 : str) :
  scan_reaches yyyymmdd display_date lines (i, acc, ch) ->
  lines !! i = Some line ->
  startswith (strip line) (lit "<h1>") = false ->
  str_in (litq "<div class=`game-card`>") line = true ->
  i + 2 < length lines ->
  lines !! (i + 1) = Some h3 ->
  startswith (strip h3) (lit "<h3>") = true ->
  card_link_index lines i = None ->
  today_scan yyyymmdd display_date lines = Raise TypeError.
Proof.
  intros Hr Hline Hh1 Hcard Hlen Hh3 Hsub Hnone.
  rewrite (today_scan_from_reached _ _ _ _ Hr).
  destruct (length lines) as [|n] eqn:Hn; [lia|].
  cbn [today_loop fst]. rewrite (proj2 (Nat.ltb_lt _ _)) by lia.
  rewrite <- Hn in *.
  erewrite today_step_card_without_link; eauto.
Qed.

(** ** The landing page *)

Definition today_path : str := lit "today/index.html".

(** What [update_today_index] does to a landing page that exists, for a
    date that formats: it reads the page, scans its lines, and writes the
    new lines when the scan returns the flag set. *)
Lemma update_today_index_run (yyyymmdd display_date t : str) (w : world) :
  files w !! today_path = Some t ->
  format_turkish_date yyyymmdd = Ok display_date ->
  let w1 := log (EOpenR today_path) (log (EExists today_path) w) in
  update_today_index yyyymmdd w =
  match today_scan yyyymmdd display_date (split_lines (universal_newlines t)) with
  | Raise e => (Raise e, w1)
  | Ok (new_lines, true) =>
      (Ok true,
       log (EPrint (CHECKMARK ++ lit " Updated today/index.html for " ++ display_date))
         (store today_path (concat new_lines) (log (EOpenW today_path) w1)))
  | Ok (new_lines, false) =>
      (Ok false, log (EPrint (WARN ++ lit " today/index.html already up to date.")) w1)
  end.
Proof.
  intros Hfile Hfmt w1. unfold update_today_index. cbv zeta.
  change (os_path_join (lit "today") (lit "index.html")) with today_path.
  rewrite bind_exists. unfold is_file. rewrite Hfile. cbn [negb].
  rewrite Hfmt, bind_lift_ok.
  rewrite (bind_read _ t) by exact Hfile. fold w1.
  destruct (today_scan _ _ _) as [[new_lines [|]]|e].
  - rewrite bind_lift_ok. unfold write_lines.
    rewrite bind_assoc, (bind_write_existing _ _ t) by exact Hfile.
    reflexivity.
  - rewrite bind_lift_ok. reflexivity.
  - rewrite bind_lift_raise. reflexivity.
Qed.

(** C3 fails on the code: at a recognized game card (the card-open marker
    on a line, a sub-heading line next) whose lookahead window holds no
    line with a link, the scan compares its index with [None];
    [update_today_index] raises [TypeError] and the page is not rewritten,
    where the claim has the card passed through with no error. *)
Theorem update_today_index_card_without_link_raises
    (yyyymmdd display_date t : str) (w : world)
    (i : nat) (acc : list str) (ch : bool) (line h3 : str) :
  let lines := split_lines (universal_newlines t) in
  files w !! today_path = Some t ->
  format_turkish_date yyyymmdd = Ok display_date ->
  scan_reaches yyyymmdd display_date lines (i, acc, ch) ->
  lines !! i = Some line ->
  startswith (strip line) (lit "<h1>") = false ->
  str_in (litq "<div class=`game-card`>") line = true ->
  i + 2 < length lines ->
  lines !! (i + 1) = Some h3 ->
  startswith (strip h3) (lit "<h3>") = true ->
  card_link_index lines i = None ->
  fst (update_today_index yyyymmdd w) = Raise TypeError
  /\ files (snd (update_today_index yyyymmdd w)) = files w.
Proof.
  intros lines Hfile Hfmt Hr Hline Hh1 Hcard Hlen Hh3 Hsub Hnone.
  rewrite (update_today_index_run _ _ _ _ Hfile Hfmt). fold lines.
  rewrite (today_scan_card_without_link _ _ _ _ _ _ _ _
             Hr Hline Hh1 Hcard Hlen Hh3 Hsub Hnone).
  split; reflexivity.
Qed.

(** A line of a card that names one of the four games. *)
Definition names_game (a_line : str) : bool :=
  str_in (lit "../minisudoku/") a_line || str_in (lit "../zip/") a_line
  || str_in (lit "../queens/") a_line || str_in (lit "../tango/") a_line.

(** What the scan is looking at in state [(i, _, _)]: a heading line, or a
    recognized card whose link line names a game. *)
Definition at_heading (lines : list str) (i : nat) : Prop :=
  exists line, lines !! i = Some line
    /\ startswith (strip line) (lit "<h1>") = true.

Definition at_card_with_game_link (lines : list str) (i : nat) : Prop :=
  exists line h3 j a_line,
    lines !! i = Some line
    /\ startswith (strip line) (lit "<h1>") = false
    /\ str_in (litq "<div class=`game-card`>") line = true
    /\ i + 2 < length lines
    /\ lines !! (i + 1) = Some h3
    /\ startswith (strip h3) (lit "<h3>") = true
    /\ card_link_index lines i = Some j
    /\ lines !! j = Some a_line
    /\ names_game a_line = true.

Lemma today_step_sets_flag (yyyymmdd display_date : str) (lines : list str)
    (i : nat) (acc : list str) (ch : bool) :
  at_heading lines i \/ at_card_with_game_link lines i ->
  forall st', today_step yyyymmdd display_date lines (i, acc, ch) = Ok st' ->
              snd st' = true.
Proof.
  intros [(line & Hline & Hh1)
         |(line & h3 & j & a & Hline & Hh1 & Hcard & Hlen & Hh3 & Hsub & Hj & Ha & Hg)]
    st'; unfold today_step, py_index; rewrite Hline; cbn [mbind result_bind];
    rewrite Hh1.
  - now intros [= <-].
  - rewrite Hcard, (proj2 (Nat.ltb_lt _ _) Hlen), Hh3. cbn [andb mbind result_bind].
    rewrite Hsub, Hj.
    destruct (card_link_index_some _ _ _ Hj) as (Hj1 & Hj2 & Hj3 & _).
    rewrite copy_card_lines_some by lia. cbn [mbind result_bind].
    rewrite (proj2 (Nat.ltb_lt _ _) Hj3), Ha.
    destruct j as [|j']; [lia|]. cbn [Nat.eqb negb andb mbind result_bind].
    unfold names_game in Hg.
    destruct (str_in (lit "../minisudoku/") a); [now intros [= <-]|].
    destruct (str_in (lit "../zip/") a); [now intros [= <-]|].
    destruct (str_in (lit "../queens/") a); [now intros [= <-]|].
    destruct (str_in (lit "../tango/") a); [now intros [= <-]|].
    discriminate.
Qed.

(** C10, amended: whenever the scan of the landing page ends without an
    exception and has looked at a heading line, or at a recognized card
    whose link line names one of the four games, [update_today_index]
    returns [True] and rewrites the page with the scanned lines.  Nothing
    is compared with the page as it was: the page whose only line is the
    heading the script writes for the date is rewritten with its own text
    and reported as changed. *)
Theorem update_today_index_reports_change
    (yyyymmdd display_date t : str) (w : world)
    (i : nat) (acc : list str) (ch : bool) (new_lines : list str) (changed : bool) :
  let lines := split_lines (universal_newlines t) in
  files w !! today_path = Some t ->
  format_turkish_date yyyymmdd = Ok display_date ->
  scan_reaches yyyymmdd display_date lines (i, acc, ch) ->
  at_heading lines i \/ at_card_with_game_link lines i ->
  today_scan yyyymmdd display_date lines = Ok (new_lines, changed) ->
  changed = true
  /\ fst (update_today_index yyyymmdd w) = Ok true
  /\ files (snd (update_today_index yyyymmdd w))
     = <[today_path := concat new_lines]> (files w)
  /\ EOpenW today_path ∈ trace (snd (update_today_index yyyymmdd w))
  /\ today_scan (lit "20250923") (lit "September 23, 2025")
       [lit "    <h1>September 23, 2025</h1>" ++ [NL]]
     = Ok ([lit "    <h1>September 23, 2025</h1>" ++ [NL]], true).
Proof.
  intros lines Hfile Hfmt Hr Hat Hscan.
  assert (Hch : changed = true).
  { assert (Hi : i < length lines).
    { destruct Hat as [(l & Hl & _)|(l & ? & ? & ? & Hl & _)];
        now apply lookup_lt_Some in Hl. }
    pose proof (today_step_advances yyyymmdd display_date lines i acc ch Hi) as Hadv.
    destruct (today_step yyyymmdd display_date lines (i, acc, ch))
      as [[[i' acc'] ch']|e] eqn:Hstep.
    - pose proof (today_step_sets_flag _ _ _ _ _ _ Hat _ Hstep) as Hset.
      cbn [snd] in Hset. subst ch'.
      assert (Hr' : scan_reaches yyyymmdd display_date lines (i', acc', true))
        by (eapply reaches_step; eauto).
      rewrite (today_scan_from_reached _ _ _ _ Hr') in Hscan.
      destruct (today_loop_fuel yyyymmdd display_date lines
                  (length lines) (length lines) (i', acc', true)) as (_ & _ & Hmono);
        cbn [fst]; [lia..|].
      apply (Hmono eq_refl _ Hscan).
    - rewrite (today_scan_from_reached _ _ _ _ Hr) in Hscan.
      destruct (today_loop_fuel yyyymmdd display_date lines
                  (length lines) (S (length lines)) (i, acc, ch)) as (E & _);
        cbn [fst]; [lia..|].
      rewrite E in Hscan. cbn [today_loop fst] in Hscan.
      rewrite (proj2 (Nat.ltb_lt _ _) Hi), Hstep in Hscan. discriminate. }
  subst changed. split; [reflexivity|].
  rewrite (update_today_index_run _ _ _ _ Hfile Hfmt). fold lines. rewrite Hscan.
  cbn [fst snd log store files trace].
  split; [reflexivity|]. split; [reflexivity|]. split; [|vm_compute; reflexivity].
  rewrite !elem_of_app. left. right. apply list_elem_of_singleton. reflexivity.
Qed.

(** ** The date formatter *)

(** The ASCII digits and the number an ASCII numeral denotes. *)
Definition ascii_digit (c : char) : bool := in_range 48 57 c.

Definition numeral_value (s : str) : N :=
  fold_left (fun acc c => (10 * acc + (c - 48))%N) s 0%N.

(** [s] is the decimal numeral of [n] with no leading zero. *)
Definition is_numeral_of (n : N) (s : str) : bool :=
  forallb ascii_digit s && (numeral_value s =? n)%N
  && match s with
     | [] => false
     | c :: _ => negb (c =? 48)%N
     end.

Lemma ascii_digit_cases (c : char) :
  ascii_digit c = true ->
  c ∈ [48; 49; 50; 51; 52; 53; 54; 55; 56; 57]%N.
Proof.
  unfold ascii_digit, in_range. intros H.
  apply andb_true_iff in H as [H1 H2].
  apply N.leb_le in H1, H2.
  assert (c = 48 \/ c = 49 \/ c = 50 \/ c = 51 \/ c = 52 \/ c = 53 \/ c = 54
          \/ c = 55 \/ c = 56 \/ c = 57)%N as Hc by lia.
  repeat (destruct Hc as [->|Hc]; [set_solver|]). subst. set_solver.
Qed.

Ltac digit_cases H :=
  apply ascii_digit_cases in H;
  repeat (apply elem_of_cons in H as [->|H]); [..|now apply elem_of_nil in H].

Lemma to_decimal_ascii_digit (c : char) :
  ascii_digit c = true -> to_decimal c = Some (c - 48)%N.
Proof. intros H. digit_cases H; reflexivity. Qed.

Lemma isdecimal_ascii_digit (c : char) :
  ascii_digit c = true -> isdecimal c = true.
Proof. intros H. unfold isdecimal. now rewrite to_decimal_ascii_digit. Qed.

Lemma isspace_ascii_digit (c : char) :
  ascii_digit c = true -> isspace c = false.
Proof. intros H. digit_cases H; reflexivity. Qed.

(** The month and day groups of a valid date are matched first as the two
    digits they are. *)
Lemma match_m_two_digits (a b : char) (r : str) :
  ascii_digit a = true -> ascii_digit b = true ->
  (1 <= numeral_value [a; b] <= 12)%N ->
  exists more, match_m (a :: b :: r) = ([a; b], r) :: more.
Proof.
  intros Ha Hb Hm. digit_cases Ha; digit_cases Hb;
    solve [ exfalso; vm_compute in Hm; destruct Hm as [H1 H2];
            (now apply H1) || (now apply H2)
          | eexists; reflexivity ].
Qed.

Lemma match_d_two_digits (a b : char) :
  ascii_digit a = true -> ascii_digit b = true ->
  (1 <= numeral_value [a; b] <= 31)%N ->
  exists more, match_d [a; b] = ([a; b], []) :: more.
Proof.
  intros Ha Hb Hm. digit_cases Ha; digit_cases Hb;
    solve [ exfalso; vm_compute in Hm; destruct Hm as [H1 H2];
            (now apply H1) || (now apply H2)
          | eexists; reflexivity ].
Qed.

Lemma int_digits_ascii (s : str) (acc : N) :
  forallb ascii_digit s = true ->
  int_digits acc s
  = Some (fold_left (fun acc c => (10 * acc + (c - 48))%N) s acc).
Proof.
  revert acc. induction s as [|c s IH]; intros acc H; [reflexivity|].
  cbn [forallb] in H. apply andb_true_iff in H as [Hc Hs].
  cbn [int_digits fold_left]. rewrite to_decimal_ascii_digit by exact Hc.
  now apply IH.
Qed.

Lemma lstrip_ascii_digit (c : char) (s : str) :
  ascii_digit c = true -> lstrip (c :: s) = c :: s.
Proof. intros H. cbn [lstrip]. now rewrite isspace_ascii_digit. Qed.

Lemma py_int_two (a b : char) :
  ascii_digit a = true -> ascii_digit b = true ->
  py_int [a; b] = Some (numeral_value [a; b]).
Proof.
  intros Ha Hb. unfold py_int, strip, rstrip.
  rewrite lstrip_ascii_digit by exact Ha. cbn [rev app].
  rewrite lstrip_ascii_digit by exact Hb. cbn [rev app].
  apply int_digits_ascii. cbn [forallb]. now rewrite Ha, Hb.
Qed.

Lemma py_int_four (a b c d : char) :
  ascii_digit a = true -> ascii_digit b = true ->
  ascii_digit c = true -> ascii_digit d = true ->
  py_int [a; b; c; d] = Some (numeral_value [a; b; c; d]).
Proof.
  intros Ha Hb Hc Hd. unfold py_int, strip, rstrip.
  rewrite lstrip_ascii_digit by exact Ha. cbn [rev app].
  rewrite lstrip_ascii_digit by exact Hd. cbn [rev app].
  apply int_digits_ascii. cbn [forallb]. now rewrite Ha, Hb, Hc, Hd.
Qed.

Lemma match_Ymd_first (s yt r1 mt r2 dt r3 : str)
    (more1 more2 : list (str * str)) :
  match_Y s = [(yt, r1)] ->
  match_m r1 = (mt, r2) :: more1 ->
  match_d r2 = (dt, r3) :: more2 ->
  exists more, match_Ymd s = (yt, mt, dt, r3) :: more.
Proof.
  intros HY Hm Hd. unfold match_Ymd. rewrite HY.
  cbn [mbind list_bind]. rewrite Hm. cbn [mbind list_bind]. rewrite Hd.
  cbn. eexists. reflexivity.
Qed.

(** [str(n)] for the numbers a date holds. *)
Definition N_upto (n : N) : list N := map N.of_nat (seq 0 (N.to_nat n)).

Lemma N_upto_elem (n x : N) : (x < n)%N -> x ∈ N_upto n.
Proof.
  intros H. unfold N_upto. apply list_elem_of_fmap.
  exists (N.to_nat x). split; [now rewrite N2Nat.id|].
  apply list_elem_of_In, in_seq. lia.
Qed.

Definition renders_well (y : N) : bool :=
  (y =? 0)%N
  || is_numeral_of y (str_of_N y)
     && Bool.eqb (length (str_of_N y) =? 4) (1000 <=? y)%N.

Lemma str_of_N_renders_well (y : N) :
  (1 <= y <= 9999)%N ->
  is_numeral_of y (str_of_N y) = true
  /\ (length (str_of_N y) = 4 <-> (1000 <= y)%N).
Proof.
  intros Hy.
  assert (Hall : forallb renders_well (N_upto 10000%N) = true)
    by (vm_compute; reflexivity).
  rewrite forallb_forall in Hall.
  specialize (Hall y). unfold renders_well in Hall.
  rewrite <- list_elem_of_In in Hall.
  specialize (Hall (N_upto_elem 10000%N y ltac:(lia))).
  rewrite (proj2 (N.eqb_neq y 0)) in Hall by lia. cbn [orb] in Hall.
  apply andb_true_iff in Hall as [H1 H2]. split; [exact H1|].
  apply Bool.eqb_prop in H2.
  rewrite <- Nat.eqb_eq, <- N.leb_le, H2. reflexivity.
Qed.

Lemma table_get_month (m : N) :
  (1 <= m <= 12)%N -> exists name, table_get m MONTHS_TR = Some name.
Proof.
  intros Hm.
  assert (m = 1 \/ m = 2 \/ m = 3 \/ m = 4 \/ m = 5 \/ m = 6 \/ m = 7 \/ m = 8
          \/ m = 9 \/ m = 10 \/ m = 11 \/ m = 12)%N as Hc by lia.
  repeat (destruct Hc as [->|Hc]; [eexists; reflexivity|]).
  subst. eexists; reflexivity.
Qed.

(** C5, amended: for 8 ASCII digits that spell a valid calendar date
    (year 1 to 9999), [format_turkish_date] returns
    "<MonthName> <Day>, <Year>": the month name is the table's entry for
    the month, and the day and the year are their decimal numerals with no
    leading zero and no padding, so the year has 4 digits exactly when it
    is at least 1000. *)
Theorem format_turkish_date_valid (code : str) :
  let y := numeral_value (take 4 code) in
  let m := numeral_value (take 2 (drop 4 code)) in
  let d := numeral_value (drop 6 code) in
  length code = 8 ->
  forallb ascii_digit code = true ->
  valid_date y m d = true ->
  exists name,
    table_get m MONTHS_TR = Some name
    /\ format_turkish_date code
       = Ok (name ++ lit " " ++ str_of_N d ++ lit ", " ++ str_of_N y)
    /\ is_numeral_of d (str_of_N d) = true
    /\ is_numeral_of y (str_of_N y) = true
    /\ (length (str_of_N y) = 4 <-> (1000 <= y)%N).
Proof.
  intros y m d Hlen Hdig Hvalid.
  destruct code as [|c1 [|c2 [|c3 [|c4 [|c5 [|c6 [|c7 [|c8 [|]]]]]]]]];
    try discriminate Hlen.
  cbn [take drop] in y, m, d.
  cbn [forallb] in Hdig.
  repeat (apply andb_true_iff in Hdig as [?H Hdig]).
  unfold valid_date in Hvalid.
  repeat (apply andb_true_iff in Hvalid as [Hvalid ?Hv]).
  apply N.leb_le in Hvalid, Hv, Hv0, Hv1, Hv2, Hv3.
  assert (Hd31 : (d <= 31)%N).
  { etransitivity; [exact Hv|]. unfold days_in_month.
    repeat match goal with |- context [if ?b then _ else _] => destruct b end; lia. }
  destruct (table_get_month m) as [name Hname]; [lia|].
  exists name. split; [exact Hname|].
  destruct (str_of_N_renders_well y) as [Hy1 Hy2]; [lia|].
  destruct (str_of_N_renders_well d) as [Hd1 _]; [lia|].
  split; [|auto].
  destruct (match_m_two_digits c5 c6 [c7; c8]) as [more1 Hmm];
    [assumption|assumption|change (1 <= m <= 12)%N; lia|].
  destruct (match_d_two_digits c7 c8) as [more2 Hmd];
    [assumption|assumption|change (1 <= d <= 31)%N; lia|].
  destruct (match_Ymd_first [c1; c2; c3; c4; c5; c6; c7; c8]
              [c1; c2; c3; c4] [c5; c6; c7; c8] [c5; c6] [c7; c8] [c7; c8] []
              more1 more2) as [more HYmd]; [|assumption|assumption|].
  { unfold match_Y. cbn [take drop length Nat.eqb forallb].
    now rewrite !isdecimal_ascii_digit by assumption. }
  unfold format_turkish_date, strptime_Ymd. rewrite HYmd.
  rewrite py_int_four, !py_int_two by assumption.
  fold y m d. unfold valid_date.
  rewrite !(proj2 (N.leb_le _ _)) by assumption. cbn [andb].
  rewrite Hname. reflexivity.
Qed.

(** ** The order on strings *)

Lemma str_ltb_irrefl (a : str) : str_ltb a a = false.
Proof.
  induction a as [|x a IH]; [reflexivity|].
  cbn [str_ltb]. now rewrite N.ltb_irrefl.
Qed.

Lemma str_ltb_trans (a b c : str) :
  str_ltb a b = true -> str_ltb b c = true -> str_ltb a c = true.
Proof.
  revert b c. induction a as [|x a IH]; intros [|y b] [|z c]; cbn [str_ltb];
    try discriminate; try reflexivity.
  destruct (N.ltb_spec x y), (N.ltb_spec y x), (N.ltb_spec y z),
    (N.ltb_spec z y), (N.ltb_spec x z), (N.ltb_spec z x);
    try discriminate; try reflexivity; try lia.
  apply IH.
Qed.

Lemma str_ltb_total (a b : str) :
  str_ltb a b = false -> str_ltb b a = false -> a = b.
Proof.
  revert b. induction a as [|x a IH]; intros [|y b]; cbn [str_ltb];
    try discriminate; try reflexivity.
  destruct (N.ltb_spec x y), (N.ltb_spec y x); try discriminate; try lia.
  intros H1 H2. assert (x = y) as -> by lia. f_equal. now apply IH.
Qed.

Lemma str_ltb_asym (a b : str) : str_ltb a b = true -> str_ltb b a = false.
Proof.
  intros H. destruct (str_ltb b a) eqn:E; [|reflexivity].
  pose proof (str_ltb_trans _ _ _ H E) as Hc.
  now rewrite str_ltb_irrefl in Hc.
Qed.

(** [a] comes before [b] in a strictly descending list. *)
Definition str_gt (a b : str) : Prop := str_ltb b a = true.

(** [a] may come before [b] in a descending list. *)
Definition str_ge (a b : str) : Prop := str_ltb a b = false.

Lemma str_gt_ge (a b : str) : str_gt a b -> str_ge a b.
Proof. apply str_ltb_asym. Qed.

Lemma str_ge_neq_gt (a b : str) : str_ge a b -> a <> b -> str_gt a b.
Proof.
  unfold str_ge, str_gt. intros H Hne.
  destruct (str_ltb b a) eqn:E; [reflexivity|].
  exfalso. apply Hne. now apply str_ltb_total.
Qed.

#[local] Instance str_gt_trans : Transitive str_gt.
Proof. intros a b c Hab Hbc. unfold str_gt in *. eapply str_ltb_trans; eauto. Qed.

(** ** [sorted(..., reverse=True)] *)

Lemma insert_desc_perm (k : str) (l : list str) : insert_desc k l ≡ₚ k :: l.
Proof.
  induction l as [|h t IH]; cbn [insert_desc]; [reflexivity|].
  destruct (str_ltb h k); [reflexivity|].
  rewrite IH. apply Permutation_swap.
Qed.

Lemma sorted_desc_perm (l : list str) : sorted_desc l ≡ₚ l.
Proof.
  induction l as [|k l IH]; [reflexivity|].
  cbn [sorted_desc foldr]. fold (sorted_desc l).
  now rewrite insert_desc_perm, IH.
Qed.

Lemma insert_desc_hd (k a : str) (l : list str) :
  str_ge a k -> HdRel str_ge a l -> HdRel str_ge a (insert_desc k l).
Proof.
  intros Hak Hl. destruct l as [|h t]; cbn [insert_desc].
  - now constructor.
  - destruct (str_ltb h k); constructor; [assumption|].
    now inversion Hl.
Qed.

Lemma insert_desc_sorted (k : str) (l : list str) :
  Sorted str_ge l -> Sorted str_ge (insert_desc k l).
Proof.
  induction 1 as [|h t Ht IH Hhd]; cbn [insert_desc].
  - repeat constructor.
  - destruct (str_ltb h k) eqn:E.
    + constructor; [now constructor|]. constructor. now apply str_ltb_asym.
    + constructor; [exact IH|]. now apply insert_desc_hd.
Qed.

Lemma sorted_desc_sorted (l : list str) : Sorted str_ge (sorted_desc l).
Proof.
  induction l as [|k l IH]; [constructor|].
  cbn [sorted_desc foldr]. now apply insert_desc_sorted.
Qed.

Lemma sorted_ge_nodup_gt (l : list str) :
  Sorted str_ge l -> NoDup l -> Sorted str_gt l.
Proof.
  induction 1 as [|h t Ht IH Hhd]; intros Hnd; [constructor|].
  apply NoDup_cons in Hnd as [Hh Hnd].
  constructor; [now apply IH|].
  destruct Hhd as [|b t' Hb]; constructor.
  apply str_ge_neq_gt; [exact Hb|].
  intros ->. apply Hh. now left.
Qed.

(** On keys without repetition the result is strictly descending. *)
Lemma sorted_desc_strict (l : list str) : NoDup l -> Sorted str_gt (sorted_desc l).
Proof.
  intros Hnd. apply sorted_ge_nodup_gt; [apply sorted_desc_sorted|].
  now rewrite sorted_desc_perm.
Qed.

(** Sorting a strictly descending list changes nothing. *)
Lemma sorted_desc_id (l : list str) : Sorted str_gt l -> sorted_desc l = l.
Proof.
  induction 1 as [|h t Ht IH Hhd]; [reflexivity|].
  cbn [sorted_desc foldr]. fold (sorted_desc t). rewrite IH.
  destruct Hhd as [|b t' Hb]; [reflexivity|].
  cbn [insert_desc]. unfold str_gt in Hb. now rewrite Hb.
Qed.

(** ** The dictionary *)

Lemma str_eqb_eq (a b : str) : str_eqb a b = true <-> a = b.
Proof. unfold str_eqb. apply bool_decide_eq_true. Qed.

Lemma str_eqb_refl (a : str) : str_eqb a a = true.
Proof. now apply str_eqb_eq. Qed.

Lemma str_eqb_neq (a b : str) : str_eqb a b = false <-> a <> b.
Proof. unfold str_eqb. apply bool_decide_eq_false. Qed.

Lemma dict_get_set (k k' v : str) (d : dict) :
  dict_get k' (dict_set k v d) = if str_eqb k' k then Some v else dict_get k' d.
Proof.
  induction d as [|[k0 v0] d IH]; cbn [dict_set dict_get]; [reflexivity|].
  destruct (str_eqb k k0) eqn:E; cbn [dict_get].
  - apply str_eqb_eq in E as ->. now destruct (str_eqb k' k0).
  - destruct (str_eqb k' k0) eqn:E'; [|exact IH].
    apply str_eqb_eq in E' as ->.
    destruct (str_eqb k0 k) eqn:E''; [|reflexivity].
    apply str_eqb_eq in E'' as ->. now rewrite str_eqb_refl in E.
Qed.

Lemma dict_mem_keys (k : str) (d : dict) :
  dict_mem k d = true <-> k ∈ dict_keys d.
Proof.
  unfold dict_mem, dict_keys.
  induction d as [|[k0 v0] d IH]; cbn [dict_get map fst].
  - split; [discriminate|]. intros H. now apply elem_of_nil in H.
  - rewrite elem_of_cons. destruct (str_eqb k k0) eqn:E.
    + apply str_eqb_eq in E. tauto.
    + apply str_eqb_neq in E. rewrite IH. tauto.
Qed.

Lemma dict_keys_set (k v : str) (d : dict) :
  dict_keys (dict_set k v d)
  = if dict_mem k d then dict_keys d else dict_keys d ++ [k].
Proof.
  unfold dict_mem, dict_keys.
  induction d as [|[k0 v0] d IH]; cbn [dict_set dict_get map fst app];
    [reflexivity|].
  destruct (str_eqb k k0) eqn:E; cbn [map fst]; [reflexivity|].
  rewrite IH. now destruct (dict_get k d).
Qed.

Lemma dict_set_nodup (k v : str) (d : dict) :
  NoDup (dict_keys d) -> NoDup (dict_keys (dict_set k v d)).
Proof.
  intros Hnd. rewrite dict_keys_set.
  destruct (dict_mem k d) eqn:E; [exact Hnd|].
  apply NoDup_app. split; [exact Hnd|]. split; [|apply NoDup_singleton].
  intros x Hx Hx'. apply list_elem_of_singleton in Hx' as ->.
  apply dict_mem_keys in Hx. congruence.
Qed.

Lemma dict_get_all_keys (ks : list str) (d : dict) :
  (forall k, k ∈ ks -> k ∈ dict_keys d) ->
  exists vs, dict_get_all ks d = Ok vs
             /\ Forall2 (fun k v => dict_get k d = Some v) ks vs.
Proof.
  induction ks as [|k ks IH]; intros Hks; cbn [dict_get_all].
  - exists []. split; [reflexivity|constructor].
  - destruct IH as (vs & -> & Hvs); [intros; apply Hks; now right|].
    assert (Hk : dict_mem k d = true) by (apply dict_mem_keys, Hks; now left).
    unfold dict_mem in Hk. destruct (dict_get k d) as [v|] eqn:Hv; [|discriminate].
    exists (v :: vs). split; [reflexivity|]. now constructor.
Qed.

(** ** The index merge *)

Lemma match_li_here_some (s k : str) :
  match_li_here s = Some k -> fullmatch_d8 k = true.
Proof.
  unfold match_li_here, fullmatch_d8.
  destruct (startswith s _); [|discriminate].
  destruct (_ && _ && _) eqn:E; [|discriminate].
  intros [= <-]. apply andb_true_iff in E as [E _]. exact E.
Qed.

(** The date a line carries is 8 decimal digits. *)
Lemma search_li_some (line k : str) :
  search_li line = Some k -> fullmatch_d8 k = true.
Proof.
  induction line as [|c line IH]; cbn [search_li].
  - destruct (match_li_here []) eqn:E; [|discriminate].
    intros [= <-]. eapply match_li_here_some; eauto.
  - destruct (match_li_here (c :: line)) eqn:E.
    + intros [= <-]. eapply match_li_here_some; eauto.
    + exact IH.
Qed.

Lemma fullmatch_d8_nonempty (k : str) : fullmatch_d8 k = true -> k <> [].
Proof. intros H ->. discriminate. Qed.

(** The last line among [lines] that carries the date [k]. *)
Fixpoint last_with_key (k : str) (lines : list str) : option str :=
  match lines with
  | [] => None
  | l :: ls =>
      match last_with_key k ls with
      | Some x => Some x
      | None => if decide (search_li l = Some k) then Some l else None
      end
  end.

Lemma last_with_key_some (k : str) (lines : list str) (l : str) :
  last_with_key k lines = Some l ->
  search_li l = Some k
  /\ exists before after,
       lines = before ++ l :: after
       /\ forall l', l' ∈ after -> search_li l' <> Some k.
Proof.
  induction lines as [|l0 ls IH]; cbn [last_with_key]; [discriminate|].
  destruct (last_with_key k ls) as [x|] eqn:E.
  - intros [= ->]. destruct (IH eq_refl) as (Hk & before & after & -> & Hafter).
    split; [exact Hk|]. exists (l0 :: before), after. split; [reflexivity|exact Hafter].
  - destruct (decide (search_li l0 = Some k)) as [Hk|Hk]; [|discriminate].
    intros [= ->]. split; [exact Hk|].
    exists [], ls. split; [reflexivity|].
    intros l' Hl' Hk'. clear IH.
    induction ls as [|l1 ls IH]; [now apply elem_of_nil in Hl'|].
    cbn [last_with_key] in E.
    destruct (last_with_key k ls); [discriminate|].
    destruct (decide (search_li l1 = Some k)); [discriminate|].
    apply elem_of_cons in Hl' as [->|Hl']; [contradiction|]. now apply IH.
Qed.

Lemma last_with_key_none (k : str) (lines : list str) :
  last_with_key k lines = None <-> forall l, l ∈ lines -> search_li l <> Some k.
Proof.
  induction lines as [|l0 ls IH]; cbn [last_with_key].
  - split; [|reflexivity]. intros _ l Hl. now apply elem_of_nil in Hl.
  - destruct (last_with_key k ls) as [x|].
    + split; [discriminate|]. intros H. exfalso.
      assert (Some x = None) as [=]. apply IH. intros l Hl. apply H. now right.
    + destruct (decide (search_li l0 = Some k)) as [Hk|Hk].
      * split; [discriminate|]. intros H. exfalso. apply (H l0); [now left|exact Hk].
      * split; [|reflexivity]. intros _ l Hl.
        apply elem_of_cons in Hl as [->|Hl]; [exact Hk|].
        now apply (proj1 IH).
Qed.

Lemma parse_existing_get (lines : list str) (d : dict) (k : str) :
  dict_get k (parse_existing lines d)
  = match last_with_key k lines with
    | Some l => Some l
    | None => dict_get k d
    end.
Proof.
  revert d. induction lines as [|l ls IH]; intros d; [reflexivity|].
  cbn [parse_existing last_with_key]. unfold parse_li_line.
  destruct (search_li l) as [k0|] eqn:Hl.
  - destruct k0 as [|c k0].
    { apply search_li_some in Hl. discriminate. }
    rewrite IH, dict_get_set.
    destruct (last_with_key k ls); [reflexivity|].
    destruct (decide (Some (c :: k0) = Some k)) as [[= <-]|Hne].
    + now rewrite str_eqb_refl.
    + destruct (str_eqb k (c :: k0)) eqn:E; [|reflexivity].
      apply str_eqb_eq in E. congruence.
  - rewrite IH. destruct (last_with_key k ls); [reflexivity|].
    destruct (decide (None = Some k)); [discriminate|reflexivity].
Qed.

Lemma parse_existing_nodup (lines : list str) (d : dict) :
  NoDup (dict_keys d) -> NoDup (dict_keys (parse_existing lines d)).
Proof.
  revert d. induction lines as [|l ls IH]; intros d Hd; [exact Hd|].
  cbn [parse_existing].
  destruct (parse_li_line l) as [[[|c k] full]|]; auto.
  apply IH. now apply dict_set_nodup.
Qed.

(** The line the rewritten block holds for the date [k]: the last line of
    the old block that carries [k], or the new line when [k] is the new
    date and the old block has none for it. *)
Definition block_line (yyyymmdd new_line : str) (li_lines : list str) (k : str)
  : option str :=
  match last_with_key k li_lines with
  | Some l => Some l
  | None => if decide (k = yyyymmdd) then Some new_line else None
  end.

(** The dictionary after the insertion step. *)
Definition merged_dict (yyyymmdd new_line : str) (li_lines : list str) : dict :=
  let existing := parse_existing li_lines [] in
  if negb (dict_mem yyyymmdd existing)
  then dict_set yyyymmdd new_line existing
  else existing.

Lemma merged_dict_get (yyyymmdd new_line : str) (li_lines : list str) (k : str) :
  dict_get k (merged_dict yyyymmdd new_line li_lines)
  = block_line yyyymmdd new_line li_lines k.
Proof.
  unfold merged_dict, block_line, dict_mem.
  pose proof (parse_existing_get li_lines [] yyyymmdd) as Hc.
  destruct (dict_get yyyymmdd (parse_existing li_lines [])) as [v|] eqn:E;
    cbn [negb].
  - rewrite parse_existing_get. cbn [dict_get].
    destruct (last_with_key k li_lines) eqn:Ek; [reflexivity|].
    destruct (decide (k = yyyymmdd)) as [->|]; [|reflexivity].
    rewrite Ek in Hc. discriminate.
  - rewrite dict_get_set, parse_existing_get. cbn [dict_get].
    destruct (decide (k = yyyymmdd)) as [->|Hne].
    + rewrite str_eqb_refl.
      destruct (last_with_key yyyymmdd li_lines); [discriminate|reflexivity].
    + rewrite (proj2 (str_eqb_neq _ _) Hne). reflexivity.
Qed.

Lemma merged_dict_nodup (yyyymmdd new_line : str) (li_lines : list str) :
  NoDup (dict_keys (merged_dict yyyymmdd new_line li_lines)).
Proof.
  unfold merged_dict.
  assert (H : NoDup (dict_keys (parse_existing li_lines [])))
    by (apply parse_existing_nodup; constructor).
  destruct (negb _); [now apply dict_set_nodup|exact H].
Qed.

Lemma merged_dict_keys (yyyymmdd new_line : str) (li_lines : list str) (k : str) :
  k ∈ dict_keys (merged_dict yyyymmdd new_line li_lines)
  <-> k = yyyymmdd \/ exists l, l ∈ li_lines /\ search_li l = Some k.
Proof.
  rewrite <- dict_mem_keys. unfold dict_mem.
  rewrite merged_dict_get. unfold block_line.
  destruct (last_with_key k li_lines) as [l|] eqn:E.
  - apply last_with_key_some in E as (Hk & before & after & -> & _).
    split; [|reflexivity]. intros _. right. exists l. split; [|exact Hk].
    apply elem_of_app. right. now left.
  - rewrite last_with_key_none in E.
    destruct (decide (k = yyyymmdd)) as [->|Hne].
    + split; [|reflexivity]. now left.
    + split; [discriminate|]. intros [?|(l & Hl & Hk)]; [contradiction|].
      exfalso. now apply (E l).
Qed.

(** What [add_entry_to_index] does to an index page that exists and has a
    [<ul>] block, for a date that formats: the block is rewritten as the
    lines [block] of the strictly descending dates [keys], one line per
    date of the old block and one for the new date. *)
Lemma add_entry_to_index_run (folder yyyymmdd display_date t : str)
    (start end_ : nat) (w : world) :
  let index_path := os_path_join folder (lit "index.html") in
  let lines := split_lines (universal_newlines t) in
  let li_lines := slice lines start end_ in
  let new_line := new_li_line yyyymmdd display_date in
  files w !! index_path = Some t ->
  format_turkish_date yyyymmdd = Ok display_date ->
  find_ul_block lines = Some (start, end_) ->
  exists keys block msg,
    add_entry_to_index folder yyyymmdd w
    = (Ok (negb (dict_mem yyyymmdd (parse_existing li_lines []))),
       store index_path (concat (take start lines ++ block ++ drop end_ lines))
         (log (EOpenW index_path)
            (log (EPrint msg)
               (log (EOpenR index_path) (log (EExists index_path) w)))))
    /\ keys = sorted_desc (dict_keys (merged_dict yyyymmdd new_line li_lines))
    /\ Sorted str_gt keys
    /\ Forall2 (fun k l => block_line yyyymmdd new_line li_lines k = Some l)
         keys block
    /\ (forall k, k ∈ keys <->
          k = yyyymmdd \/ exists l, l ∈ li_lines /\ search_li l = Some k).
Proof.
  intros index_path lines li_lines new_line Hfile Hfmt Hblock.
  set (d := merged_dict yyyymmdd new_line li_lines).
  destruct (dict_get_all_keys (sorted_desc (dict_keys d)) d) as (block & Hall & Hblk).
  { intros k Hk. now rewrite sorted_desc_perm in Hk. }
  exists (sorted_desc (dict_keys d)), block.
  assert (Hrun : forall msg1 msg2,
    (('(existing, changed) ←
        (if negb (dict_mem yyyymmdd (parse_existing li_lines []))
         then print msg1;;
              mret (dict_set yyyymmdd new_line (parse_existing li_lines []), true)
         else print msg2;; mret (parse_existing li_lines [], false));
      sorted_li_lines ← lift (dict_get_all (sorted_desc (dict_keys existing)) existing);
      write_lines index_path (take start lines ++ sorted_li_lines ++ drop end_ lines);;
      mret changed)
       (log (EOpenR index_path) (log (EExists index_path) w)))
    = (Ok (negb (dict_mem yyyymmdd (parse_existing li_lines []))),
       store index_path (concat (take start lines ++ block ++ drop end_ lines))
         (log (EOpenW index_path)
            (log (EPrint (if negb (dict_mem yyyymmdd (parse_existing li_lines []))
                          then msg1 else msg2))
               (log (EOpenR index_path) (log (EExists index_path) w)))))).
  { intros msg1 msg2. subst d. unfold merged_dict in Hall. cbv zeta in Hall.
    destruct (negb (dict_mem yyyymmdd (parse_existing li_lines []))).
    - rewrite bind_assoc, bind_print. unfold mbind at 1, M_bind at 1. cbn [mret M_ret].
      rewrite Hall, bind_lift_ok. unfold write_lines.
      rewrite (bind_write_existing _ _ t) by exact Hfile. reflexivity.
    - rewrite bind_assoc, bind_print. unfold mbind at 1, M_bind at 1. cbn [mret M_ret].
      rewrite Hall, bind_lift_ok. unfold write_lines.
      rewrite (bind_write_existing _ _ t) by exact Hfile. reflexivity. }
  eexists. split; [|split; [reflexivity|split; [|split]]].
  - unfold add_entry_to_index. cbv zeta. fold index_path.
    rewrite bind_exists. unfold is_file. rewrite Hfile. cbn [negb].
    rewrite Hfmt, bind_lift_ok, (bind_read _ t) by exact Hfile.
    fold lines. rewrite Hblock. fold li_lines new_line.
    apply Hrun.
  - apply sorted_desc_strict, merged_dict_nodup.
  - eapply Forall2_impl; [exact Hblk|]. intros k l Hkl. cbv beta in Hkl.
    subst d. now rewrite merged_dict_get in Hkl.
  - intros k. rewrite sorted_desc_perm. apply merged_dict_keys.
Qed.

(** ** The new line carries the new date *)

Lemma startswith_app (p s : str) : startswith (p ++ s) p = true.
Proof.
  induction p as [|x p IH]; [now destruct s|].
  cbn [app startswith]. now rewrite N.eqb_refl, IH.
Qed.

Lemma search_li_skip (pre s : str) :
  Forall (fun c => c <> 104%N) pre -> search_li (pre ++ s) = search_li s.
Proof.
  induction 1 as [|c pre Hc _ IH]; [reflexivity|].
  cbn [app search_li]. unfold match_li_here at 1.
  change (litq "href=`") with (104%N :: litq "ref=`"). cbn [startswith].
  rewrite (proj2 (N.eqb_neq c 104)) by exact Hc. cbn [andb]. exact IH.
Qed.

Lemma search_li_here (k rest : str) :
  fullmatch_d8 k = true ->
  search_li (litq "href=`" ++ k ++ litq ".html`" ++ rest) = Some k.
Proof.
  unfold fullmatch_d8. intros Hk.
  apply andb_true_iff in Hk as [Hlen Hdig]. apply Nat.eqb_eq in Hlen.
  assert (Hhere : match_li_here (litq "href=`" ++ k ++ litq ".html`" ++ rest) = Some k).
  { assert (E1 : drop 6 (litq "href=`" ++ k ++ litq ".html`" ++ rest)
                 = k ++ litq ".html`" ++ rest) by reflexivity.
    assert (E2 : take 8 (k ++ litq ".html`" ++ rest) = k)
      by (rewrite <- Hlen; apply take_app_length).
    assert (E3 : drop 8 (k ++ litq ".html`" ++ rest) = litq ".html`" ++ rest)
      by (rewrite <- Hlen; apply drop_app_length).
    unfold match_li_here. rewrite startswith_app, E1, E2, E3.
    rewrite Hlen, Hdig, startswith_app. reflexivity. }
  destruct (litq "href=`" ++ k ++ litq ".html`" ++ rest) eqn:E;
    cbn [search_li]; now rewrite Hhere.
Qed.

Lemma new_li_line_key (yyyymmdd display_date : str) :
  fullmatch_d8 yyyymmdd = true ->
  search_li (new_li_line yyyymmdd display_date) = Some yyyymmdd.
Proof.
  intros Hk. unfold new_li_line.
  change (litq "    <li><a href=`") with (litq "    <li><a " ++ litq "href=`").
  change (litq ".html`>") with (litq ".html`" ++ lit ">").
  rewrite <- !app_assoc.
  rewrite search_li_skip by (repeat constructor; discriminate).
  now apply search_li_here.
Qed.

(** ** The rewritten block *)

Lemma Forall2_elem_r {A B : Type} (P : A -> B -> Prop) (xs : list A) (ys : list B)
    (y : B) :
  Forall2 P xs ys -> y ∈ ys -> exists x, x ∈ xs /\ P x y.
Proof.
  induction 1 as [|x0 y0 xs ys Hxy _ IH]; intros Hy.
  - now apply elem_of_nil in Hy.
  - apply elem_of_cons in Hy as [->|Hy].
    + exists x0. split; [now left|exact Hxy].
    + destruct (IH Hy) as (x & Hx & HP). exists x. split; [now right|exact HP].
Qed.

(** The facts about the rewritten block that the theorems below share. *)
Lemma add_entry_to_index_rewrites_block_aux (folder yyyymmdd display_date t : str)
    (start end_ : nat) (w : world) :
  let index_path := os_path_join folder (lit "index.html") in
  let lines := split_lines (universal_newlines t) in
  let li_lines := slice lines start end_ in
  let new_line := new_li_line yyyymmdd display_date in
  files w !! index_path = Some t ->
  fullmatch_d8 yyyymmdd = true ->
  format_turkish_date yyyymmdd = Ok display_date ->
  find_ul_block lines = Some (start, end_) ->
  exists keys block changed w',
    add_entry_to_index folder yyyymmdd w = (Ok changed, w')
    /\ files w'
       = <[index_path := concat (take start lines ++ block ++ drop end_ lines)]>
           (files w)
    /\ Forall2 (fun k l => search_li l = Some k) keys block
    /\ Sorted str_gt keys
    /\ NoDup keys
    /\ (forall l, l ∈ block ->
          (l = new_line /\ changed = true)
          \/ exists before after,
               li_lines = before ++ l :: after
               /\ forall l', l' ∈ after -> search_li l' <> search_li l)
    /\ (forall l k, l ∈ li_lines -> search_li l = Some k -> k ∈ keys)
    /\ yyyymmdd ∈ keys
    /\ (changed = true <-> forall l, l ∈ li_lines -> search_li l <> Some yyyymmdd).
Proof.
  intros index_path lines li_lines new_line Hfile Hfm Hfmt Hblock.
  destruct (add_entry_to_index_run folder yyyymmdd display_date t start end_ w
              Hfile Hfmt Hblock)
    as (keys & block & msg & Hrun & Hkeys & Hsorted & Hlines & Hmem).
  fold index_path lines li_lines new_line in Hrun, Hkeys, Hlines, Hmem.
  assert (Hch : negb (dict_mem yyyymmdd (parse_existing li_lines [])) = true
                <-> last_with_key yyyymmdd li_lines = None).
  { unfold dict_mem. rewrite parse_existing_get. cbn [dict_get].
    destruct (last_with_key yyyymmdd li_lines); cbn; split; congruence. }
  exists keys, block. do 2 eexists. split; [exact Hrun|].
  split; [reflexivity|]. split; [|split; [exact Hsorted|split; [|split; [|split; [|split]]]]].
  - eapply Forall2_impl; [exact Hlines|]. intros k l Hkl. cbv beta in Hkl.
    unfold block_line in Hkl.
    destruct (last_with_key k li_lines) as [l0|] eqn:E.
    + injection Hkl as ->. now apply last_with_key_some in E as [E _].
    + destruct (decide (k = yyyymmdd)) as [->|]; [|discriminate].
      injection Hkl as <-. now apply new_li_line_key.
  - subst keys. rewrite sorted_desc_perm. apply merged_dict_nodup.
  - intros l Hl.
    destruct (Forall2_elem_r _ _ _ _ Hlines Hl) as (k & _ & Hk).
    unfold block_line in Hk.
    destruct (last_with_key k li_lines) as [l0|] eqn:E.
    + injection Hk as ->. right.
      apply last_with_key_some in E as (Hkey & before & after & Hsplit & Hafter).
      exists before, after. split; [exact Hsplit|]. now rewrite Hkey.
    + destruct (decide (k = yyyymmdd)) as [->|]; [|discriminate].
      injection Hk as <-. left. split; [reflexivity|]. now apply Hch.
  - intros l k Hl Hk. apply Hmem. right. eauto.
  - apply Hmem. now left.
  - rewrite Hch. apply last_with_key_none.
Qed.




(** ** Reading back what was written *)

Lemma universal_newlines_no_cr (s : str) :
  Forall (fun c => c <> 13%N) (universal_newlines s).
Proof.
  remember (length s) as n eqn:Hn. revert s Hn.
  induction n as [n IH] using lt_wf_ind. intros s Hn.
  destruct s as [|c s]; [constructor|].
  cbn [universal_newlines].
  destruct (N.eqb_spec c 13) as [->|Hc].
  - constructor; [discriminate|].
    destruct s as [|c' s]; [constructor|].
    destruct (c' =? NL)%N; eapply IH; try reflexivity; subst n; cbn; lia.
  - constructor; [exact Hc|]. eapply IH; [|reflexivity]. subst n. cbn. lia.
Qed.

Lemma universal_newlines_id (s : str) :
  Forall (fun c => c <> 13%N) s -> universal_newlines s = s.
Proof.
  induction 1 as [|c s Hc _ IH]; [reflexivity|].
  cbn [universal_newlines]. rewrite (proj2 (N.eqb_neq c 13)) by exact Hc.
  now rewrite IH.
Qed.

Lemma split_lines_concat (s : str) : concat (split_lines s) = s.
Proof.
  induction s as [|c s IH]; [reflexivity|].
  cbn [split_lines]. destruct (c =? NL)%N.
  - cbn. now rewrite IH.
  - destruct (split_lines s) as [|l ls]; cbn in *; now rewrite <- IH.
Qed.

(** A complete line ends with its only "\n". *)
Definition complete_line (l : str) : Prop :=
  exists body, l = body ++ [NL] /\ NL ∉ body.

(** The shape of the lines of a text: complete lines, then possibly a last
    one that is not empty and has no "\n". *)
Inductive lines_shaped : list str -> Prop :=
| shaped_nil : lines_shaped []
| shaped_last (l : str) : l <> [] -> NL ∉ l -> lines_shaped [l]
| shaped_cons (l : str) (ls : list str) :
    complete_line l -> lines_shaped ls -> lines_shaped (l :: ls).

Lemma split_lines_shaped (s : str) : lines_shaped (split_lines s).
Proof.
  induction s as [|c s IH]; [constructor|].
  cbn [split_lines]. destruct (N.eqb_spec c NL) as [->|Hc].
  - apply shaped_cons; [|exact IH]. exists []. split; [reflexivity|].
    apply not_elem_of_nil.
  - destruct (split_lines s) as [|l ls].
    + apply shaped_last; [discriminate|].
      intros H. apply list_elem_of_singleton in H. congruence.
    + inversion IH as [|l0 Hne Hnl|l0 ls0 (body & -> & Hbody) Hls]; subst.
      * apply shaped_last; [discriminate|].
        intros H. apply elem_of_cons in H as [H|H]; [congruence|contradiction].
      * apply shaped_cons; [|exact Hls]. exists (c :: body). split; [reflexivity|].
        intros H. apply elem_of_cons in H as [H|H]; [congruence|contradiction].
Qed.

Lemma split_lines_app_complete (body rest : str) :
  NL ∉ body ->
  split_lines (body ++ NL :: rest) = (body ++ [NL]) :: split_lines rest.
Proof.
  induction body as [|c body IH]; intros Hnl.
  - cbn [app split_lines]. now rewrite N.eqb_refl.
  - cbn [app split_lines].
    rewrite (proj2 (N.eqb_neq c NL))
      by (intros ->; apply Hnl; now left).
    rewrite IH; [reflexivity|]. intros H. apply Hnl. now right.
Qed.

Lemma split_lines_no_nl (l : str) : l <> [] -> NL ∉ l -> split_lines l = [l].
Proof.
  induction l as [|c l IH]; intros Hne Hnl; [contradiction|].
  cbn [split_lines].
  rewrite (proj2 (N.eqb_neq c NL)) by (intros ->; apply Hnl; now left).
  destruct l as [|c' l]; [reflexivity|].
  rewrite IH; [reflexivity|discriminate|]. intros H. apply Hnl. now right.
Qed.

(** Shaped lines are the lines of their concatenation. *)
Lemma split_lines_of_concat (ls : list str) :
  lines_shaped ls -> split_lines (concat ls) = ls.
Proof.
  induction 1 as [|l Hne Hnl|l ls (body & -> & Hbody) _ IH]; [reflexivity| |].
  - cbn [concat]. rewrite app_nil_r. now apply split_lines_no_nl.
  - cbn [concat]. rewrite <- app_assoc. cbn [app].
    now rewrite split_lines_app_complete, IH.
Qed.

Lemma lines_shaped_app (a b : list str) :
  Forall complete_line a -> lines_shaped b -> lines_shaped (a ++ b).
Proof.
  induction 1 as [|l a Hl _ IH]; intros Hb; [exact Hb|].
  cbn [app]. apply shaped_cons; auto.
Qed.

Lemma lines_shaped_drop (n : nat) (ls : list str) :
  lines_shaped ls -> lines_shaped (drop n ls).
Proof.
  intros H. revert n. induction H as [|l Hne Hnl|l ls Hl Hls IH]; intros [|n];
    cbn [drop]; try constructor; auto.
  destruct n; constructor.
Qed.

(** Every line but the last is complete. *)
Lemma lines_shaped_complete (ls : list str) (j : nat) (l : str) :
  lines_shaped ls -> ls !! j = Some l -> S j < length ls -> complete_line l.
Proof.
  intros H. revert j. induction H as [|l0 Hne Hnl|l0 ls Hl Hls IH]; intros j Hj Hlen.
  - discriminate.
  - cbn in Hlen. lia.
  - destruct j as [|j]; cbn in *.
    + now injection Hj as <-.
    + apply (IH j Hj). lia.
Qed.

(** ** The characters of the new line *)

(** The characters a display date is made of. *)
Definition plain_char (c : char) : bool :=
  ascii_digit c || in_range 65 90 c || in_range 97 122 c
  || (c =? 32)%N || (c =? 44)%N.

Lemma uint_chars_digits (u : Decimal.uint) :
  forallb ascii_digit (uint_chars u) = true.
Proof. induction u; cbn [uint_chars forallb]; auto. Qed.

Lemma plain_of_digit (s : str) :
  forallb ascii_digit s = true -> forallb plain_char s = true.
Proof.
  rewrite !forallb_forall. intros H c Hc. unfold plain_char.
  now rewrite (H c Hc).
Qed.

Lemma table_get_plain (m : N) (name : str) :
  table_get m MONTHS_TR = Some name -> forallb plain_char name = true.
Proof.
  unfold MONTHS_TR. cbn [table_get].
  repeat match goal with
         | |- context [if ?b then _ else _] => destruct b
         end; try discriminate; intros [= <-]; vm_compute; reflexivity.
Qed.

Lemma format_turkish_date_plain (yyyymmdd display_date : str) :
  format_turkish_date yyyymmdd = Ok display_date ->
  forallb plain_char display_date = true.
Proof.
  unfold format_turkish_date.
  destruct (strptime_Ymd yyyymmdd) as [[[y m] d]|]; [|discriminate].
  destruct (table_get m MONTHS_TR) as [name|] eqn:Hname; [|discriminate].
  intros H.
  assert (E : name ++ lit " " ++ str_of_N d ++ lit ", " ++ str_of_N y = display_date)
    by congruence.
  rewrite <- E, !forallb_app, (table_get_plain _ _ Hname).
  unfold str_of_N.
  rewrite (plain_of_digit (uint_chars (N.to_uint d))),
    (plain_of_digit (uint_chars (N.to_uint y))) by apply uint_chars_digits.
  reflexivity.
Qed.

(** Neither a decimal digit nor a character of a display date is a line
    break or a slash. *)
Definition no_break_no_slash (c : char) : Prop :=
  c <> NL /\ c <> 13%N /\ c <> 47%N.

Lemma isdecimal_no_break (c : char) : isdecimal c = true -> no_break_no_slash c.
Proof.
  intros H. repeat split; intros ->; vm_compute in H; discriminate.
Qed.

Lemma plain_char_no_break (c : char) : plain_char c = true -> no_break_no_slash c.
Proof.
  intros H. repeat split; intros ->; vm_compute in H; discriminate.
Qed.

Lemma forallb_Forall_impl (f : char -> bool) (P : char -> Prop) (s : str) :
  (forall c, f c = true -> P c) -> forallb f s = true -> Forall P s.
Proof.
  intros HfP H. rewrite forallb_forall in H. apply Forall_forall.
  intros c Hc. apply HfP, H. now apply list_elem_of_In.
Qed.

(** The new line up to its closing tags. *)
Definition new_li_head (yyyymmdd display_date : str) : str :=
  litq "    <li><a href=`" ++ yyyymmdd ++ litq ".html`>" ++ display_date.

Lemma new_li_line_split (yyyymmdd display_date : str) :
  new_li_line yyyymmdd display_date
  = new_li_head yyyymmdd display_date ++ lit "</a></li>" ++ [NL].
Proof. unfold new_li_line, new_li_head. now rewrite <- !app_assoc. Qed.

Lemma new_li_head_chars (yyyymmdd display_date : str) :
  fullmatch_d8 yyyymmdd = true ->
  forallb plain_char display_date = true ->
  Forall no_break_no_slash (new_li_head yyyymmdd display_date).
Proof.
  intros Hk Hd. unfold fullmatch_d8 in Hk. apply andb_true_iff in Hk as [_ Hk].
  unfold new_li_head. repeat apply Forall_app_2.
  - repeat constructor; discriminate.
  - eapply forallb_Forall_impl; [apply isdecimal_no_break|exact Hk].
  - repeat constructor; discriminate.
  - eapply forallb_Forall_impl; [apply plain_char_no_break|exact Hd].
Qed.

(** [a] immediately followed by [b] somewhere in [s]. *)
Fixpoint has_pair (a b : char) (s : str) : bool :=
  match s with
  | [] => false
  | x :: t =>
      ((x =? a)%N && match t with
                     | [] => false
                     | y :: _ => (y =? b)%N
                     end)
      || has_pair a b t
  end.

Lemma has_pair_startswith (a b : char) (s p : str) :
  has_pair a b p = true -> startswith s p = true -> has_pair a b s = true.
Proof.
  revert s. induction p as [|x p IH]; intros s Hp Hs; [discriminate|].
  destruct s as [|c s]; [discriminate|].
  cbn [startswith] in Hs. apply andb_true_iff in Hs as [Hc Hs].
  apply N.eqb_eq in Hc as ->.
  cbn [has_pair] in Hp |- *.
  apply orb_true_iff in Hp as [Hp|Hp]; apply orb_true_iff.
  - left. apply andb_true_iff in Hp as [Hx Hy]. rewrite Hx. cbn [andb].
    destruct p as [|y p]; [discriminate|].
    destruct s as [|c' s]; [discriminate|].
    cbn [startswith] in Hs. apply andb_true_iff in Hs as [Hc' _].
    apply N.eqb_eq in Hc' as ->. exact Hy.
  - right. now apply IH.
Qed.

Lemma has_pair_str_in (a b : char) (p s : str) :
  has_pair a b p = true -> str_in p s = true -> has_pair a b s = true.
Proof.
  intros Hp. induction s as [|c s IH]; cbn [str_in]; intros Hs.
  - rewrite orb_false_r in Hs. eapply has_pair_startswith; eauto.
  - apply orb_true_iff in Hs as [Hs|Hs].
    + eapply has_pair_startswith; eauto.
    + cbn [has_pair]. apply orb_true_iff. right. now apply IH.
Qed.

Lemma has_pair_skip (a b : char) (x y : str) :
  Forall (fun c => c <> a) x -> has_pair a b (x ++ y) = has_pair a b y.
Proof.
  induction 1 as [|c x Hc _ IH]; [reflexivity|].
  cbn [app has_pair]. rewrite (proj2 (N.eqb_neq c a)) by exact Hc.
  cbn [andb orb]. exact IH.
Qed.

(** The new line is one complete line without "\r" and without the
    list-close marker. *)
Lemma new_li_line_shape (yyyymmdd display_date : str) :
  fullmatch_d8 yyyymmdd = true ->
  format_turkish_date yyyymmdd = Ok display_date ->
  complete_line (new_li_line yyyymmdd display_date)
  /\ Forall (fun c => c <> 13%N) (new_li_line yyyymmdd display_date)
  /\ str_in (lit "</ul>") (new_li_line yyyymmdd display_date) = false.
Proof.
  intros Hk Hfmt. apply format_turkish_date_plain in Hfmt.
  pose proof (new_li_head_chars _ _ Hk Hfmt) as Hhead.
  rewrite new_li_line_split. split; [|split].
  - exists (new_li_head yyyymmdd display_date ++ lit "</a></li>").
    split; [now rewrite <- app_assoc|].
    intros Hin. apply elem_of_app in Hin as [Hin|Hin].
    + rewrite Forall_forall in Hhead. now destruct (Hhead _ Hin) as [? _].
    + vm_compute in Hin. repeat (apply elem_of_cons in Hin as [Hin|Hin];
        [discriminate|]). now apply elem_of_nil in Hin.
  - apply Forall_app_2.
    + eapply Forall_impl; [exact Hhead|]. now intros c (_ & ? & _).
    + repeat constructor; discriminate.
  - destruct (str_in _ _) eqn:E; [|reflexivity]. exfalso.
    apply (has_pair_str_in 47 117) in E; [|reflexivity].
    rewrite has_pair_skip in E; [discriminate|].
    eapply Forall_impl; [exact Hhead|]. now intros c (_ & _ & ?).
Qed.

(** ** Locating the block again in the rewritten page *)

Lemma first_index_some (P : str -> bool) (l : list str) (i : nat) :
  first_index P l = Some i ->
  (exists x, l !! i = Some x /\ P x = true)
  /\ forall j y, j < i -> l !! j = Some y -> P y = false.
Proof.
  revert i. induction l as [|x l IH]; intros i; cbn [first_index]; [discriminate|].
  destruct (P x) eqn:Hx.
  - intros [= <-]. split; [exists x; auto|]. intros j y Hj. lia.
  - destruct (first_index P l) as [i'|]; [|discriminate].
    intros [= <-]. destruct (IH i' eq_refl) as [Hfound Hbefore].
    split; [exact Hfound|]. intros [|j] y Hj; cbn.
    + now intros [= <-].
    + apply Hbefore. lia.
Qed.

Lemma first_index_intro (P : str -> bool) (l : list str) (i : nat) (x : str) :
  l !! i = Some x -> P x = true ->
  (forall j y, j < i -> l !! j = Some y -> P y = false) ->
  first_index P l = Some i.
Proof.
  revert i. induction l as [|x0 l IH]; intros i Hi Hx Hbefore; [discriminate|].
  cbn [first_index]. destruct i as [|i]; cbn in Hi.
  - injection Hi as ->. now rewrite Hx.
  - rewrite (Hbefore 0 x0) by (cbn; (lia || reflexivity)).
    rewrite (IH i Hi Hx); [reflexivity|].
    intros j y Hj Hy. apply (Hbefore (S j) y); [lia|exact Hy].
Qed.

Lemma find_ul_block_some (lines : list str) (start end_ : nat) :
  find_ul_block lines = Some (start, end_) ->
  exists i, start = i + 1
    /\ first_index (str_in (lit "<ul>")) lines = Some i
    /\ first_index (str_in (lit "</ul>")) lines = Some end_.
Proof.
  unfold find_ul_block.
  destruct (first_index (str_in (lit "<ul>")) lines) as [i|]; [|discriminate].
  destruct (first_index (str_in (lit "</ul>")) lines) as [e|]; [|discriminate].
  intros [= <- <-]. eauto.
Qed.

Lemma elem_of_slice (lines : list str) (a b : nat) (l : str) :
  l ∈ slice lines a b -> exists j, a <= j < b /\ lines !! j = Some l.
Proof.
  unfold slice. intros H. apply list_elem_of_lookup in H as [n Hn].
  apply lookup_take_Some in Hn as [Hn Hlt].
  rewrite lookup_drop in Hn. exists (a + n). split; [lia|exact Hn].
Qed.

Lemma elem_of_concat (c : char) (ls : list str) :
  c ∈ concat ls <-> exists l, l ∈ ls /\ c ∈ l.
Proof.
  rewrite list_elem_of_In, in_concat.
  split; intros (l & H1 & H2); exists l; rewrite ?list_elem_of_In in *; auto.
Qed.

Lemma find_ul_block_rewritten (lines block : list str) (start end_ : nat) :
  find_ul_block lines = Some (start, end_) ->
  start <= end_ ->
  (forall l, l ∈ block -> str_in (lit "</ul>") l = false) ->
  let new_lines := take start lines ++ block ++ drop end_ lines in
  find_ul_block new_lines = Some (start, start + length block)
  /\ slice new_lines start (start + length block) = block
  /\ take start new_lines = take start lines
  /\ drop (start + length block) new_lines = drop end_ lines.
Proof.
  intros Hfind Hle Hblock new_lines.
  apply find_ul_block_some in Hfind as (i & -> & Hopen & Hclose).
  apply first_index_some in Hopen as [(x & Hx & Hxp) Hbefore].
  apply first_index_some in Hclose as [(z & Hz & Hzp) Hbefore'].
  assert (Hlen : length (take (i + 1) lines) = i + 1).
  { apply lookup_lt_Some in Hx. rewrite length_take. lia. }
  assert (Htake : forall j, j < i + 1 -> new_lines !! j = lines !! j).
  { intros j Hj. unfold new_lines.
    rewrite lookup_app_l by lia. apply lookup_take_lt. lia. }
  assert (Hopen' : first_index (str_in (lit "<ul>")) new_lines = Some i).
  { apply (first_index_intro _ _ _ x); [rewrite Htake by lia; exact Hx|exact Hxp|].
    intros j y Hj Hy. rewrite Htake in Hy by lia. eapply Hbefore; eauto. }
  assert (Hclose' : first_index (str_in (lit "</ul>")) new_lines
                    = Some (i + 1 + length block)).
  { apply (first_index_intro _ _ _ z); [|exact Hzp|].
    - unfold new_lines. rewrite lookup_app_r by lia.
      rewrite lookup_app_r by lia. rewrite lookup_drop, <- Hz. f_equal. lia.
    - intros j y Hj Hy. destruct (decide (j < i + 1)) as [Hlt|Hge].
      + rewrite Htake in Hy by lia. apply (Hbefore' j y); [lia|exact Hy].
      + unfold new_lines in Hy. rewrite lookup_app_r in Hy by lia.
        rewrite lookup_app_l in Hy by lia.
        apply Hblock. eapply list_elem_of_lookup_2; eauto. }
  split; [|split; [|split]].
  - unfold find_ul_block. now rewrite Hopen', Hclose'.
  - unfold slice, new_lines.
    rewrite (drop_app_length' _ _ (i + 1)) by lia.
    replace (i + 1 + length block - (i + 1)) with (length block) by lia.
    apply take_app_length.
  - unfold new_lines. apply take_app_length'. lia.
  - unfold new_lines. rewrite app_assoc.
    apply drop_app_length'. rewrite length_app. lia.
Qed.

(** The rewritten page reads back as the lines that were written, when
    the list-close line comes after the list-open line. *)
Lemma rewritten_lines_read_back (t new_line : str) (block : list str)
    (start end_ : nat) :
  let lines := split_lines (universal_newlines t) in
  find_ul_block lines = Some (start, end_) ->
  start <= end_ ->
  complete_line new_line ->
  Forall (fun c => c <> 13%N) new_line ->
  (forall l, l ∈ block -> l = new_line \/ l ∈ slice lines start end_) ->
  let new_lines := take start lines ++ block ++ drop end_ lines in
  split_lines (universal_newlines (concat new_lines)) = new_lines.
Proof.
  intros lines Hfind Hle Hcomplete Hcr Hblock new_lines.
  pose proof (split_lines_shaped (universal_newlines t)) as Hshaped.
  fold lines in Hshaped.
  apply find_ul_block_some in Hfind as (i & -> & _ & Hclose).
  apply first_index_some in Hclose as [(z & Hz & _) _].
  apply lookup_lt_Some in Hz.
  assert (Hearly : forall j l, j < end_ -> lines !! j = Some l -> complete_line l).
  { intros j l Hj Hl. eapply lines_shaped_complete; eauto. lia. }
  assert (Hnocr : forall l, l ∈ lines -> Forall (fun c => c <> 13%N) l).
  { intros l Hl. apply Forall_forall. intros c Hc.
    pose proof (universal_newlines_no_cr t) as Hall.
    rewrite <- (split_lines_concat (universal_newlines t)) in Hall.
    fold lines in Hall. rewrite Forall_forall in Hall. apply Hall.
    apply elem_of_concat. eauto. }
  rewrite universal_newlines_id.
  - apply split_lines_of_concat. unfold new_lines. rewrite app_assoc.
    apply lines_shaped_app; [|now apply lines_shaped_drop].
    apply Forall_app_2; apply Forall_forall; intros l Hl.
    + apply list_elem_of_lookup in Hl as [j Hj].
      apply lookup_take_Some in Hj as [Hj Hlt]. apply (Hearly j); [lia|exact Hj].
    + destruct (Hblock l Hl) as [->|Hin]; [exact Hcomplete|].
      apply elem_of_slice in Hin as (j & Hj & Hl'). apply (Hearly j); [lia|exact Hl'].
  - apply Forall_forall. intros c Hc.
    apply elem_of_concat in Hc as (l & Hl & Hc).
    assert (Hl' : Forall (fun c => c <> 13%N) l).
    { unfold new_lines in Hl. rewrite !elem_of_app in Hl.
      destruct Hl as [Hl|[Hl|Hl]].
      - apply Hnocr. eapply subseteq_take; eauto.
      - destruct (Hblock l Hl) as [->|Hin]; [exact Hcr|].
        apply elem_of_slice in Hin as (j & _ & Hj).
        apply Hnocr. eapply list_elem_of_lookup_2; eauto.
      - apply Hnocr. eapply subseteq_drop; eauto. }
    rewrite Forall_forall in Hl'. now apply Hl'.
Qed.

(** ** Merging the same date again *)

Lemma sorted_gt_strongly (l : list str) : Sorted str_gt l -> StronglySorted str_gt l.
Proof. apply Sorted_StronglySorted. exact str_gt_trans. Qed.

Lemma str_gt_irrefl (a : str) : ~ str_gt a a.
Proof. unfold str_gt. now rewrite str_ltb_irrefl. Qed.

Lemma str_gt_asym (a b : str) : str_gt a b -> ~ str_gt b a.
Proof. unfold str_gt. intros H H'. apply str_ltb_asym in H. congruence. Qed.

(** Two strictly descending lists with the same elements are equal. *)
Lemma sorted_gt_unique (a b : list str) :
  Sorted str_gt a -> Sorted str_gt b -> (forall x, x ∈ a <-> x ∈ b) -> a = b.
Proof.
  intros Ha Hb. apply sorted_gt_strongly in Ha, Hb.
  revert b Hb. induction Ha as [|x a Ha IH Hx]; intros b Hb Hsame.
  - destruct b as [|y b]; [reflexivity|].
    exfalso. eapply not_elem_of_nil, Hsame. now left.
  - destruct Hb as [|y b Hb Hy].
    { exfalso. eapply not_elem_of_nil, Hsame. now left. }
    rewrite Forall_forall in Hx, Hy.
    assert (x = y) as ->.
    { assert (Hxb : x ∈ y :: b) by (apply Hsame; now left).
      assert (Hya : y ∈ x :: a) by (apply Hsame; now left).
      apply elem_of_cons in Hxb as [?|Hxb]; [assumption|].
      apply elem_of_cons in Hya as [?|Hya]; [congruence|].
      exfalso. exact (str_gt_asym _ _ (Hx _ Hya) (Hy _ Hxb)). }
    f_equal. apply IH; [exact Hb|]. intros z. split; intros Hz.
    + assert (Hzb : z ∈ y :: b) by (apply Hsame; now right).
      apply elem_of_cons in Hzb as [->|?]; [|assumption].
      exfalso. exact (str_gt_irrefl _ (Hx _ Hz)).
    + assert (Hza : z ∈ y :: a) by (apply Hsame; now right).
      apply elem_of_cons in Hza as [->|?]; [|assumption].
      exfalso. exact (str_gt_irrefl _ (Hy _ Hz)).
Qed.

Lemma last_with_key_cons_other (k l0 : str) (ls : list str) (l : str) :
  last_with_key k ls = Some l -> last_with_key k (l0 :: ls) = Some l.
Proof. intros H. cbn [last_with_key]. now rewrite H. Qed.

(** In a block with one line per date, the last line for a date is its
    line. *)
Lemma last_with_key_unique (keys block : list str) :
  Forall2 (fun k l => search_li l = Some k) keys block ->
  NoDup keys ->
  Forall2 (fun k l => last_with_key k block = Some l) keys block.
Proof.
  induction 1 as [|k l keys block Hkl Hrest IH]; intros Hnd; [constructor|].
  apply NoDup_cons in Hnd as [Hk Hnd].
  constructor.
  - cbn [last_with_key].
    assert (Hnone : last_with_key k block = None).
    { apply last_with_key_none. intros l' Hl' Hk'.
      destruct (Forall2_elem_r _ _ _ _ Hrest Hl') as (k' & Hin & Hkey).
      assert (k' = k) by congruence. subst k'. contradiction. }
    rewrite Hnone. now rewrite decide_True.
  - eapply Forall2_impl; [exact (IH Hnd)|].
    intros k' l' H'. now apply last_with_key_cons_other.
Qed.

Lemma Forall2_functional (f : str -> option str) (ks b1 b2 : list str) :
  Forall2 (fun k l => f k = Some l) ks b1 ->
  Forall2 (fun k l => f k = Some l) ks b2 -> b1 = b2.
Proof.
  intros H1. revert b2. induction H1 as [|k l ks b1 Hkl _ IH]; intros b2 H2;
    inversion H2 as [|k' l' ks' b2' Hkl' H2']; subst; [reflexivity|].
  f_equal; [congruence|now apply IH].
Qed.

Lemma Forall2_elem_l {A B : Type} (P : A -> B -> Prop) (xs : list A) (ys : list B)
    (x : A) :
  Forall2 P xs ys -> x ∈ xs -> exists y, y ∈ ys /\ P x y.
Proof.
  induction 1 as [|x0 y0 xs ys Hxy _ IH]; intros Hx.
  - now apply elem_of_nil in Hx.
  - apply elem_of_cons in Hx as [->|Hx].
    + exists y0. split; [now left|exact Hxy].
    + destruct (IH Hx) as (y & Hy & HP). exists y. split; [now right|exact HP].
Qed.

(** The rewritten page, read again: its lines are the lines written, and
    its block is located where the new block was put. *)
Lemma rewritten_page_reads_back (yyyymmdd display_date t : str)
    (block : list str) (start end_ : nat) :
  let lines := split_lines (universal_newlines t) in
  let new_line := new_li_line yyyymmdd display_date in
  let new_lines := take start lines ++ block ++ drop end_ lines in
  fullmatch_d8 yyyymmdd = true ->
  format_turkish_date yyyymmdd = Ok display_date ->
  find_ul_block lines = Some (start, end_) ->
  start <= end_ ->
  (forall l, l ∈ block -> l = new_line \/ l ∈ slice lines start end_) ->
  split_lines (universal_newlines (concat new_lines)) = new_lines
  /\ find_ul_block new_lines = Some (start, start + length block)
  /\ slice new_lines start (start + length block) = block.
Proof.
  intros lines new_line new_lines Hfm Hfmt Hfind Hle Hsrc.
  destruct (new_li_line_shape _ _ Hfm Hfmt) as (Hcomplete & Hcr & Hnoclose).
  fold new_line in Hcomplete, Hcr, Hnoclose.
  assert (Hblock_close : forall l, l ∈ block -> str_in (lit "</ul>") l = false).
  { intros l Hl. destruct (Hsrc l Hl) as [->|Hin]; [exact Hnoclose|].
    apply elem_of_slice in Hin as (j & Hj & Hjl).
    destruct (find_ul_block_some _ _ _ Hfind) as (i & _ & _ & Hclose).
    apply first_index_some in Hclose as [_ Hbefore].
    apply (Hbefore j l); [lia|exact Hjl]. }
  split.
  - exact (rewritten_lines_read_back t new_line block start end_
             Hfind Hle Hcomplete Hcr Hsrc).
  - destruct (find_ul_block_rewritten lines block start end_ Hfind Hle Hblock_close)
      as (Hfind' & Hslice' & _). auto.
Qed.

(** X15, the positive side of idempotence: on a page whose list-close
    line comes after its list-open line, a second call of
    [add_entry_to_index] for the same date code reports no change and
    leaves every file as the first call left it. *)
Lemma add_entry_to_index_twice (folder yyyymmdd display_date t : str)
    (start end_ : nat) (w : world) :
  let index_path := os_path_join folder (lit "index.html") in
  let lines := split_lines (universal_newlines t) in
  files w !! index_path = Some t ->
  fullmatch_d8 yyyymmdd = true ->
  format_turkish_date yyyymmdd = Ok display_date ->
  find_ul_block lines = Some (start, end_) ->
  start <= end_ ->
  exists changed w1 w2,
    add_entry_to_index folder yyyymmdd w = (Ok changed, w1)
    /\ add_entry_to_index folder yyyymmdd w1 = (Ok false, w2)
    /\ files w2 = files w1.
Proof.
  intros index_path lines Hfile Hfm Hfmt Hfind Hle.
  destruct (add_entry_to_index_rewrites_block_aux folder yyyymmdd display_date t
              start end_ w Hfile Hfm Hfmt Hfind)
    as (keys & block & changed & w1 & Hrun & Hfiles & Hkeys & Hsorted & Hnd
        & Horigin & Hkept & Hcode & _).
  fold index_path lines in Hfiles, Horigin, Hkept.
  set (new_line := new_li_line yyyymmdd display_date) in *.
  set (new_lines := take start lines ++ block ++ drop end_ lines) in *.
  destruct (new_li_line_shape _ _ Hfm Hfmt) as (Hcomplete & Hcr & Hnoclose).
  fold new_line in Hcomplete, Hcr, Hnoclose.
  assert (Hblock_src : forall l, l ∈ block ->
            l = new_line \/ l ∈ slice lines start end_).
  { intros l Hl. destruct (Horigin l Hl) as [[-> _]|(before & after & -> & _)];
      [now left|right]. apply elem_of_app. right. now left. }
  assert (Hblock_close : forall l, l ∈ block -> str_in (lit "</ul>") l = false).
  { intros l Hl. destruct (Hblock_src l Hl) as [->|Hin]; [exact Hnoclose|].
    apply elem_of_slice in Hin as (j & Hj & Hjl).
    destruct (find_ul_block_some _ _ _ Hfind) as (i & _ & _ & Hclose).
    apply first_index_some in Hclose as [_ Hbefore].
    apply (Hbefore j l); [lia|exact Hjl]. }
  pose proof (rewritten_lines_read_back t new_line block start end_
                Hfind Hle Hcomplete Hcr Hblock_src) as Hread.
  destruct (find_ul_block_rewritten lines block start end_ Hfind Hle Hblock_close)
    as (Hfind' & Hslice' & Htake' & Hdrop').
  fold lines new_lines in Hread. fold new_lines in Hfind', Hslice', Htake', Hdrop'.
  assert (Hfile1 : files w1 !! index_path = Some (concat new_lines)).
  { rewrite Hfiles. apply lookup_insert_eq. }
  destruct (add_entry_to_index_run folder yyyymmdd display_date (concat new_lines)
              start (start + length block) w1 Hfile1 Hfmt)
    as (keys' & block' & msg & Hrun' & Hkeys' & Hsorted' & Hlines' & Hmem').
  { now rewrite Hread. }
  fold index_path new_line in Hrun', Hkeys', Hlines', Hmem'.
  rewrite Hread, Hslice' in Hrun', Hkeys', Hlines', Hmem'.
  rewrite Htake', Hdrop' in Hrun'.
  assert (Hkeys_eq : keys' = keys).
  { apply sorted_gt_unique; [exact Hsorted'|exact Hsorted|].
    intros k. rewrite Hmem'. split.
    - intros [->|(l & Hl & Hk)]; [exact Hcode|].
      destruct (Forall2_elem_r _ _ _ _ Hkeys Hl) as (k' & Hin & Hk').
      congruence.
    - intros Hk. right.
      destruct (Forall2_elem_l _ _ _ _ Hkeys Hk) as (l & Hl & Hkl). eauto. }
  pose proof (last_with_key_unique _ _ Hkeys Hnd) as Hlast.
  assert (Hblock_eq : block' = block).
  { rewrite Hkeys_eq in Hlines'.
    apply (Forall2_functional (block_line yyyymmdd new_line block) keys);
      [exact Hlines'|].
    eapply Forall2_impl; [exact Hlast|]. intros k l Hkl. cbv beta in Hkl.
    unfold block_line. now rewrite Hkl. }
  assert (Hmem_code : dict_mem yyyymmdd (parse_existing block []) = true).
  { unfold dict_mem. rewrite parse_existing_get.
    destruct (Forall2_elem_l _ _ _ _ Hlast Hcode) as (l & _ & Hl).
    now rewrite Hl. }
  rewrite Hmem_code, Hblock_eq in Hrun'. cbn [negb] in Hrun'.
  exists changed, w1. eexists. split; [exact Hrun|]. split; [exact Hrun'|].
  cbn [store log files]. fold new_lines. rewrite Hfiles.
  apply insert_insert_eq.
Qed.

(** X17: when the index page exists and both list markers are found, a
    call for a date code that passes the 8-digit check and formats returns
    normally and rewrites the page as the lines before the block
    ([lines[:start]], the list-open line last), the block, and the lines
    from the list-close line on ([lines[end:]]), the first and the last
    as they were read.  Every line of the block carries its own date, the dates are
    strictly descending in the order of Python's string comparison, so no
    date has two lines; every line is either the last line of the old
    block for its date or, when the old block had no line for the new
    date, the freshly rendered line; every date of the old block and the
    new date are there.  When the list-close line comes after the
    list-open line, the page read again has exactly the lines written, and
    the block located in it by the same two markers is exactly that
    block. *)
Theorem add_entry_to_index_rewrites_block (folder yyyymmdd display_date t : str)
    (start end_ : nat) (w : world) :
  let index_path := os_path_join folder (lit "index.html") in
  let lines := split_lines (universal_newlines t) in
  let li_lines := slice lines start end_ in
  let new_line := new_li_line yyyymmdd display_date in
  files w !! index_path = Some t ->
  fullmatch_d8 yyyymmdd = true ->
  format_turkish_date yyyymmdd = Ok display_date ->
  find_ul_block lines = Some (start, end_) ->
  exists keys block changed w',
    add_entry_to_index folder yyyymmdd w = (Ok changed, w')
    /\ files w'
       = <[index_path := concat (take start lines ++ block ++ drop end_ lines)]>
           (files w)
    /\ Forall2 (fun k l => search_li l = Some k) keys block
    /\ Sorted str_gt keys
    /\ NoDup keys
    /\ (forall l, l ∈ block ->
          (l = new_line /\ changed = true)
          \/ exists before after,
               li_lines = before ++ l :: after
               /\ forall l', l' ∈ after -> search_li l' <> search_li l)
    /\ (forall l k, l ∈ li_lines -> search_li l = Some k -> k ∈ keys)
    /\ yyyymmdd ∈ keys
    /\ (changed = true <-> forall l, l ∈ li_lines -> search_li l <> Some yyyymmdd)
    /\ (start <= end_ ->
        let new_lines := take start lines ++ block ++ drop end_ lines in
        split_lines (universal_newlines (concat new_lines)) = new_lines
        /\ find_ul_block new_lines = Some (start, start + length block)
        /\ slice new_lines start (start + length block) = block).
Proof.
  intros index_path lines li_lines new_line Hfile Hfm Hfmt Hblock.
  destruct (add_entry_to_index_rewrites_block_aux folder yyyymmdd display_date t
              start end_ w Hfile Hfm Hfmt Hblock)
    as (keys & block & changed & w' & Hrun & Hfiles & Hkeys & Hsorted & Hnd
        & Horigin & Hkept & Hcode & Hchanged).
  exists keys, block, changed, w'.
  repeat (split; [assumption|]).
  intros Hle.
  apply (rewritten_page_reads_back yyyymmdd display_date t block start end_
           Hfm Hfmt Hblock Hle).
  intros l Hl. destruct (Horigin l Hl) as [[-> _]|(before & after & Hsplit & _)];
    [now left|right].
  rewrite Hsplit. apply elem_of_app. right. now left.
Qed.

(** ** Each operation works on its own file *)

(** Nothing but the file at [p] differs between [w] and [w']. *)
Definition only_touches (p : str) (w w' : world) : Prop :=
  (forall q, q <> p -> files w' !! q = files w !! q)
  /\ creatable w' = creatable w
  /\ child w' = child w.

#[local] Instance only_touches_preorder (p : str) : PreOrder (only_touches p).
Proof.
  split.
  - intros w. repeat split.
  - intros a b c (H1 & H2 & H3) (H1' & H2' & H3'). repeat split.
    + intros q Hq. now rewrite H1', H1.
    + congruence.
    + congruence.
Qed.

Lemma only_touches_log (p : str) (e : event) (w : world) :
  only_touches p w (log e w).
Proof. repeat split. Qed.

Lemma only_touches_store (p q t : str) (w : world) :
  q = p -> only_touches p w (store q t w).
Proof.
  intros ->. repeat split. intros q Hq. cbn [store files].
  now rewrite lookup_insert_ne.
Qed.

(** No file differs between [w] and [w']. *)
Definition same_files (w w' : world) : Prop := files w' = files w.

#[local] Instance same_files_preorder : PreOrder same_files.
Proof.
  split; [intros w; reflexivity|].
  intros a b c H1 H2. unfold same_files in *. congruence.
Qed.

Lemma same_files_log (e : event) (w : world) : same_files w (log e w).
Proof. reflexivity. Qed.

Lemma same_files_store (p t : str) (w : world) :
  False -> same_files w (store p t w).
Proof. intros []. Qed.

(** The commit leaves the working tree alone. *)
Lemma git_commit_changes_files (yyyymmdd : str) (changed_files : list str)
    (w : world) :
  files (snd (git_commit_changes yyyymmdd changed_files w)) = files w.
Proof.
  apply (preserves_git_commit same_files same_files_log).
Qed.

(** Two worlds that agree on the file at [p] and on whether it can be
    created. *)
Definition agree_at (p : str) (w1 w2 : world) : Prop :=
  files w1 !! p = files w2 !! p /\ creatable w1 p = creatable w2 p.

(** An operation whose result and whose effect on the file at [p] depend
    on nothing but that file. *)
Definition local_at (p : str) {A : Type} (m : M A) : Prop :=
  forall w1 w2, agree_at p w1 w2 ->
    fst (m w1) = fst (m w2) /\ agree_at p (snd (m w1)) (snd (m w2)).

Lemma local_ret (p : str) {A : Type} (a : A) : local_at p (mret a).
Proof. intros w1 w2 H. split; [reflexivity|exact H]. Qed.

Lemma local_raise (p : str) {A : Type} (e : exn) : local_at p (@raise A e).
Proof. intros w1 w2 H. split; [reflexivity|exact H]. Qed.

Lemma local_lift (p : str) {A : Type} (r : result A) : local_at p (lift r).
Proof. intros w1 w2 H. split; [reflexivity|exact H]. Qed.

Lemma local_print (p msg : str) : local_at p (print msg).
Proof. intros w1 w2 H. split; [reflexivity|exact H]. Qed.

Lemma local_exists (p : str) : local_at p (os_path_exists p).
Proof.
  intros w1 w2 [H1 H2]. unfold os_path_exists. cbn [fst snd].
  split; [|split; [exact H1|exact H2]]. unfold is_file. now rewrite H1.
Qed.

Lemma local_read (p : str) : local_at p (read_lines p).
Proof.
  intros w1 w2 [H1 H2]. unfold read_lines. rewrite H1.
  destruct (files w2 !! p) eqn:E; cbn [fst snd];
    (split; [reflexivity|split; [cbn [log files]; congruence|exact H2]]).
Qed.

Lemma local_write (p t : str) : local_at p (write_text p t).
Proof.
  intros w1 w2 [H1 H2]. unfold write_text, is_file. rewrite H1, H2.
  destruct (_ || _); cbn [fst snd]; (split; [reflexivity|]).
  - split; [|exact H2]. cbn [store log files]. now rewrite !lookup_insert_eq.
  - split; [exact H1|exact H2].
Qed.

Lemma local_bind (p : str) {A B : Type} (m : M A) (k : A -> M B) :
  local_at p m -> (forall a, local_at p (k a)) -> local_at p (m ≫= k).
Proof.
  intros Hm Hk w1 w2 H. unfold mbind, M_bind.
  destruct (Hm w1 w2 H) as [Hr Hw].
  destruct (m w1) as [[a|e] w1'], (m w2) as [[a'|e'] w2']; cbn in Hr, Hw;
    try discriminate.
  - injection Hr as <-. now apply Hk.
  - injection Hr as <-. split; [reflexivity|exact Hw].
Qed.

Ltac local_tac :=
  repeat first
    [ apply local_ret | apply local_raise | apply local_lift
    | apply local_print | apply local_exists | apply local_read
    | apply local_write
    | apply local_bind; [|intros; cbv beta]
    | match goal with
      | |- local_at _ (if ?b then _ else _) => destruct b
      | |- local_at _ (match ?x with _ => _ end) => destruct x
      end ].

Lemma local_add_entry (folder yyyymmdd : str) :
  local_at (os_path_join folder (lit "index.html"))
    (add_entry_to_index folder yyyymmdd).
Proof. unfold add_entry_to_index, write_lines. local_tac. Qed.

Lemma local_create_daily (folder yyyymmdd : str) :
  local_at (os_path_join folder (yyyymmdd ++ lit ".html"))
    (create_daily_file folder yyyymmdd).
Proof. unfold create_daily_file. local_tac. Qed.

Lemma local_update_root (yyyymmdd : str) :
  local_at (lit "index.html") (update_root_index yyyymmdd).
Proof. unfold update_root_index, write_lines. local_tac. Qed.

Lemma local_update_today (yyyymmdd : str) :
  local_at today_path (update_today_index yyyymmdd).
Proof. unfold update_today_index, write_lines. local_tac. Qed.

(** The operations touch their own file only. *)
Lemma add_entry_only_touches (folder yyyymmdd : str) (w : world) :
  only_touches (os_path_join folder (lit "index.html")) w
    (snd (add_entry_to_index folder yyyymmdd w)).
Proof.
  apply (preserves_add_entry _ (fun q => q = os_path_join folder (lit "index.html")));
    [apply only_touches_log|intros; now apply only_touches_store|reflexivity].
Qed.

Lemma create_daily_only_touches (folder yyyymmdd : str) (w : world) :
  only_touches (os_path_join folder (yyyymmdd ++ lit ".html")) w
    (snd (create_daily_file folder yyyymmdd w)).
Proof.
  apply (preserves_create_daily _
           (fun q => q = os_path_join folder (yyyymmdd ++ lit ".html")));
    [apply only_touches_log|intros; now apply only_touches_store|reflexivity].
Qed.

Lemma update_root_only_touches (yyyymmdd : str) (w : world) :
  only_touches (lit "index.html") w (snd (update_root_index yyyymmdd w)).
Proof.
  apply (preserves_update_root _ (fun q => q = lit "index.html"));
    [apply only_touches_log|intros; now apply only_touches_store|reflexivity].
Qed.

Lemma update_today_only_touches (yyyymmdd : str) (w : world) :
  only_touches today_path w (snd (update_today_index yyyymmdd w)).
Proof.
  apply (preserves_update_today _ (fun q => q = today_path));
    [apply only_touches_log|intros; now apply only_touches_store|reflexivity].
Qed.

(** ** The paths of a run *)

Definition index_path (folder : str) : str := os_path_join folder (lit "index.html").

Definition page_path (folder yyyymmdd : str) : str :=
  os_path_join folder (yyyymmdd ++ lit ".html").

Definition root_path : str := lit "index.html".

Lemma folders_cases (g : str) :
  g ∈ folders ->
  g = lit "minisudoku" \/ g = lit "zip" \/ g = lit "queens" \/ g = lit "tango".
Proof.
  unfold folders. intros H.
  repeat (apply elem_of_cons in H as [H|H]; [auto|]).
  now apply elem_of_nil in H.
Qed.

Lemma fullmatch_d8_head (yyyymmdd : str) :
  fullmatch_d8 yyyymmdd = true ->
  exists c rest, yyyymmdd = c :: rest /\ isdecimal c = true.
Proof.
  unfold fullmatch_d8. intros H. apply andb_true_iff in H as [Hlen Hdig].
  destruct yyyymmdd as [|c rest]; [discriminate|].
  cbn [forallb] in Hdig. apply andb_true_iff in Hdig as [Hc _]. eauto.
Qed.

Lemma page_path_eq (g yyyymmdd : str) :
  g ∈ folders -> fullmatch_d8 yyyymmdd = true ->
  page_path g yyyymmdd = g ++ lit "/" ++ yyyymmdd ++ lit ".html".
Proof.
  intros Hg Hfm. destruct (fullmatch_d8_head _ Hfm) as (c & rest & -> & Hc).
  assert (Hslash : (c =? 47)%N = false).
  { apply N.eqb_neq. intros ->. vm_compute in Hc. discriminate. }
  unfold page_path, os_path_join.
  change (lit "/") with [47%N]. cbn [app startswith]. rewrite Hslash. cbn [andb].
  destruct (folders_cases g Hg) as [-> | [-> | [-> | ->]]]; reflexivity.
Qed.

Ltac path_neq Hc :=
  let H := fresh in
  intros H; vm_compute in H;
  first [ discriminate H
        | injection H; intros; subst; vm_compute in Hc; discriminate Hc ].

(** The ten paths a run works on are different from one another. *)
Lemma paths_distinct (g g' yyyymmdd : str) :
  g ∈ folders -> g' ∈ folders -> fullmatch_d8 yyyymmdd = true ->
  index_path g <> page_path g' yyyymmdd
  /\ (g <> g' -> index_path g <> index_path g'
                /\ page_path g yyyymmdd <> page_path g' yyyymmdd)
  /\ index_path g <> root_path /\ index_path g <> today_path
  /\ page_path g yyyymmdd <> root_path /\ page_path g yyyymmdd <> today_path.
Proof.
  intros Hg Hg' Hfm.
  rewrite !page_path_eq by assumption.
  destruct (fullmatch_d8_head _ Hfm) as (c & rest & -> & Hc).
  destruct (folders_cases g Hg) as [-> | [-> | [-> | ->]]];
    destruct (folders_cases g' Hg') as [-> | [-> | [-> | ->]]];
    (split; [path_neq Hc|]);
    (split; [intros Hne; first [ now exfalso | split; path_neq Hc ] |]);
    repeat split; path_neq Hc.
Qed.

Lemma root_today_distinct : root_path <> today_path.
Proof. intros H. vm_compute in H. discriminate H. Qed.

(** ** The operations return *)

(** For a date that formats, [add_entry_to_index] raises nothing; when the
    index page is missing it reports that and changes nothing. *)
Lemma add_entry_returns (folder yyyymmdd display_date : str) (w : world) :
  format_turkish_date yyyymmdd = Ok display_date ->
  exists b, fst (add_entry_to_index folder yyyymmdd w) = Ok b.
Proof.
  intros Hfmt.
  destruct (files w !! os_path_join folder (lit "index.html")) as [t|] eqn:Hfile.
  - destruct (find_ul_block (split_lines (universal_newlines t)))
      as [[start end_]|] eqn:Hblock.
    + destruct (add_entry_to_index_run folder yyyymmdd display_date t start end_ w
                  Hfile Hfmt Hblock) as (keys & block & msg & -> & _).
      eauto.
    + unfold add_entry_to_index. cbv zeta.
      rewrite bind_exists. unfold is_file. rewrite Hfile. cbn [negb].
      rewrite Hfmt, bind_lift_ok, (bind_read _ t) by exact Hfile.
      rewrite Hblock. eauto.
  - unfold add_entry_to_index. cbv zeta.
    rewrite bind_exists. unfold is_file. rewrite Hfile. cbn [negb].
    eauto.
Qed.

Lemma add_entry_missing (folder yyyymmdd : str) (w : world) :
  files w !! index_path folder = None ->
  add_entry_to_index folder yyyymmdd w
  = (Ok false,
     log (EPrint (CROSS ++ lit " " ++ index_path folder ++ lit " not found."))
       (log (EExists (index_path folder)) w)).
Proof.
  intros Hfile. unfold add_entry_to_index. cbv zeta. fold (index_path folder).
  rewrite bind_exists. unfold is_file. rewrite Hfile. reflexivity.
Qed.

Lemma create_daily_returns (folder yyyymmdd display_date : str) (w : world) :
  format_turkish_date yyyymmdd = Ok display_date ->
  folder ∈ folders ->
  is_file w (page_path folder yyyymmdd) || creatable w (page_path folder yyyymmdd)
  = true ->
  (exists b, fst (create_daily_file folder yyyymmdd w) = Ok b)
  /\ is_file (snd (create_daily_file folder yyyymmdd w)) (page_path folder yyyymmdd)
     = true.
Proof.
  intros Hfmt Hg Hcan. unfold create_daily_file. cbv zeta.
  fold (page_path folder yyyymmdd). rewrite bind_exists.
  destruct (is_file w (page_path folder yyyymmdd)) eqn:Hfile.
  - split; [eauto|]. cbn. exact Hfile.
  - rewrite Hfmt, bind_lift_ok.
    assert (Htitle : exists title, dict_get folder dict_title = Some title).
    { destruct (folders_cases folder Hg) as [-> | [-> | [-> | ->]]];
        eexists; reflexivity. }
    destruct Htitle as [title ->].
    unfold mbind, M_bind, write_text. cbn [log files creatable is_file] in *.
    unfold is_file in *. cbn [log files].
    destruct (files w !! page_path folder yyyymmdd); [discriminate|].
    cbn [orb] in Hcan |- *. rewrite Hcan. cbn.
    split; [eauto|]. now rewrite lookup_insert_eq.
Qed.

Lemma update_root_returns (yyyymmdd display_date : str) (w : world) :
  format_turkish_date yyyymmdd = Ok display_date ->
  exists b, fst (update_root_index yyyymmdd w) = Ok b.
Proof.
  intros Hfmt. unfold update_root_index. cbv zeta.
  rewrite bind_exists. unfold is_file.
  destruct (files w !! lit "index.html") as [t|] eqn:Hfile; cbn [negb]; [|eauto].
  rewrite Hfmt, bind_lift_ok, (bind_read _ t) by exact Hfile.
  destruct (root_loop _ _ _ _ _ _ _) as [lines [|]].
  - unfold write_lines.
    rewrite !bind_assoc, (bind_write_existing _ _ t) by exact Hfile. eauto.
  - eauto.
Qed.

Lemma update_today_returns (yyyymmdd display_date : str) (w : world) :
  format_turkish_date yyyymmdd = Ok display_date ->
  (forall t, files w !! today_path = Some t ->
     exists r, today_scan yyyymmdd display_date
                 (split_lines (universal_newlines t)) = Ok r) ->
  exists b, fst (update_today_index yyyymmdd w) = Ok b.
Proof.
  intros Hfmt Hscan.
  destruct (files w !! today_path) as [t|] eqn:Hfile.
  - rewrite (update_today_index_run _ _ _ _ Hfile Hfmt).
    destruct (Hscan t eq_refl) as [[new_lines [|]] ->]; eauto.
  - unfold update_today_index. cbv zeta.
    change (os_path_join (lit "today") (lit "index.html")) with today_path.
    rewrite bind_exists. unfold is_file. rewrite Hfile. eauto.
Qed.

(** The commit returns or raises [CalledProcessError]. *)
Lemma git_commit_changes_outcome (yyyymmdd : str) (changed_files : list str)
    (w : world) :
  fst (git_commit_changes yyyymmdd changed_files w) = Ok tt
  \/ fst (git_commit_changes yyyymmdd changed_files w) = Raise CalledProcessError.
Proof.
  unfold git_commit_changes. destruct changed_files as [|f fs]; [now left|].
  unfold mbind, M_bind, subprocess_run, print. cbn [andb negb].
  repeat match goal with
         | |- context [match strip ?s with _ => _ end] => destruct (strip s)
         | |- context [if negb ?b then _ else _] => destruct b; cbn [negb]
         end; auto.
Qed.

(** ** The loop over the game folders *)

Lemma add_entry_trace_grows (folder yyyymmdd : str) (w : world) :
  trace w `prefix_of` trace (snd (add_entry_to_index folder yyyymmdd w)).
Proof.
  apply (preserves_add_entry trace_grows (fun _ => True)
           trace_grows_log trace_grows_store folder yyyymmdd I).
Qed.

Lemma create_daily_trace_grows (folder yyyymmdd : str) (w : world) :
  trace w `prefix_of` trace (snd (create_daily_file folder yyyymmdd w)).
Proof.
  apply (preserves_create_daily trace_grows (fun _ => True)
           trace_grows_log trace_grows_store folder yyyymmdd I).
Qed.

Lemma elem_of_prefix (e : event) (l1 l2 : list event) :
  e ∈ l1 -> l1 `prefix_of` l2 -> e ∈ l2.
Proof. intros He [k ->]. apply elem_of_app. now left. Qed.

Definition not_found_msg (folder : str) : event :=
  EPrint (CROSS ++ lit " " ++ index_path folder ++ lit " not found.").

(** The effect of the loop, started in a world [w] that a run has brought
    from [w0] without touching the folders' files yet: it returns, and
    every index page ends as [add_entry_to_index] alone leaves it in
    [w0], every daily page exists, no other file is touched, and a
    missing index page is reported. *)
Lemma process_folders_effect (yyyymmdd display_date : str) (w0 : world) :
  fullmatch_d8 yyyymmdd = true ->
  format_turkish_date yyyymmdd = Ok display_date ->
  (forall g, g ∈ folders ->
     is_file w0 (page_path g yyyymmdd) || creatable w0 (page_path g yyyymmdd) = true) ->
  forall (fs cf : list str) (w : world),
    NoDup fs -> (forall g, g ∈ fs -> g ∈ folders) ->
    creatable w = creatable w0 ->
    (forall g, g ∈ fs ->
       files w !! index_path g = files w0 !! index_path g
       /\ files w !! page_path g yyyymmdd = files w0 !! page_path g yyyymmdd) ->
    (exists cf', fst (process_folders fs yyyymmdd cf w) = Ok cf')
    /\ creatable (snd (process_folders fs yyyymmdd cf w)) = creatable w0
    /\ trace w `prefix_of` trace (snd (process_folders fs yyyymmdd cf w))
    /\ (forall q, (forall g, g ∈ fs -> q <> index_path g /\ q <> page_path g yyyymmdd) ->
          files (snd (process_folders fs yyyymmdd cf w)) !! q = files w !! q)
    /\ (forall g, g ∈ fs ->
          files (snd (process_folders fs yyyymmdd cf w)) !! index_path g
          = files (snd (add_entry_to_index g yyyymmdd w0)) !! index_path g
          /\ is_file (snd (process_folders fs yyyymmdd cf w)) (page_path g yyyymmdd)
             = true
          /\ (files w0 !! index_path g = None ->
              not_found_msg g ∈ trace (snd (process_folders fs yyyymmdd cf w)))).
Proof.
  intros Hfm Hfmt Hpages fs.
  induction fs as [|g fs IH]; intros cf w Hnd Hsub Hcr Hsame.
  - cbn [process_folders mret M_ret fst snd].
    split; [eauto|]. split; [exact Hcr|]. split; [reflexivity|].
    split; [reflexivity|]. intros g Hg. now apply elem_of_nil in Hg.
  - apply NoDup_cons in Hnd as [Hg_fresh Hnd].
    assert (Hg : g ∈ folders) by (apply Hsub; now left).
    destruct (Hsame g) as [Hidx Hpage]; [now left|].
    cbn [process_folders].
    (* the index page of [g] *)
    destruct (add_entry_returns g yyyymmdd display_date w Hfmt) as [a Ha].
    pose proof (add_entry_only_touches g yyyymmdd w) as (T1 & T1c & _).
    pose proof (add_entry_trace_grows g yyyymmdd w) as G1.
    pose proof (local_add_entry g yyyymmdd w0 w) as L1.
    fold (index_path g) in T1, L1.
    destruct L1 as [_ [L1 _]]; [split; [now rewrite Hidx|now rewrite Hcr]|].
    assert (M1 : files w0 !! index_path g = None ->
                 not_found_msg g ∈ trace (snd (add_entry_to_index g yyyymmdd w))).
    { intros Hnone. rewrite add_entry_missing by now rewrite Hidx.
      cbn [snd log trace]. apply elem_of_app. right. now left. }
    destruct (add_entry_to_index g yyyymmdd w) as [r1 w1] eqn:E1.
    cbn [fst snd] in Ha, T1, T1c, G1, L1, M1. subst r1.
    rewrite (bind_ok _ _ _ _ _ E1).
    (* the daily page of [g] *)
    destruct (paths_distinct g g yyyymmdd Hg Hg Hfm) as (Dip & _).
    assert (Hcan : is_file w1 (page_path g yyyymmdd)
                   || creatable w1 (page_path g yyyymmdd) = true).
    { unfold is_file. rewrite T1 by (intros E; now apply Dip).
      rewrite T1c, Hcr, Hpage. apply (Hpages g Hg). }
    destruct (create_daily_returns g yyyymmdd display_date w1 Hfmt Hg Hcan)
      as [[c Hc] Hexists].
    pose proof (create_daily_only_touches g yyyymmdd w1) as (T2 & T2c & _).
    pose proof (create_daily_trace_grows g yyyymmdd w1) as G2.
    fold (page_path g yyyymmdd) in T2.
    destruct (create_daily_file g yyyymmdd w1) as [r2 w2] eqn:E2.
    cbn [fst snd] in Hc, Hexists, T2, T2c, G2. subst r2.
    rewrite (bind_ok _ _ _ _ _ E2).
    (* the other folders *)
    match goal with
    | |- context [process_folders fs yyyymmdd ?cf2 w2] => set (cf' := cf2)
    end.
    assert (Hother : forall g', g' ∈ fs ->
              index_path g' <> index_path g /\ index_path g' <> page_path g yyyymmdd
              /\ page_path g' yyyymmdd <> index_path g
              /\ page_path g' yyyymmdd <> page_path g yyyymmdd).
    { intros g' Hg'. assert (Hne : g' <> g) by (intros ->; contradiction).
      assert (Hg'f : g' ∈ folders) by (apply Hsub; now right).
      destruct (paths_distinct g' g yyyymmdd Hg'f Hg Hfm) as (D1 & D2 & _).
      destruct (D2 Hne) as [D3 D4].
      destruct (paths_distinct g g' yyyymmdd Hg Hg'f Hfm) as (D5 & _).
      repeat split; auto. }
    destruct (IH cf' w2 Hnd) as (Hret & Hcr' & G3 & Hframe & Hdone).
    { intros g' Hg'. apply Hsub. now right. }
    { congruence. }
    { intros g' Hg'. destruct (Hother g' Hg') as (D1 & D2 & D3 & D4).
      destruct (Hsame g') as [Hi' Hp']; [now right|].
      split.
      - now rewrite T2, T1 by assumption.
      - now rewrite T2, T1 by assumption. }
    split; [exact Hret|]. split; [exact Hcr'|].
    split; [now transitivity (trace w1); [|transitivity (trace w2)]|].
    assert (Hhead_frame : forall q, q = index_path g \/ q = page_path g yyyymmdd ->
              files (snd (process_folders fs yyyymmdd cf' w2)) !! q = files w2 !! q).
    { intros q Hq. apply Hframe. intros g' Hg'.
      destruct (Hother g' Hg') as (D1 & D2 & D3 & D4).
      destruct Hq as [-> | ->]; split; congruence. }
    split.
    + intros q Hq. destruct (Hq g) as [Hq1 Hq2]; [now left|].
      rewrite Hframe by (intros g' Hg'; apply Hq; now right).
      now rewrite T2, T1 by assumption.
    + intros g' Hg'. apply elem_of_cons in Hg' as [-> | Hg']; [|now apply Hdone].
      split; [|split].
      * rewrite Hhead_frame by now left.
        rewrite T2 by exact Dip. congruence.
      * unfold is_file in *. now rewrite Hhead_frame by now right.
      * intros Hnone. eapply elem_of_prefix; [exact (M1 Hnone)|].
        now transitivity (trace w2).
Qed.

(** ** A missing index page does not stop the run *)

Lemma folders_nodup : NoDup folders.
Proof. apply (bool_decide_unpack _). vm_compute. exact I. Qed.

(** C8, amended: when the index page of one of the games is missing,
    [add_entry_to_index] for it reports the miss, returns [False] and
    changes no file; and a run for a date code that passes the check and
    formats, in a tree where the daily pages exist or can be created and
    the landing page, if there is one, scans without an exception, gets
    through every document: the missing page is still missing and was
    reported, every index page ends as [add_entry_to_index] alone leaves
    it, every daily page exists, the homepage and the landing page end as
    their patchers alone leave them, and the run returns or fails in the
    commit only. *)
Theorem main_survives_missing_index (prog yyyymmdd display_date missing : str)
    (w : world) :
  fullmatch_d8 yyyymmdd = true ->
  format_turkish_date yyyymmdd = Ok display_date ->
  missing ∈ folders ->
  files w !! index_path missing = None ->
  (forall g, g ∈ folders ->
     is_file w (page_path g yyyymmdd) || creatable w (page_path g yyyymmdd) = true) ->
  (forall t, files w !! today_path = Some t ->
     exists r, today_scan yyyymmdd display_date
                 (split_lines (universal_newlines t)) = Ok r) ->
  add_entry_to_index missing yyyymmdd w
  = (Ok false, log (not_found_msg missing) (log (EExists (index_path missing)) w))
  /\ (fst (main [prog; yyyymmdd] w) = Ok tt
      \/ fst (main [prog; yyyymmdd] w) = Raise CalledProcessError)
  /\ files (snd (main [prog; yyyymmdd] w)) !! index_path missing = None
  /\ not_found_msg missing ∈ trace (snd (main [prog; yyyymmdd] w))
  /\ (forall g, g ∈ folders ->
        files (snd (main [prog; yyyymmdd] w)) !! index_path g
        = files (snd (add_entry_to_index g yyyymmdd w)) !! index_path g
        /\ is_file (snd (main [prog; yyyymmdd] w)) (page_path g yyyymmdd) = true)
  /\ files (snd (main [prog; yyyymmdd] w)) !! root_path
     = files (snd (update_root_index yyyymmdd w)) !! root_path
  /\ files (snd (main [prog; yyyymmdd] w)) !! today_path
     = files (snd (update_today_index yyyymmdd w)) !! today_path.
Proof.
  intros Hfm Hfmt Hmissing Hnone Hpages Hscan.
  split; [now apply add_entry_missing|].
  unfold main. cbn [length Nat.eqb negb py_index lookup list_lookup].
  rewrite bind_lift_ok, Hfm. cbn [negb]. unfold run_updates.
  (* the folders *)
  destruct (process_folders_effect yyyymmdd display_date w Hfm Hfmt Hpages
              folders [] w folders_nodup (fun g H => H) eq_refl
              (fun g _ => conj eq_refl eq_refl))
    as ([cf Hcf] & HcrP & GP & FP & DP).
  destruct (process_folders folders yyyymmdd [] w) as [rP wP] eqn:EP.
  cbn [fst snd] in Hcf, HcrP, GP, FP, DP. subst rP.
  rewrite (bind_ok _ _ _ _ _ EP).
  assert (FP' : forall q, q = root_path \/ q = today_path ->
                          files wP !! q = files w !! q).
  { intros q Hq. apply FP. intros g Hg.
    destruct (paths_distinct g g yyyymmdd Hg Hg Hfm) as (_ & _ & D1 & D2 & D3 & D4).
    destruct Hq as [-> | ->]; split; congruence. }
  (* the homepage *)
  destruct (update_root_returns yyyymmdd display_date wP Hfmt) as [a Ha].
  pose proof (update_root_only_touches yyyymmdd wP) as (TR & TRc & _).
  pose proof (preserves_update_root trace_grows (fun _ => True)
                trace_grows_log trace_grows_store yyyymmdd I wP) as GR.
  destruct (local_update_root yyyymmdd w wP) as [_ [LR _]].
  { split; [now rewrite FP' by now left|now rewrite HcrP]. }
  fold root_path in TR, LR.
  destruct (update_root_index yyyymmdd wP) as [rR wR] eqn:ER.
  cbn [fst snd] in Ha, TR, TRc, GR, LR. subst rR.
  rewrite (bind_ok _ _ _ _ _ ER).
  (* the landing page *)
  assert (HtodayR : files wR !! today_path = files w !! today_path).
  { rewrite TR by (intros E; now apply root_today_distinct).
    apply FP'. now right. }
  destruct (update_today_returns yyyymmdd display_date wR Hfmt) as [b Hb].
  { intros t Ht. apply Hscan. now rewrite <- HtodayR. }
  pose proof (update_today_only_touches yyyymmdd wR) as (TT & TTc & _).
  pose proof (preserves_update_today trace_grows (fun _ => True)
                trace_grows_log trace_grows_store yyyymmdd I wR) as GT.
  destruct (local_update_today yyyymmdd w wR) as [_ [LT _]].
  { split; [now rewrite HtodayR|now rewrite TRc, HcrP]. }
  destruct (update_today_index yyyymmdd wR) as [rT wT] eqn:ET.
  cbn [fst snd] in Hb, TT, TTc, GT, LT. subst rT.
  rewrite (bind_ok _ _ _ _ _ ET).
  (* the commit *)
  match goal with
  | |- context [match ?l with [] => mret tt | _ :: _ => _ end wT] =>
      set (changed_files := l)
  end.
  assert (HG : exists rG wG,
             match changed_files with
             | [] => mret tt
             | _ :: _ => git_commit_changes yyyymmdd changed_files
             end wT = (rG, wG)
             /\ (rG = Ok tt \/ rG = Raise CalledProcessError)
             /\ files wG = files wT
             /\ trace wT `prefix_of` trace wG).
  { destruct changed_files as [|f fs] eqn:Ecf.
    - exists (Ok tt), wT. repeat split; auto.
    - pose proof (git_commit_changes_outcome yyyymmdd (f :: fs) wT) as Hout.
      pose proof (git_commit_changes_files yyyymmdd (f :: fs) wT) as Hfiles.
      pose proof (preserves_git_commit trace_grows trace_grows_log
                    yyyymmdd (f :: fs) wT) as Hgrows.
      destruct (git_commit_changes yyyymmdd (f :: fs) wT) as [rG wG].
      exists rG, wG. auto. }
  destruct HG as (rG & wG & -> & HrG & HfG & GG). cbn [fst snd].
  assert (Hfinal : forall q, q <> root_path -> q <> today_path ->
                             files wG !! q = files wP !! q).
  { intros q Hq1 Hq2. now rewrite HfG, TT, TR by assumption. }
  assert (Hfinal_idx : forall g, g ∈ folders ->
            files wG !! index_path g = files wP !! index_path g
            /\ files wG !! page_path g yyyymmdd = files wP !! page_path g yyyymmdd).
  { intros g Hg.
    destruct (paths_distinct g g yyyymmdd Hg Hg Hfm) as (_ & _ & D1 & D2 & D3 & D4).
    split; now apply Hfinal. }
  split; [exact HrG|]. split; [|split; [|split; [|split]]].
  - destruct (Hfinal_idx missing Hmissing) as [-> _].
    destruct (DP missing Hmissing) as (-> & _).
    rewrite add_entry_missing by exact Hnone. exact Hnone.
  - destruct (DP missing Hmissing) as (_ & _ & Hmsg).
    eapply elem_of_prefix; [exact (Hmsg Hnone)|].
    transitivity (trace wR); [exact GR|].
    transitivity (trace wT); [exact GT|exact GG].
  - intros g Hg. destruct (Hfinal_idx g Hg) as [Hi Hp].
    destruct (DP g Hg) as (Hidx & Hpage & _).
    split; [now rewrite Hi|]. unfold is_file in *. now rewrite Hp.
  - rewrite HfG, TT by exact root_today_distinct. congruence.
  - rewrite HfG. congruence.
Qed.

(** ** The commit *)

Definition git_branch_list (yyyymmdd : str) : list str :=
  [lit "git"; lit "branch"; lit "--list"; yyyymmdd].

(** With nothing changed, no command is run. *)
Lemma git_commit_changes_nothing (yyyymmdd : str) (w : world) :
  git_commit_changes yyyymmdd [] w
  = (Ok tt, log (EPrint (WARN ++ lit " No changes to commit.")) w).
Proof. reflexivity. Qed.

(** A command run with [check=True] raises exactly when it exits
    non-zero; one run without it never raises. *)
Lemma subprocess_run_checked (argv : list str) (w : world) :
  fst (subprocess_run argv true w) = Raise CalledProcessError
  <-> returncode (child w (trace w) argv) <> 0%Z.
Proof.
  unfold subprocess_run. cbn [andb].
  destruct (Z.eqb_spec (returncode (child w (trace w) argv)) 0) as [E|E];
    cbn [negb fst]; split; intros H; congruence.
Qed.

Lemma subprocess_run_unchecked (argv : list str) (w : world) :
  subprocess_run argv false w = (Ok (child w (trace w) argv), log (ERun argv) w).
Proof. reflexivity. Qed.

Lemma bind_run_unchecked {B : Type} (argv : list str)
    (k : CompletedProcess -> M B) (w : world) :
  (subprocess_run argv false ≫= k) w
  = k (child w (trace w) argv) (log (ERun argv) w).
Proof. reflexivity. Qed.

Lemma bind_run_checked {B : Type} (argv : list str)
    (k : CompletedProcess -> M B) (w : world) :
  returncode (child w (trace w) argv) = 0%Z ->
  (subprocess_run argv true ≫= k) w
  = k (child w (trace w) argv) (log (ERun argv) w).
Proof.
  intros H. unfold mbind, M_bind, subprocess_run. cbn [andb]. now rewrite H.
Qed.

(** The exit status of the branch listing is not looked at: when every
    other command succeeds the commit returns, whatever the listing exits
    with. *)
Lemma git_commit_changes_listing_unchecked (yyyymmdd f : str) (fs : list str)
    (w : world) :
  (forall history argv, argv <> git_branch_list yyyymmdd ->
     returncode (child w history argv) = 0%Z) ->
  fst (git_commit_changes yyyymmdd (f :: fs) w) = Ok tt.
Proof.
  intros Hok. unfold git_commit_changes. rewrite bind_run_unchecked.
  destruct (strip (stdout (child w (trace w) _)));
    repeat first
      [ rewrite bind_assoc
      | rewrite bind_print
      | rewrite bind_run_checked
          by (cbn [log child]; apply Hok;
              let H := fresh in intros H; vm_compute in H; discriminate H) ];
    reflexivity.
Qed.

(** ** The date formatter: what it raises *)

Ltac match_cases H :=
  repeat first
    [ apply elem_of_nil in H; destruct H
    | apply list_elem_of_singleton in H; injection H as -> ->
    | apply elem_of_app in H as [H|H]
    | match type of H with
      | _ ∈ (if ?b then _ else _) => destruct b
      end ].

Lemma match_Y_parts (s yt r : str) :
  (yt, r) ∈ match_Y s -> s = yt ++ r /\ length yt = 4.
Proof.
  unfold match_Y. intros H.
  destruct (_ && _) eqn:E; [|now apply elem_of_nil in H].
  apply list_elem_of_singleton in H. injection H as -> ->.
  apply andb_true_iff in E as [E _]. apply Nat.eqb_eq in E.
  split; [now rewrite take_drop|exact E].
Qed.

Lemma match_m_parts (s mt r : str) :
  (mt, r) ∈ match_m s -> s = mt ++ r /\ 1 <= length mt <= 2.
Proof.
  intros H. destruct s as [|a [|b s]]; cbn [match_m] in H;
    match_cases H; cbn; split; (reflexivity || lia).
Qed.

Lemma match_d_parts (s dt r : str) :
  (dt, r) ∈ match_d s -> s = dt ++ r /\ 1 <= length dt <= 2.
Proof.
  intros H. destruct s as [|a [|b s]]; cbn [match_d] in H;
    match_cases H; cbn; split; (reflexivity || lia).
Qed.

(** Every match of the date pattern splits the text into a 4-character
    year, a month and a day of 1 or 2 characters, and the rest. *)
Lemma match_Ymd_parts (s yt mt dt rest : str) :
  (yt, mt, dt, rest) ∈ match_Ymd s ->
  s = yt ++ mt ++ dt ++ rest
  /\ length yt = 4 /\ 1 <= length mt <= 2 /\ 1 <= length dt <= 2.
Proof.
  unfold match_Ymd. intros H.
  apply list_elem_of_bind in H as ([y r1] & H & HY).
  apply list_elem_of_bind in H as ([m r2] & H & Hm).
  apply list_elem_of_bind in H as ([d r3] & H & Hd).
  apply list_elem_of_singleton in H. injection H as -> -> -> ->.
  apply match_Y_parts in HY as [-> HY].
  apply match_m_parts in Hm as [-> Hm].
  apply match_d_parts in Hd as [-> Hd].
  auto.
Qed.

(** The date [strptime] returns has passed the range checks. *)
Lemma strptime_Ymd_valid (s : str) (y m d : N) :
  strptime_Ymd s = Some (y, m, d) -> valid_date y m d = true.
Proof.
  unfold strptime_Ymd.
  destruct (match_Ymd s) as [|[[[yt mt] dt] rest] more]; [discriminate|].
  destruct rest; [|discriminate].
  destruct (py_int yt) as [y'|]; [|discriminate].
  destruct (py_int mt) as [m'|]; [|discriminate].
  destruct (py_int dt) as [d'|]; [|discriminate].
  destruct (valid_date y' m' d') eqn:E; [|discriminate].
  now intros [= <- <- <-].
Qed.

(** X1: whatever text it is given, [format_turkish_date] either raises
    [ValueError] or returns "<MonthName> <Day>, <Year>" for a date that
    passed the range checks; the lookup in the month table never fails, so
    it never raises [KeyError]. *)
Theorem format_turkish_date_outcome (s : str) :
  format_turkish_date s = Raise ValueError
  \/ exists y m d name,
       valid_date y m d = true
       /\ table_get m MONTHS_TR = Some name
       /\ format_turkish_date s
          = Ok (name ++ lit " " ++ str_of_N d ++ lit ", " ++ str_of_N y).
Proof.
  unfold format_turkish_date.
  destruct (strptime_Ymd s) as [[[y m] d]|] eqn:E; [|now left].
  right. pose proof (strptime_Ymd_valid s y m d E) as Hvalid.
  assert (Hm : (1 <= m <= 12)%N).
  { unfold valid_date in Hvalid.
    repeat (apply andb_true_iff in Hvalid as [Hvalid ?H]).
    repeat match goal with H : (_ <=? _)%N = true |- _ => apply N.leb_le in H end.
    lia. }
  destruct (table_get_month m Hm) as [name Hname].
  exists y, m, d, name. rewrite Hname. auto.
Qed.

(** X2: 8 ASCII digits that do not spell a calendar date (month 00 or
    above 12, day 00 or beyond the month's length, year 0000) make
    [format_turkish_date] raise [ValueError]. *)
Theorem format_turkish_date_invalid (code : str) :
  let y := numeral_value (take 4 code) in
  let m := numeral_value (take 2 (drop 4 code)) in
  let d := numeral_value (drop 6 code) in
  length code = 8 ->
  forallb ascii_digit code = true ->
  valid_date y m d = false ->
  format_turkish_date code = Raise ValueError.
Proof.
  intros y m d Hlen Hdig Hinvalid.
  unfold format_turkish_date.
  destruct (strptime_Ymd code) as [[[y' m'] d']|] eqn:E; [exfalso|reflexivity].
  unfold strptime_Ymd in E.
  destruct (match_Ymd code) as [|[[[yt mt] dt] rest] more] eqn:Hmatch;
    [discriminate|].
  destruct rest; [|discriminate].
  assert (Hin : (yt, mt, dt, []) ∈ match_Ymd code)
    by (rewrite Hmatch; apply list_elem_of_here).
  apply match_Ymd_parts in Hin as (Hcode & Hy & Hmt & Hdt).
  assert (Hsum : length yt + (length mt + length dt) = 8).
  { rewrite <- Hlen, Hcode, !length_app. cbn. lia. }
  destruct yt as [|c1 [|c2 [|c3 [|c4 [|]]]]]; try discriminate Hy.
  destruct mt as [|c5 [|c6 [|]]]; cbn in Hmt, Hsum; try lia.
  destruct dt as [|c7 [|c8 [|]]]; cbn in Hdt, Hsum; try lia.
  subst code. cbn [app take drop] in y, m, d.
  cbn [app forallb] in Hdig.
  repeat (apply andb_true_iff in Hdig as [?H Hdig]).
  rewrite py_int_four, !py_int_two in E by assumption.
  fold y m d in E. now rewrite Hinvalid in E.
Qed.

(** ** [parse_li_line] *)

Lemma startswith_split (s a b : str) :
  startswith s (a ++ b)
  = startswith s a && startswith (drop (length a) s) b.
Proof.
  revert s. induction a as [|x a IH]; intros s; [now destruct s|].
  destruct s as [|c s]; [reflexivity|].
  cbn [app startswith length drop]. rewrite IH. now rewrite andb_assoc.
Qed.

Lemma startswith_take (s p : str) :
  startswith s p = true -> take (length p) s = p.
Proof.
  revert s. induction p as [|x p IH]; intros s; [now destruct s|].
  destruct s as [|c s]; [discriminate|].
  cbn [startswith length take]. intros H.
  apply andb_true_iff in H as [Hc Hs]. apply N.eqb_eq in Hc.
  now rewrite Hc, IH.
Qed.

(** The pattern matches at the head of [s] with group [d] exactly when [s]
    starts with the reference to [d] and [d] is 8 decimal digits. *)
Lemma match_li_here_iff (s d : str) :
  match_li_here s = Some d
  <-> fullmatch_d8 d = true
      /\ startswith s (litq "href=`" ++ d ++ litq ".html`") = true.
Proof.
  unfold match_li_here, fullmatch_d8. rewrite startswith_split.
  change (length (litq "href=`")) with 6.
  destruct (startswith s (litq "href=`")); cbn [andb];
    [|split; [discriminate|intros [_ H]; discriminate H]].
  split.
  - destruct (_ && _ && _) eqn:E; [|discriminate]. intros [= <-].
    apply andb_true_iff in E as [E E3].
    split; [exact E|].
    apply andb_true_iff in E as [E1 _]. apply Nat.eqb_eq in E1.
    rewrite startswith_split.
    rewrite <- (take_drop 8 (drop 6 s)) at 1.
    rewrite startswith_app, E1, E3. reflexivity.
  - intros [Hd Hs]. rewrite startswith_split in Hs.
    apply andb_true_iff in Hs as [Hs1 Hs2].
    apply andb_true_iff in Hd as [Hlen Hdig]. apply Nat.eqb_eq in Hlen.
    apply startswith_take in Hs1. rewrite Hlen in Hs1, Hs2.
    now rewrite Hs1, Hlen, Hdig, Hs2.
Qed.

(** X3: [parse_li_line] finds a date exactly in the lines that hold a
    reference href="<8 decimal digits>.html".  The date it returns is such
    a reference of the line, which it returns whole; when it returns none,
    the line holds no such reference. *)
Theorem parse_li_line_finds_reference (line : str) :
  match parse_li_line line with
  | Some (d, l) =>
      l = line /\ fullmatch_d8 d = true
      /\ str_in (litq "href=`" ++ d ++ litq ".html`") line = true
  | None =>
      forall d, fullmatch_d8 d = true ->
        str_in (litq "href=`" ++ d ++ litq ".html`") line = false
  end.
Proof.
  unfold parse_li_line.
  induction line as [|c line IH]; cbn [search_li].
  - destruct (match_li_here []) as [d|] eqn:E.
    + apply match_li_here_iff in E as [Hd Hs].
      cbn [str_in]. rewrite Hs. auto.
    + intros d Hd. cbn [str_in]. rewrite orb_false_r.
      destruct (startswith [] _) eqn:Hs; [|reflexivity].
      rewrite (proj2 (match_li_here_iff [] d)) in E by auto. discriminate.
  - destruct (match_li_here (c :: line)) as [d|] eqn:E.
    + apply match_li_here_iff in E as [Hd Hs].
      cbn [str_in]. rewrite Hs. auto.
    + destruct (search_li line) as [d|].
      * destruct IH as (_ & Hd & Hin). cbn [str_in]. rewrite Hin, orb_true_r.
        auto.
      * intros d Hd. cbn [str_in]. rewrite (IH d Hd), orb_false_r.
        destruct (startswith (c :: line) _) eqn:Hs; [|reflexivity].
        rewrite (proj2 (match_li_here_iff (c :: line) d)) in E by auto.
        discriminate.
Qed.

(** X4: the line the script renders for a date code is read back by
    [parse_li_line] as that code, whatever the display date. *)
Theorem parse_li_line_new_li_line (yyyymmdd display_date : str) :
  fullmatch_d8 yyyymmdd = true ->
  parse_li_line (new_li_line yyyymmdd display_date)
  = Some (yyyymmdd, new_li_line yyyymmdd display_date).
Proof.
  intros Hk. unfold parse_li_line.
  rewrite (new_li_line_key yyyymmdd display_date Hk). reflexivity.
Qed.

(** ** An index page without a list *)




(** ** The daily page that is created *)

Lemma str_in_app_r (p a s : str) :
  str_in p s = true -> str_in p (a ++ s) = true.
Proof.
  intros H. induction a as [|c a IH]; [exact H|].
  cbn [app str_in]. rewrite IH. apply orb_true_r.
Qed.

Lemma str_in_prefix (p s r : str) : s = p ++ r -> str_in p s = true.
Proof.
  intros ->. destruct (p ++ r) eqn:E; cbn [str_in]; rewrite <- E;
    now rewrite startswith_app.
Qed.

Lemma dict_title_unknown (folder : str) :
  folder ∉ folders -> dict_get folder dict_title = None.
Proof.
  intros Hg. unfold dict_title. cbn [dict_get]. unfold str_eqb.
  repeat match goal with
         | |- context [bool_decide (folder = ?g)] =>
             destruct (bool_decide_reflect (folder = g)) as [->|_];
             [exfalso; apply Hg; unfold folders;
              repeat first [apply list_elem_of_here | apply list_elem_of_further]|]
         end.
  reflexivity.
Qed.

(** X6: where no file exists at the page's path and one can be created,
    [create_daily_file] for a game of the title table and a date that
    formats writes the page and returns [True].  The page carries the
    game's title and the display date in its [<title>] and its [<h1>], and
    refers to the image ../images/<folder>_<code>.jpeg.  A second call
    finds the page, returns [False] and leaves every file as it is. *)
Theorem create_daily_file_creates_once (folder yyyymmdd display_date title : str)
    (w : world) :
  let daily_path := os_path_join folder (yyyymmdd ++ lit ".html") in
  let page := daily_content title display_date folder yyyymmdd in
  files w !! daily_path = None ->
  creatable w daily_path = true ->
  format_turkish_date yyyymmdd = Ok display_date ->
  dict_get folder dict_title = Some title ->
  exists w1 w2,
    create_daily_file folder yyyymmdd w = (Ok true, w1)
    /\ files w1 = <[daily_path := page]> (files w)
    /\ str_in (lit "<title>" ++ title ++ lit " Solution " ++ [8211%N] ++ lit " "
               ++ display_date ++ lit "</title>") page = true
    /\ str_in (lit "<h1>" ++ title ++ lit " " ++ [8211%N] ++ lit " "
               ++ display_date ++ lit "</h1>") page = true
    /\ str_in (litq "<img src=`../images/" ++ folder ++ lit "_" ++ yyyymmdd
               ++ litq ".jpeg`") page = true
    /\ create_daily_file folder yyyymmdd w1 = (Ok false, w2)
    /\ files w2 = files w1.
Proof.
  intros daily_path page Hfile Hcan Hfmt Htitle.
  assert (Hrun : create_daily_file folder yyyymmdd w
                 = (Ok true,
                    log (EPrint (CHECKMARK ++ lit " Created " ++ daily_path))
                      (store daily_path page
                         (log (EOpenW daily_path) (log (EExists daily_path) w))))).
  { unfold create_daily_file. cbv zeta. fold daily_path.
    rewrite bind_exists. unfold is_file at 1. rewrite Hfile.
    rewrite Hfmt, bind_lift_ok, Htitle. fold page.
    unfold mbind, M_bind, write_text.
    rewrite is_file_log. unfold is_file. rewrite Hfile.
    cbn [orb log creatable]. rewrite Hcan. reflexivity. }
  eexists. eexists. split; [exact Hrun|]. split; [reflexivity|].
  split; [|split; [|split; [|split]]].
  - unfold page, daily_content.
    change (lit "  <title>") with (lit "  " ++ lit "<title>").
    rewrite <- !app_assoc.
    repeat first
      [ solve [eapply str_in_prefix; rewrite <- ?app_assoc; reflexivity]
      | apply str_in_app_r ].
  - unfold page, daily_content.
    change (lit "    <h1>") with (lit "    " ++ lit "<h1>").
    rewrite <- !app_assoc.
    repeat first
      [ solve [eapply str_in_prefix; rewrite <- ?app_assoc; reflexivity]
      | apply str_in_app_r ].
  - unfold page, daily_content.
    change (litq "    <img src=`../images/")
      with (lit "    " ++ litq "<img src=`../images/").
    rewrite <- !app_assoc.
    repeat first
      [ solve [eapply str_in_prefix; rewrite <- ?app_assoc; reflexivity]
      | apply str_in_app_r ].
  - unfold create_daily_file. cbv zeta. fold daily_path.
    rewrite bind_exists. unfold is_file. cbn [log store files].
    rewrite lookup_insert_eq. reflexivity.
  - reflexivity.
Qed.

(** X7: for a folder that is not one of the four games, where no file
    exists at the page's path and the date formats, [create_daily_file]
    raises [KeyError] at the title lookup: it has only asked whether the
    path exists, and creates no file. *)
Theorem create_daily_file_unknown_folder (folder yyyymmdd display_date : str)
    (w : world) :
  let daily_path := os_path_join folder (yyyymmdd ++ lit ".html") in
  folder ∉ folders ->
  files w !! daily_path = None ->
  format_turkish_date yyyymmdd = Ok display_date ->
  create_daily_file folder yyyymmdd w
  = (Raise KeyError, log (EExists daily_path) w).
Proof.
  intros daily_path Hg Hfile Hfmt.
  unfold create_daily_file. cbv zeta. fold daily_path.
  rewrite bind_exists. unfold is_file. rewrite Hfile.
  rewrite Hfmt, bind_lift_ok, (dict_title_unknown folder Hg). reflexivity.
Qed.

(** ** The homepage *)

(** The three replacement lines of [update_root_index]. *)
Definition new_list_item (display_date : str) : str :=
  litq "    <li><a href=`/today/`>" ++ [127919%N] ++ lit " " ++ display_date
  ++ lit "</a></li>" ++ [NL].

Definition new_title : str :=
  lit "  <title>LinkedIn Games Solutions " ++ [8211%N]
  ++ lit " Mini Sudoku, Zip, Queens & Tango</title>" ++ [NL].

Definition new_og_title : str :=
  litq "  <meta property=`og:title` content=`LinkedIn Games Solutions`>"
  ++ [NL].

(** What one turn of the loop does to its line: the line that replaces
    it, if the turn replaces it. *)
Definition root_patch (display_date line : str) : option str :=
  if str_in (litq "<a href=`/today/`>") line then
    if negb (str_eqb (new_list_item display_date) line)
    then Some (new_list_item display_date) else None
  else if startswith (strip line) (lit "<title>") then
    if negb (str_eqb (strip new_title) (strip line)) then Some new_title else None
  else if str_in (litq "property=`og:title`") line then
    if negb (str_eqb (strip new_og_title) (strip line))
    then Some new_og_title else None
  else None.

Definition root_patched (display_date line : str) : str :=
  default line (root_patch display_date line).

Definition root_patches (display_date line : str) : bool :=
  match root_patch display_date line with Some _ => true | None => false end.

Lemma insert_at_length (pre : list str) (x y : str) (rest : list str) :
  <[length pre := x]> (pre ++ y :: rest) = pre ++ x :: rest.
Proof.
  rewrite insert_app_r_alt by lia. now rewrite Nat.sub_diag.
Qed.

(** The loop replaces line by line. *)
Lemma root_loop_lines (display_date : str) (todo pre : list str) (changed : bool) :
  root_loop (new_list_item display_date) new_title new_og_title
    (length pre) todo (pre ++ todo) changed
  = (pre ++ map (root_patched display_date) todo,
     changed || existsb (root_patches display_date) todo).
Proof.
  revert pre changed. induction todo as [|line todo IH]; intros pre changed.
  - cbn [root_loop map existsb]. now rewrite orb_false_r.
  - assert (Hnext : forall x ch,
      root_loop (new_list_item display_date) new_title new_og_title
        (S (length pre)) todo (pre ++ x :: todo) ch
      = (pre ++ x :: map (root_patched display_date) todo,
         ch || existsb (root_patches display_date) todo)).
    { intros x ch. specialize (IH (pre ++ [x]) ch).
      rewrite length_app, Nat.add_1_r, <- !app_assoc in IH. exact IH. }
    cbn [root_loop map existsb].
    unfold root_patched at 1, root_patches at 1, root_patch.
    destruct (str_in (litq "<a href=`/today/`>") line).
    { destruct (negb (str_eqb (new_list_item display_date) line)); cbn [default].
      - now rewrite insert_at_length, Hnext, orb_true_r.
      - now rewrite Hnext. }
    destruct (startswith (strip line) (lit "<title>")).
    { destruct (negb (str_eqb (strip new_title) (strip line))); cbn [default].
      - now rewrite insert_at_length, Hnext, orb_true_r.
      - now rewrite Hnext. }
    destruct (str_in (litq "property=`og:title`") line).
    { destruct (negb (str_eqb (strip new_og_title) (strip line))); cbn [default].
      - now rewrite insert_at_length, Hnext, orb_true_r.
      - now rewrite Hnext. }
    cbn [default]. now rewrite Hnext.
Qed.

Lemma root_patched_none (display_date : str) (lines : list str) :
  existsb (root_patches display_date) lines = false ->
  map (root_patched display_date) lines = lines.
Proof.
  induction lines as [|l lines IH]; [reflexivity|].
  cbn [existsb map]. intros H. apply orb_false_iff in H as [Hl H].
  rewrite (IH H). unfold root_patched. unfold root_patches in Hl.
  now destruct (root_patch display_date l).
Qed.

(** One run of [update_root_index] on a homepage that exists. *)
Lemma update_root_index_run (yyyymmdd display_date t : str) (w : world) :
  let lines := split_lines (universal_newlines t) in
  let new_lines := map (root_patched display_date) lines in
  let w0 := log (EOpenR root_path) (log (EExists root_path) w) in
  files w !! root_path = Some t ->
  format_turkish_date yyyymmdd = Ok display_date ->
  update_root_index yyyymmdd w
  = if existsb (root_patches display_date) lines
    then (Ok true,
          log (EPrint (CHECKMARK ++ lit " Updated root index.html with "
                       ++ display_date))
            (store root_path (concat new_lines) (log (EOpenW root_path) w0)))
    else (Ok false,
          log (EPrint (WARN ++ lit " Root index.html already up to date.")) w0).
Proof.
  intros lines new_lines w0 Hfile Hfmt.
  unfold update_root_index. cbv zeta. fold root_path.
  rewrite bind_exists. unfold is_file. rewrite Hfile. cbn [negb].
  rewrite Hfmt, bind_lift_ok, (bind_read _ t) by exact Hfile.
  fold lines (new_list_item display_date) new_title new_og_title.
  pose proof (root_loop_lines display_date lines [] false) as Hloop.
  cbn [length app orb] in Hloop. rewrite Hloop. fold new_lines.
  destruct (existsb (root_patches display_date) lines).
  - unfold write_lines. rewrite bind_assoc.
    rewrite (bind_write_existing _ _ t) by exact Hfile. reflexivity.
  - reflexivity.
Qed.

(** X8: on a homepage that exists, for a date that formats,
    [update_root_index] returns normally and treats the page line by
    line: a line that holds the link to /today/ becomes the list item
    with the display date; otherwise a line that starts with <title>
    becomes the fixed title line unless it already reads so up to
    surrounding whitespace; otherwise a line that holds the og:title
    property becomes the fixed meta line, likewise; every other line is
    kept.  The page is written only when a change is reported, and when
    none is reported the lines computed are the lines read. *)
Theorem update_root_index_line_by_line (yyyymmdd display_date t : str) (w : world) :
  let lines := split_lines (universal_newlines t) in
  files w !! root_path = Some t ->
  format_turkish_date yyyymmdd = Ok display_date ->
  exists new_lines changed w',
    update_root_index yyyymmdd w = (Ok changed, w')
    /\ files w'
       = (if changed then <[root_path := concat new_lines]> (files w)
          else files w)
    /\ (changed = false -> new_lines = lines)
    /\ Forall2
         (fun old new =>
            if str_in (litq "<a href=`/today/`>") old
            then new = new_list_item display_date
            else if startswith (strip old) (lit "<title>")
            then strip new = strip new_title /\ (new = old \/ new = new_title)
            else if str_in (litq "property=`og:title`") old
            then strip new = strip new_og_title
                 /\ (new = old \/ new = new_og_title)
            else new = old)
         lines new_lines.
Proof.
  intros lines Hfile Hfmt.
  pose proof (update_root_index_run yyyymmdd display_date t w Hfile Hfmt) as Hrun.
  cbv zeta in Hrun. fold lines in Hrun.
  exists (map (root_patched display_date) lines),
         (existsb (root_patches display_date) lines),
         (snd (update_root_index yyyymmdd w)).
  rewrite Hrun. split; [|split; [|split]].
  - destruct (existsb (root_patches display_date) lines); reflexivity.
  - destruct (existsb (root_patches display_date) lines); reflexivity.
  - apply root_patched_none.
  - apply Forall2_fmap_r, Forall_Forall2_diag, Forall_forall.
    intros old _. unfold compose, root_patched, root_patch. cbv beta.
    destruct (str_in (litq "<a href=`/today/`>") old).
    { destruct (negb (str_eqb (new_list_item display_date) old)) eqn:E;
        cbn [default]; [reflexivity|].
      apply negb_false_iff, str_eqb_eq in E. now rewrite E. }
    destruct (startswith (strip old) (lit "<title>")).
    { destruct (negb (str_eqb (strip new_title) (strip old))) eqn:E;
        cbn [default]; [auto|].
      apply negb_false_iff, str_eqb_eq in E. auto. }
    destruct (str_in (litq "property=`og:title`") old).
    { destruct (negb (str_eqb (strip new_og_title) (strip old))) eqn:E;
        cbn [default]; [auto|].
      apply negb_false_iff, str_eqb_eq in E. auto. }
    reflexivity.
Qed.

(** *** Running [update_root_index] again *)

(** Lines of a text in which some lines were replaced by complete lines
    are still the lines of a text. *)
Lemma lines_shaped_replaced (ls ls' : list str) :
  lines_shaped ls ->
  Forall2 (fun old new => new = old \/ complete_line new) ls ls' ->
  lines_shaped ls'.
Proof.
  intros Hs H. revert Hs.
  induction H as [|old new ls ls' Hnew Htail IH]; intros Hs; [constructor|].
  inversion Hs as [|l Hne Hnl|l ls0 Hl Hls]; subst.
  - inversion Htail; subst.
    destruct Hnew as [->|Hnew]; [now apply shaped_last|].
    apply shaped_cons; [exact Hnew|constructor].
  - apply shaped_cons; [|now apply IH].
    now destruct Hnew as [->|Hnew].
Qed.

(** A page rewritten with some of its lines replaced by complete lines
    without carriage return is read back as the lines written. *)
Lemma replaced_lines_read_back (t : str) (new_lines : list str) :
  Forall2 (fun old new =>
             new = old
             \/ (complete_line new /\ Forall (fun c => c <> 13%N) new))
    (split_lines (universal_newlines t)) new_lines ->
  split_lines (universal_newlines (concat new_lines)) = new_lines.
Proof.
  intros H.
  assert (Hnocr : Forall (Forall (fun c => c <> 13%N))
                    (split_lines (universal_newlines t))).
  { apply Forall_concat. rewrite split_lines_concat.
    apply universal_newlines_no_cr. }
  rewrite universal_newlines_id.
  - apply split_lines_of_concat.
    apply (lines_shaped_replaced (split_lines (universal_newlines t)));
      [apply split_lines_shaped|].
    eapply Forall2_impl; [exact H|]. intros old new [->|[Hc _]]; auto.
  - apply Forall_concat.
    induction H as [|old new ls ls' Hnew _ IH]; [constructor|].
    inversion Hnocr; subst. constructor; [|now apply IH].
    now destruct Hnew as [->|[_ Hnew]].
Qed.

Lemma new_list_item_shape (display_date : str) :
  forallb plain_char display_date = true ->
  complete_line (new_list_item display_date)
  /\ Forall (fun c => c <> 13%N) (new_list_item display_date)
  /\ str_in (litq "<a href=`/today/`>") (new_list_item display_date) = true.
Proof.
  intros Hd.
  assert (Hchars : Forall no_break_no_slash display_date)
    by (eapply forallb_Forall_impl; [apply plain_char_no_break|exact Hd]).
  split; [|split].
  - exists (litq "    <li><a href=`/today/`>" ++ [127919%N] ++ lit " "
            ++ display_date ++ lit "</a></li>").
    split; [unfold new_list_item; now rewrite <- !app_assoc|].
    rewrite !elem_of_app. intros [H|[H|[H|[H|H]]]].
    + vm_compute in H. repeat (apply elem_of_cons in H as [H|H]; [discriminate|]).
      now apply elem_of_nil in H.
    + apply list_elem_of_singleton in H. discriminate.
    + apply list_elem_of_singleton in H. discriminate.
    + rewrite Forall_forall in Hchars. now destruct (Hchars _ H) as [? _].
    + vm_compute in H. repeat (apply elem_of_cons in H as [H|H]; [discriminate|]).
      now apply elem_of_nil in H.
  - unfold new_list_item. repeat apply Forall_app_2;
      try (repeat constructor; discriminate).
    eapply Forall_impl; [exact Hchars|]. now intros c (_ & ? & _).
  - unfold new_list_item.
    change (litq "    <li><a href=`/today/`>")
      with (lit "    <li>" ++ litq "<a href=`/today/`>").
    rewrite <- !app_assoc. apply str_in_app_r.
    eapply str_in_prefix. reflexivity.
Qed.

(** A line the loop has treated is left alone by the loop. *)
Lemma root_patch_patched (display_date line : str) :
  forallb plain_char display_date = true ->
  root_patch display_date (root_patched display_date line) = None.
Proof.
  intros Hd. destruct (new_list_item_shape display_date Hd) as (_ & _ & Hin).
  assert (Hitem : root_patch display_date (new_list_item display_date) = None).
  { unfold root_patch. now rewrite Hin, str_eqb_refl. }
  assert (Htitle : root_patch display_date new_title = None)
    by (vm_compute; reflexivity).
  assert (Hog : root_patch display_date new_og_title = None)
    by (vm_compute; reflexivity).
  unfold root_patched.
  destruct (root_patch display_date line) as [x|] eqn:E; cbn [default];
    [|exact E].
  unfold root_patch in E.
  repeat match type of E with
         | (if ?b then _ else _) = _ => destruct b
         end; try discriminate; injection E as <-; assumption.
Qed.

Lemma root_patched_clean (display_date line : str) :
  forallb plain_char display_date = true ->
  root_patched display_date line = line
  \/ (complete_line (root_patched display_date line)
      /\ Forall (fun c => c <> 13%N) (root_patched display_date line)).
Proof.
  intros Hd. destruct (new_list_item_shape display_date Hd) as (Hc & Hcr & _).
  assert (Htitle : complete_line new_title /\ Forall (fun c => c <> 13%N) new_title).
  { split.
    - exists (lit "  <title>LinkedIn Games Solutions " ++ [8211%N]
              ++ lit " Mini Sudoku, Zip, Queens & Tango</title>").
      split; [unfold new_title; now rewrite <- !app_assoc|].
      intros H. vm_compute in H.
      repeat (apply elem_of_cons in H as [H|H]; [discriminate|]).
      now apply elem_of_nil in H.
    - repeat constructor; discriminate. }
  assert (Hog : complete_line new_og_title
                /\ Forall (fun c => c <> 13%N) new_og_title).
  { split.
    - exists (litq "  <meta property=`og:title` content=`LinkedIn Games Solutions`>").
      split; [reflexivity|].
      intros H. vm_compute in H.
      repeat (apply elem_of_cons in H as [H|H]; [discriminate|]).
      now apply elem_of_nil in H.
    - repeat constructor; discriminate. }
  unfold root_patched.
  destruct (root_patch display_date line) as [x|] eqn:E; cbn [default];
    [right|now left].
  unfold root_patch in E.
  repeat match type of E with
         | (if ?b then _ else _) = _ => destruct b
         end; try discriminate; injection E as <-; auto.
Qed.

(** X9: [update_root_index] is idempotent.  On a homepage that exists, for
    a date that formats, a second call for the same date reports no change
    and leaves every file as the first call left it. *)
Theorem update_root_index_twice (yyyymmdd display_date t : str) (w : world) :
  files w !! root_path = Some t ->
  format_turkish_date yyyymmdd = Ok display_date ->
  exists changed w1 w2,
    update_root_index yyyymmdd w = (Ok changed, w1)
    /\ update_root_index yyyymmdd w1 = (Ok false, w2)
    /\ files w2 = files w1.
Proof.
  intros Hfile Hfmt.
  pose proof (format_turkish_date_plain _ _ Hfmt) as Hd.
  set (lines := split_lines (universal_newlines t)).
  set (new_lines := map (root_patched display_date) lines).
  assert (Hstable : existsb (root_patches display_date) new_lines = false).
  { apply not_true_is_false. intros H.
    apply existsb_exists in H as (l & Hl & Hp).
    apply in_map_iff in Hl as (l0 & <- & _).
    unfold root_patches in Hp. now rewrite root_patch_patched in Hp. }
  assert (Hback : split_lines (universal_newlines (concat new_lines)) = new_lines).
  { apply (replaced_lines_read_back t).
    apply Forall2_fmap_r, Forall_Forall2_diag, Forall_forall.
    intros l _. now apply root_patched_clean. }
  pose proof (update_root_index_run yyyymmdd display_date t w Hfile Hfmt) as Hrun.
  cbv zeta in Hrun. fold lines new_lines in Hrun.
  destruct (existsb (root_patches display_date) lines) eqn:Hch.
  - eexists. eexists. eexists. split; [exact Hrun|].
    match goal with
    | |- update_root_index _ ?w1 = _ /\ _ =>
        assert (Hfile1 : files w1 !! root_path = Some (concat new_lines))
          by apply lookup_insert_eq;
        pose proof (update_root_index_run yyyymmdd display_date
                      (concat new_lines) w1 Hfile1 Hfmt) as Hrun1
    end.
    cbv zeta in Hrun1. rewrite Hback, Hstable in Hrun1.
    split; [exact Hrun1|reflexivity].
  - eexists. eexists. eexists. split; [exact Hrun|].
    match goal with
    | |- update_root_index _ ?w1 = _ /\ _ =>
        pose proof (update_root_index_run yyyymmdd display_date t w1 Hfile Hfmt)
          as Hrun1
    end.
    cbv zeta in Hrun1. fold lines in Hrun1. rewrite Hch in Hrun1.
    split; [exact Hrun1|reflexivity].
Qed.

(** ** The landing page, line by line *)

(** How a line of the new landing page relates to the line of the old one
    at the same position: it is that line, or the heading with the display
    date where that line started with the h1 tag, or the link to the day's
    page of a game where that line referred to the game's folder. *)
Definition today_line (yyyymmdd display_date old new : str) : Prop :=
  new = old
  \/ (startswith (strip old) (lit "<h1>") = true
      /\ new = lit "    <h1>" ++ display_date ++ lit "</h1>" ++ [NL])
  \/ exists game,
       game ∈ folders
       /\ str_in (lit "../" ++ game ++ lit "/") old = true
       /\ new = card_link game yyyymmdd.

(** What holds between the turns of the scan: one line was written for
    each line read, and while the flag is unset the lines written are the
    lines read. *)
Definition scan_inv (yyyymmdd display_date : str) (lines : list str)
    (st : scan_state) : Prop :=
  let '(i, acc, ch) := st in
  i <= length lines
  /\ Forall2 (today_line yyyymmdd display_date) (take i lines) acc
  /\ (ch = false -> acc = take i lines).

Lemma today_line_refl (yyyymmdd display_date : str) (ls : list str) :
  Forall2 (today_line yyyymmdd display_date) ls ls.
Proof. apply Forall_Forall2_diag, Forall_forall. intros l _. now left. Qed.

Lemma take_snoc (lines : list str) (i : nat) (line : str) :
  lines !! i = Some line -> take (i + 1) lines = take i lines ++ [line].
Proof. intros H. rewrite Nat.add_1_r. now apply take_S_r. Qed.

Lemma take_card (lines : list str) (i j : nat) (line h3 : str) :
  lines !! i = Some line -> lines !! (i + 1) = Some h3 -> i + 2 <= j ->
  take j lines
  = take i lines ++ [line] ++ [h3] ++ take (j - (i + 2)) (drop (i + 2) lines).
Proof.
  intros Hline Hh3 Hj.
  rewrite !app_assoc, <- (take_snoc _ _ _ Hline), <- (take_snoc _ _ _ Hh3).
  rewrite <- Nat.add_assoc. cbn [Nat.add].
  rewrite take_take_drop. f_equal. lia.
Qed.

Lemma Forall2_snoc {A B : Type} (P : A -> B -> Prop) (xs : list A) (ys : list B)
    (x : A) (y : B) :
  Forall2 P xs ys -> P x y -> Forall2 P (xs ++ [x]) (ys ++ [y]).
Proof. intros H Hxy. apply Forall2_app; [exact H|]. now constructor. Qed.

Lemma today_step_inv (yyyymmdd display_date : str) (lines : list str)
    (st st' : scan_state) :
  fst (fst st) < length lines ->
  scan_inv yyyymmdd display_date lines st ->
  today_step yyyymmdd display_date lines st = Ok st' ->
  scan_inv yyyymmdd display_date lines st'.
Proof.
  destruct st as [[i acc] ch]. cbn [fst]. intros Hi (_ & Hacc & Hsame).
  assert (Hplain : forall line, lines !! i = Some line ->
            scan_inv yyyymmdd display_date lines (i + 1, acc ++ [line], ch)).
  { intros line Hline. split; [lia|]. rewrite (take_snoc _ _ _ Hline).
    split.
    - apply Forall2_snoc; [exact Hacc|]. now left.
    - intros Hch. now rewrite (Hsame Hch). }
  unfold today_step.
  destruct (py_index_lt lines i Hi) as (line & Hline & ->).
  cbn [mbind result_bind].
  destruct (startswith (strip line) (lit "<h1>")) eqn:Hh1.
  { intros [= <-]. split; [lia|]. rewrite (take_snoc _ _ _ Hline).
    split; [|discriminate].
    apply Forall2_snoc; [exact Hacc|]. right. left. auto. }
  destruct (str_in _ line && (i + 2 <? length lines)) eqn:Hcard;
    [|intros [= <-]; now apply Hplain].
  apply andb_true_iff in Hcard as [_ Hlen]. apply Nat.ltb_lt in Hlen.
  destruct (py_index_lt lines (i + 1)) as (h3 & Hh3 & ->); [lia|].
  cbn [mbind result_bind].
  destruct (startswith (strip h3) (lit "<h3>"));
    [|intros [= <-]; now apply Hplain].
  destruct (card_link_index lines i) as [j|] eqn:Hj;
    [|rewrite copy_card_lines_none by lia; discriminate].
  apply card_link_index_some in Hj as (Hj1 & Hj2 & Hj3 & l & Hl & _).
  rewrite copy_card_lines_some by lia.
  cbn [mbind result_bind].
  rewrite (proj2 (Nat.ltb_lt _ _) Hj3).
  destruct j as [|j']; [lia|]. cbn [Nat.eqb negb andb].
  set (j := S j') in *.
  unfold py_index. rewrite Hl. cbn [mbind result_bind].
  set (card := (acc ++ [line] ++ [h3])
               ++ take (j - (i + 2)) (drop (i + 2) lines)).
  assert (Ecard : card = acc ++ [line] ++ [h3]
                         ++ take (j - (i + 2)) (drop (i + 2) lines))
    by (unfold card; now rewrite <- !app_assoc).
  assert (Hcard : Forall2 (today_line yyyymmdd display_date) (take j lines) card).
  { rewrite (take_card lines i j line h3 Hline Hh3 Hj1), Ecard.
    apply Forall2_app; [exact Hacc|]. apply today_line_refl. }
  assert (Hcard' : ch = false -> card = take j lines).
  { intros Hch. rewrite Ecard, (Hsame Hch).
    now rewrite (take_card lines i j line h3 Hline Hh3 Hj1). }
  assert (Hlink : forall game,
            game ∈ folders -> str_in (lit "../" ++ game ++ lit "/") l = true ->
            scan_inv yyyymmdd display_date lines
              (j + 1, card ++ [card_link game yyyymmdd], true)).
  { intros game Hg Hin. split; [lia|]. rewrite (take_snoc _ _ _ Hl).
    split; [|discriminate].
    apply Forall2_snoc; [exact Hcard|].
    right. right. exists game. auto. }
  assert (Hkeep : scan_inv yyyymmdd display_date lines (j + 1, card ++ [l], ch)).
  { split; [lia|]. rewrite (take_snoc _ _ _ Hl). split.
    - apply Forall2_snoc; [exact Hcard|]. now left.
    - intros Hch. now rewrite (Hcard' Hch). }
  destruct (str_in (lit "../minisudoku/") l) eqn:H1.
  { intros [= <-]. apply Hlink; [|exact H1]. unfold folders.
    apply list_elem_of_here. }
  destruct (str_in (lit "../zip/") l) eqn:H2.
  { intros [= <-]. apply Hlink; [|exact H2]. unfold folders.
    apply list_elem_of_further, list_elem_of_here. }
  destruct (str_in (lit "../queens/") l) eqn:H3.
  { intros [= <-]. apply Hlink; [|exact H3]. unfold folders.
    do 2 apply list_elem_of_further. apply list_elem_of_here. }
  destruct (str_in (lit "../tango/") l) eqn:H4.
  { intros [= <-]. apply Hlink; [|exact H4]. unfold folders.
    do 3 apply list_elem_of_further. apply list_elem_of_here. }
  intros [= <-]. exact Hkeep.
Qed.

Lemma today_loop_inv (yyyymmdd display_date : str) (lines : list str)
    (fuel : nat) (st : scan_state) (new_lines : list str) (changed : bool) :
  scan_inv yyyymmdd display_date lines st ->
  today_loop fuel yyyymmdd display_date lines st = Ok (new_lines, changed) ->
  Forall2 (today_line yyyymmdd display_date) lines new_lines
  /\ (changed = false -> new_lines = lines).
Proof.
  revert st. induction fuel as [|fuel IH]; intros st Hinv;
    cbn [today_loop]; destruct (Nat.ltb_spec (fst (fst st)) (length lines))
      as [Hi|Hi]; try discriminate.
  - destruct st as [[i acc] ch]. cbn [fst snd] in *.
    destruct Hinv as (Hle & Hacc & Hsame).
    rewrite take_ge in Hacc, Hsame by lia. now intros [= <- <-].
  - destruct (today_step yyyymmdd display_date lines st) as [st'|e] eqn:Hstep;
      [|discriminate].
    cbn [mbind result_bind]. apply IH.
    eapply today_step_inv; eauto.
  - destruct st as [[i acc] ch]. cbn [fst snd] in *.
    destruct Hinv as (Hle & Hacc & Hsame).
    rewrite take_ge in Hacc, Hsame by lia. now intros [= <- <-].
Qed.

(** X10: on a landing page that exists, for a date that formats,
    [update_today_index] either raises [TypeError] and leaves the files as
    they are, or returns normally; no index it computes is out of range.
    When it returns it has produced one line for each line of the page:
    that line itself, or the heading with the display date in place of a
    line that started with the h1 tag, or the link to the day's page of a
    game in place of a line that referred to the game's folder.  The page
    is written only when a change is reported, and when none is reported
    the lines produced are the lines read. *)
Theorem update_today_index_line_by_line (yyyymmdd display_date t : str)
    (w : world) :
  let lines := split_lines (universal_newlines t) in
  files w !! today_path = Some t ->
  format_turkish_date yyyymmdd = Ok display_date ->
  (fst (update_today_index yyyymmdd w) = Raise TypeError
   /\ files (snd (update_today_index yyyymmdd w)) = files w)
  \/ exists new_lines changed,
       fst (update_today_index yyyymmdd w) = Ok changed
       /\ files (snd (update_today_index yyyymmdd w))
          = (if changed then <[today_path := concat new_lines]> (files w)
             else files w)
       /\ (changed = false -> new_lines = lines)
       /\ Forall2 (today_line yyyymmdd display_date) lines new_lines.
Proof.
  intros lines Hfile Hfmt.
  rewrite (update_today_index_run yyyymmdd display_date t w Hfile Hfmt).
  cbv zeta. fold lines.
  destruct (today_scan_total yyyymmdd display_date lines) as [[[new ch] Hscan]|Hscan];
    rewrite Hscan; [right|left; split; reflexivity].
  assert (Hinv : scan_inv yyyymmdd display_date lines (0, [], false)).
  { split; [lia|]. rewrite take_0. split; [constructor|reflexivity]. }
  destruct (today_loop_inv yyyymmdd display_date lines (length lines)
              (0, [], false) new ch Hinv Hscan) as [Hlines Hsame].
  exists new, ch. destruct ch; repeat split; auto.
Qed.

(** ** The commands of the commit *)

(** The commands a trace records, oldest first. *)
Definition commands (tr : list event) : list (list str) :=
  omap (fun e => match e with ERun argv => Some argv | _ => None end) tr.

Lemma commands_app (a b : list event) :
  commands (a ++ b) = commands a ++ commands b.
Proof. apply omap_app. Qed.

(** X11: with files to commit and every command after the branch listing
    succeeding, [git_commit_changes] runs four commands in this order: the
    listing of the branch named by the date code; the checkout of that
    branch when the listing printed something other than whitespace, its
    creation with checkout -b otherwise; git add with exactly the changed
    files, in their order; git commit with the message "Add <code>
    entry". *)
Theorem git_commit_changes_commands (yyyymmdd f : str) (fs : list str)
    (w : world) :
  let listing := child w (trace w) (git_branch_list yyyymmdd) in
  (forall history argv, argv <> git_branch_list yyyymmdd ->
     returncode (child w history argv) = 0%Z) ->
  fst (git_commit_changes yyyymmdd (f :: fs) w) = Ok tt
  /\ commands (trace (snd (git_commit_changes yyyymmdd (f :: fs) w)))
     = commands (trace w)
       ++ [ git_branch_list yyyymmdd;
            match strip (stdout listing) with
            | [] => [lit "git"; lit "checkout"; lit "-b"; yyyymmdd]
            | _ :: _ => [lit "git"; lit "checkout"; yyyymmdd]
            end;
            [lit "git"; lit "add"] ++ f :: fs;
            [lit "git"; lit "commit"; lit "-m";
             lit "Add " ++ yyyymmdd ++ lit " entry"] ].
Proof.
  intros listing Hok. unfold git_commit_changes. rewrite bind_run_unchecked.
  fold (git_branch_list yyyymmdd). fold listing.
  destruct (strip (stdout listing));
    repeat first
      [ rewrite bind_assoc
      | rewrite bind_print
      | rewrite bind_run_checked
          by (cbn [log child]; apply Hok;
              let H := fresh in intros H; vm_compute in H; discriminate H) ];
    (split; [reflexivity|]);
    cbn [print snd log trace]; rewrite !commands_app; cbn;
    rewrite <- !app_assoc; reflexivity.
Qed.


(** ** A date code that is no date *)

Definition asks_or_prints (e : event) : bool :=
  match e with
  | EPrint _ | EExists _ => true
  | _ => false
  end.

(** From [w] to [w'] the script has only asked whether files exist and
    printed: no file differs, nothing was opened, no command was run. *)
Definition only_asked (w w' : world) : Prop :=
  files w' = files w
  /\ exists evs, trace w' = trace w ++ evs /\ forallb asks_or_prints evs = true.

Lemma only_asked_refl (w : world) : only_asked w w.
Proof. split; [reflexivity|]. exists []. now rewrite app_nil_r. Qed.

Lemma only_asked_trans (w1 w2 w3 : world) :
  only_asked w1 w2 -> only_asked w2 w3 -> only_asked w1 w3.
Proof.
  intros (F1 & e1 & T1 & Q1) (F2 & e2 & T2 & Q2). split; [congruence|].
  exists (e1 ++ e2). rewrite T2, T1, <- app_assoc, forallb_app, Q1, Q2. auto.
Qed.

Lemma only_asked_log (e : event) (w w' : world) :
  asks_or_prints e = true -> only_asked w w' -> only_asked w (log e w').
Proof.
  intros He H. apply (only_asked_trans _ _ _ H).
  split; [reflexivity|]. exists [e]. cbn. now rewrite He.
Qed.

Lemma is_file_only_asked (w w' : world) (p : str) :
  only_asked w w' -> is_file w' p = is_file w p.
Proof. intros [F _]. unfold is_file. now rewrite F. Qed.

(** With a date code that does not format, each updater stops where it
    would need the display date. *)
Lemma add_entry_to_index_no_date (folder yyyymmdd : str) (e : exn) (w : world) :
  format_turkish_date yyyymmdd = Raise e ->
  exists w', only_asked w w'
    /\ add_entry_to_index folder yyyymmdd w
       = (if is_file w (index_path folder) then Raise e else Ok false, w').
Proof.
  intros Hfmt. unfold add_entry_to_index. cbv zeta. fold (index_path folder).
  rewrite bind_exists. destruct (is_file w (index_path folder)); cbn [negb].
  - rewrite Hfmt, bind_lift_raise. eexists. split; [|reflexivity].
    apply only_asked_log; [reflexivity|apply only_asked_refl].
  - eexists. split; [|reflexivity].
    repeat (apply only_asked_log; [reflexivity|]). apply only_asked_refl.
Qed.

Lemma create_daily_file_no_date (folder yyyymmdd : str) (e : exn) (w : world) :
  format_turkish_date yyyymmdd = Raise e ->
  exists w', only_asked w w'
    /\ create_daily_file folder yyyymmdd w
       = (if is_file w (page_path folder yyyymmdd) then Ok false else Raise e, w').
Proof.
  intros Hfmt. unfold create_daily_file. cbv zeta. fold (page_path folder yyyymmdd).
  rewrite bind_exists. destruct (is_file w (page_path folder yyyymmdd)).
  - eexists. split; [|reflexivity].
    repeat (apply only_asked_log; [reflexivity|]). apply only_asked_refl.
  - rewrite Hfmt, bind_lift_raise. eexists. split; [|reflexivity].
    apply only_asked_log; [reflexivity|apply only_asked_refl].
Qed.

Lemma update_root_index_no_date (yyyymmdd : str) (e : exn) (w : world) :
  format_turkish_date yyyymmdd = Raise e ->
  exists w', only_asked w w'
    /\ update_root_index yyyymmdd w
       = (if is_file w root_path then Raise e else Ok false, w').
Proof.
  intros Hfmt. unfold update_root_index. cbv zeta. fold root_path.
  rewrite bind_exists. destruct (is_file w root_path); cbn [negb].
  - rewrite Hfmt, bind_lift_raise. eexists. split; [|reflexivity].
    apply only_asked_log; [reflexivity|apply only_asked_refl].
  - eexists. split; [|reflexivity].
    repeat (apply only_asked_log; [reflexivity|]). apply only_asked_refl.
Qed.

Lemma update_today_index_no_date (yyyymmdd : str) (e : exn) (w : world) :
  format_turkish_date yyyymmdd = Raise e ->
  exists w', only_asked w w'
    /\ update_today_index yyyymmdd w
       = (if is_file w today_path then Raise e else Ok false, w').
Proof.
  intros Hfmt. unfold update_today_index. cbv zeta.
  change (os_path_join (lit "today") (lit "index.html")) with today_path.
  rewrite bind_exists. destruct (is_file w today_path); cbn [negb].
  - rewrite Hfmt, bind_lift_raise. eexists. split; [|reflexivity].
    apply only_asked_log; [reflexivity|apply only_asked_refl].
  - eexists. split; [|reflexivity].
    repeat (apply only_asked_log; [reflexivity|]). apply only_asked_refl.
Qed.

(** The trees on which a run never formats the date: no index page, no
    homepage and no landing page exists, and every daily page does. *)
Definition skips_game (yyyymmdd : str) (w : world) (g : str) : bool :=
  negb (is_file w (index_path g)) && is_file w (page_path g yyyymmdd).

Definition nothing_to_update (yyyymmdd : str) (w : world) : bool :=
  forallb (skips_game yyyymmdd w) folders
  && negb (is_file w root_path) && negb (is_file w today_path).

Lemma process_folders_no_date (yyyymmdd : str) (e : exn) (fs : list str)
    (w : world) :
  format_turkish_date yyyymmdd = Raise e ->
  exists w', only_asked w w'
    /\ process_folders fs yyyymmdd [] w
       = (if forallb (skips_game yyyymmdd w) fs then Ok [] else Raise e, w').
Proof.
  intros Hfmt. revert w. induction fs as [|g fs IH]; intros w.
  - exists w. split; [apply only_asked_refl|reflexivity].
  - cbn [process_folders forallb]. unfold skips_game at 1.
    destruct (add_entry_to_index_no_date g yyyymmdd e w Hfmt) as (w1 & H1 & E1).
    destruct (is_file w (index_path g)); cbn [negb andb].
    + exists w1. split; [exact H1|]. now rewrite (bind_raise _ _ _ _ _ E1).
    + rewrite (bind_ok _ _ _ _ _ E1).
      destruct (create_daily_file_no_date g yyyymmdd e w1 Hfmt) as (w2 & H2 & E2).
      rewrite (is_file_only_asked _ _ _ H1) in E2.
      destruct (is_file w (page_path g yyyymmdd)).
      * rewrite (bind_ok _ _ _ _ _ E2).
        destruct (IH w2) as (w3 & H3 & E3).
        assert (H12 : only_asked w w2) by (eapply only_asked_trans; eauto).
        exists w3. split; [eapply only_asked_trans; eauto|].
        rewrite E3. f_equal.
        assert (Hsame : forallb (skips_game yyyymmdd w2) fs
                        = forallb (skips_game yyyymmdd w) fs).
        { clear -H12. induction fs as [|g' fs IHfs]; [reflexivity|].
          cbn [forallb]. rewrite IHfs. unfold skips_game.
          now rewrite !(is_file_only_asked _ _ _ H12). }
        now rewrite Hsame.
      * exists w2. split; [eapply only_asked_trans; eauto|].
        now rewrite (bind_raise _ _ _ _ _ E2).
Qed.

(** X13: a date code that passes the 8-digit check but does not format
    (20250230, say) makes a run change nothing: it only asks whether files
    exist and prints, so no file is opened or written and no command is
    run.  The run ends with [ValueError] at the first updater that needs
    the display date; it ends normally only on a tree where none needs it
    (no index page, no homepage, no landing page, every daily page
    there). *)
Theorem main_date_that_does_not_format (prog yyyymmdd : str) (w : world) :
  fullmatch_d8 yyyymmdd = true ->
  format_turkish_date yyyymmdd = Raise ValueError ->
  fst (main [prog; yyyymmdd] w)
  = (if nothing_to_update yyyymmdd w then Ok tt else Raise ValueError)
  /\ files (snd (main [prog; yyyymmdd] w)) = files w
  /\ exists evs,
       trace (snd (main [prog; yyyymmdd] w)) = trace w ++ evs
       /\ forallb asks_or_prints evs = true.
Proof.
  intros Hfm Hfmt.
  enough (H : exists w', only_asked w w'
            /\ main [prog; yyyymmdd] w
               = (if nothing_to_update yyyymmdd w then Ok tt else Raise ValueError,
                  w')).
  { destruct H as (w' & (Hfiles & Hevs) & ->). cbn [fst snd]. auto. }
  unfold main. cbn [length Nat.eqb negb py_index lookup list_lookup].
  rewrite bind_lift_ok, Hfm. cbn [negb]. unfold run_updates, nothing_to_update.
  destruct (process_folders_no_date yyyymmdd ValueError folders w Hfmt)
    as (w1 & H1 & E1).
  destruct (forallb (skips_game yyyymmdd w) folders); cbn [andb];
    [|exists w1; split; [exact H1|]; now rewrite (bind_raise _ _ _ _ _ E1)].
  rewrite (bind_ok _ _ _ _ _ E1).
  destruct (update_root_index_no_date yyyymmdd ValueError w1 Hfmt)
    as (w2 & H2 & E2).
  rewrite (is_file_only_asked _ _ _ H1) in E2.
  assert (H12 : only_asked w w2) by (eapply only_asked_trans; eauto).
  destruct (is_file w root_path); cbn [negb andb];
    [exists w2; split; [exact H12|]; now rewrite (bind_raise _ _ _ _ _ E2)|].
  rewrite (bind_ok _ _ _ _ _ E2).
  destruct (update_today_index_no_date yyyymmdd ValueError w2 Hfmt)
    as (w3 & H3 & E3).
  rewrite (is_file_only_asked _ _ _ H12) in E3.
  assert (H13 : only_asked w w3) by (eapply only_asked_trans; eauto).
  destruct (is_file w today_path); cbn [negb andb];
    [exists w3; split; [exact H13|]; now rewrite (bind_raise _ _ _ _ _ E3)|].
  rewrite (bind_ok _ _ _ _ _ E3).
  exists w3. split; [exact H13|reflexivity].
Qed.

(** ** The files a run opens *)

Section Opens.

Variable allowed : str -> Prop.

Definition opens_allowed (e : event) : Prop :=
  match e with
  | EOpenR p | EOpenW p => allowed p
  | _ => True
  end.

(** Whatever the world, [m] opens no file outside [allowed]. *)
Definition opens_only {A : Type} (m : M A) : Prop :=
  forall w, exists evs,
    trace (snd (m w)) = trace w ++ evs /\ Forall opens_allowed evs.

Lemma opens_nothing {A : Type} (m : M A) :
  (forall w, trace (snd (m w)) = trace w) -> opens_only m.
Proof. intros H w. exists []. rewrite H, app_nil_r. auto. Qed.

Lemma opens_ret {A : Type} (a : A) : opens_only (mret a).
Proof. now apply opens_nothing. Qed.

Lemma opens_raise {A : Type} (e : exn) : opens_only (@raise A e).
Proof. now apply opens_nothing. Qed.

Lemma opens_lift {A : Type} (r : result A) : opens_only (lift r).
Proof. now apply opens_nothing. Qed.

Lemma opens_print (msg : str) : opens_only (print msg).
Proof. intros w. exists [EPrint msg]. split; [reflexivity|]. now repeat constructor. Qed.

Lemma opens_exists (p : str) : opens_only (os_path_exists p).
Proof. intros w. exists [EExists p]. split; [reflexivity|]. now repeat constructor. Qed.

Lemma opens_run (argv : list str) (check : bool) :
  opens_only (subprocess_run argv check).
Proof.
  intros w. exists [ERun argv]. split; [|now repeat constructor].
  unfold subprocess_run. now destruct (check && _).
Qed.

Lemma opens_read (p : str) : allowed p -> opens_only (read_lines p).
Proof.
  intros Hp w. exists [EOpenR p]. split; [|now repeat constructor].
  unfold read_lines. now destruct (files w !! p).
Qed.

Lemma opens_write (p t : str) : allowed p -> opens_only (write_text p t).
Proof.
  intros Hp w. exists [EOpenW p]. split; [|now repeat constructor].
  unfold write_text. now destruct (is_file w p || creatable w p).
Qed.

Lemma opens_bind {A B : Type} (m : M A) (k : A -> M B) :
  opens_only m -> (forall a, opens_only (k a)) -> opens_only (m ≫= k).
Proof.
  intros Hm Hk w. unfold mbind, M_bind.
  destruct (Hm w) as (e1 & T1 & O1).
  destruct (m w) as [[a|e] w1]; cbn [snd] in *; [|eauto].
  destruct (Hk a w1) as (e2 & T2 & O2).
  exists (e1 ++ e2). rewrite T2, T1, <- app_assoc.
  split; [reflexivity|now apply Forall_app_2].
Qed.

Ltac opens_tac :=
  repeat first
    [ apply opens_ret | apply opens_raise | apply opens_lift
    | apply opens_print | apply opens_exists | apply opens_run
    | apply opens_read; assumption
    | apply opens_write; assumption
    | apply opens_bind; [|intros; cbv beta]
    | match goal with
      | |- opens_only (if ?b then _ else _) => destruct b
      | |- opens_only (match ?x with _ => _ end) => destruct x
      end ].

Lemma opens_add_entry (folder yyyymmdd : str) :
  allowed (index_path folder) -> opens_only (add_entry_to_index folder yyyymmdd).
Proof.
  unfold index_path. intros Hp. unfold add_entry_to_index, write_lines.
  opens_tac.
Qed.

Lemma opens_create_daily (folder yyyymmdd : str) :
  allowed (page_path folder yyyymmdd) ->
  opens_only (create_daily_file folder yyyymmdd).
Proof. unfold page_path. intros Hp. unfold create_daily_file. opens_tac. Qed.

Lemma opens_update_root (yyyymmdd : str) :
  allowed root_path -> opens_only (update_root_index yyyymmdd).
Proof.
  unfold root_path. intros Hp. unfold update_root_index, write_lines. opens_tac.
Qed.

Lemma opens_update_today (yyyymmdd : str) :
  allowed today_path -> opens_only (update_today_index yyyymmdd).
Proof.
  intros Hp. unfold update_today_index, write_lines.
  change (os_path_join (lit "today") (lit "index.html")) with today_path.
  opens_tac.
Qed.

Lemma opens_git_commit (yyyymmdd : str) (changed_files : list str) :
  opens_only (git_commit_changes yyyymmdd changed_files).
Proof. unfold git_commit_changes. opens_tac. Qed.

Lemma opens_process_folders (fs : list str) (yyyymmdd : str) (cf : list str) :
  (forall g, g ∈ fs -> allowed (index_path g) /\ allowed (page_path g yyyymmdd)) ->
  opens_only (process_folders fs yyyymmdd cf).
Proof.
  revert cf. induction fs as [|g fs IH]; intros cf Hfs; cbn [process_folders].
  - apply opens_ret.
  - destruct (Hfs g) as [H1 H2]; [left|].
    apply opens_bind; [now apply opens_add_entry|intros a].
    apply opens_bind; [now apply opens_create_daily|intros b].
    apply IH. intros g' Hg'. apply Hfs. now right.
Qed.

End Opens.

(** The ten pages of a run for a date code. *)
Definition page_of_run (yyyymmdd p : str) : Prop :=
  p = root_path \/ p = today_path
  \/ exists g, g ∈ folders /\ (p = index_path g \/ p = page_path g yyyymmdd).

(** X14: a run for a date code opens, for reading or for writing, only the
    homepage, the landing page, and the index page and the day's page of
    the four games; whatever else the working tree holds is never
    opened. *)
Theorem main_opens_only_its_pages (prog yyyymmdd : str) (w : world) :
  exists evs,
    trace (snd (main [prog; yyyymmdd] w)) = trace w ++ evs
    /\ forall p, EOpenR p ∈ evs \/ EOpenW p ∈ evs -> page_of_run yyyymmdd p.
Proof.
  assert (Hrun : opens_only (page_of_run yyyymmdd) (run_updates yyyymmdd)).
  { unfold run_updates.
    apply opens_bind.
    { apply opens_process_folders. intros g Hg. unfold page_of_run.
      split; right; right; exists g; (split; [exact Hg|]);
        [now left|now right]. }
    intros cf. apply opens_bind.
    { apply opens_update_root. now left. }
    intros a. apply opens_bind.
    { apply opens_update_today. right. now left. }
    intros b. destruct (if b then _ else _);
      [apply opens_ret|apply opens_git_commit]. }
  assert (Hmain : exists evs,
            trace (snd (main [prog; yyyymmdd] w)) = trace w ++ evs
            /\ Forall (opens_allowed (page_of_run yyyymmdd)) evs).
  { unfold main. cbn [length Nat.eqb negb py_index lookup list_lookup].
    rewrite bind_lift_ok.
    destruct (negb (fullmatch_d8 yyyymmdd)); [|apply Hrun].
    apply opens_bind; [apply opens_print|intros _; apply opens_raise]. }
  destruct Hmain as (evs & Htrace & Hevs).
  exists evs. split; [exact Htrace|].
  rewrite Forall_forall in Hevs.
  intros p [Hp|Hp]; exact (Hevs _ Hp).
Qed.

(** ** What a run stages *)

(** [m] runs no command, and when it returns [True] it has opened [p] for
    writing. *)
Definition reports_write (p : str) (m : M bool) : Prop :=
  forall w, exists evs,
    trace (snd (m w)) = trace w ++ evs
    /\ commands evs = []
    /\ (fst (m w) = Ok true -> EOpenW p ∈ evs).

Ltac reported :=
  eexists; cbn [fst snd log store trace mret M_ret raise print];
  rewrite <- ?app_assoc;
  split; [reflexivity|split; [reflexivity|]];
  first
    [ discriminate
    | intros _; cbn [app];
      repeat first [apply list_elem_of_here | apply list_elem_of_further] ].

Lemma add_entry_reports_write (folder yyyymmdd : str) :
  reports_write (index_path folder) (add_entry_to_index folder yyyymmdd).
Proof.
  intros w.
  destruct (files w !! index_path folder) as [t|] eqn:Hfile.
  2:{ rewrite (add_entry_missing folder yyyymmdd w Hfile). reported. }
  destruct (format_turkish_date yyyymmdd) as [d|e] eqn:Hfmt.
  2:{ unfold add_entry_to_index. cbv zeta. fold (index_path folder).
      rewrite bind_exists. unfold is_file. rewrite Hfile. cbn [negb].
      rewrite Hfmt, bind_lift_raise. reported. }
  destruct (find_ul_block (split_lines (universal_newlines t)))
    as [[s e]|] eqn:Hblock.
  - destruct (add_entry_to_index_run folder yyyymmdd d t s e w Hfile Hfmt Hblock)
      as (keys & block & msg & Hrun & _).
    rewrite Hrun. fold (index_path folder). reported.
  - unfold add_entry_to_index. cbv zeta. fold (index_path folder).
    rewrite bind_exists. unfold is_file. rewrite Hfile. cbn [negb].
    rewrite Hfmt, bind_lift_ok, (bind_read _ t) by exact Hfile.
    rewrite Hblock, bind_print. reported.
Qed.

Lemma create_daily_reports_write (folder yyyymmdd : str) :
  reports_write (page_path folder yyyymmdd) (create_daily_file folder yyyymmdd).
Proof.
  intros w. unfold create_daily_file. cbv zeta. fold (page_path folder yyyymmdd).
  rewrite bind_exists.
  destruct (is_file w (page_path folder yyyymmdd)) eqn:Hex.
  { rewrite bind_print. reported. }
  destruct (format_turkish_date yyyymmdd) as [d|e];
    [rewrite bind_lift_ok|rewrite bind_lift_raise; reported].
  destruct (dict_get folder dict_title) as [title|]; [|reported].
  unfold mbind, M_bind, write_text. rewrite is_file_log, Hex.
  cbn [orb log creatable].
  destruct (creatable w (page_path folder yyyymmdd)); reported.
Qed.

Lemma update_root_reports_write (yyyymmdd : str) :
  reports_write root_path (update_root_index yyyymmdd).
Proof.
  intros w.
  destruct (files w !! root_path) as [t|] eqn:Hfile.
  - destruct (format_turkish_date yyyymmdd) as [d|e] eqn:Hfmt.
    + rewrite (update_root_index_run yyyymmdd d t w Hfile Hfmt). cbv zeta.
      destruct (existsb _ _); reported.
    + unfold update_root_index. cbv zeta. fold root_path.
      rewrite bind_exists. unfold is_file. rewrite Hfile. cbn [negb].
      rewrite Hfmt, bind_lift_raise. reported.
  - unfold update_root_index. cbv zeta. fold root_path.
    rewrite bind_exists. unfold is_file. rewrite Hfile. cbn [negb].
    rewrite bind_print. reported.
Qed.

Lemma update_today_reports_write (yyyymmdd : str) :
  reports_write today_path (update_today_index yyyymmdd).
Proof.
  intros w.
  destruct (files w !! today_path) as [t|] eqn:Hfile.
  - destruct (format_turkish_date yyyymmdd) as [d|e] eqn:Hfmt.
    + rewrite (update_today_index_run yyyymmdd d t w Hfile Hfmt). cbv zeta.
      destruct (today_scan _ _ _) as [[new_lines [|]]|e]; reported.
    + unfold update_today_index. cbv zeta.
      change (os_path_join (lit "today") (lit "index.html")) with today_path.
      rewrite bind_exists. unfold is_file. rewrite Hfile. cbn [negb].
      rewrite Hfmt, bind_lift_raise. reported.
  - unfold update_today_index. cbv zeta.
    change (os_path_join (lit "today") (lit "index.html")) with today_path.
    rewrite bind_exists. unfold is_file. rewrite Hfile. cbn [negb].
    rewrite bind_print. reported.
Qed.

(** Running an updater and appending its path when it reports a change
    keeps the list of changed files within the files written. *)
Lemma reports_write_step (p : str) (m : M bool) (w : world) (cf : list str)
    (written : list event) :
  reports_write p m ->
  (forall f, f ∈ cf -> EOpenW f ∈ written) ->
  exists evs,
    trace (snd (m w)) = trace w ++ evs
    /\ commands evs = []
    /\ forall b, fst (m w) = Ok b ->
         forall f, f ∈ (if b then cf ++ [p] else cf) ->
                   EOpenW f ∈ written ++ evs.
Proof.
  intros Hm Hcf. destruct (Hm w) as (evs & T & C & Hw).
  exists evs. split; [exact T|]. split; [exact C|].
  intros b Hb f Hf. apply elem_of_app.
  destruct b; [|auto].
  apply elem_of_app in Hf as [Hf|Hf]; [auto|].
  apply list_elem_of_singleton in Hf as ->. auto.
Qed.

Lemma process_folders_reports (yyyymmdd : str) (fs cf : list str) (w : world)
    (written : list event) :
  (forall f, f ∈ cf -> EOpenW f ∈ written) ->
  exists evs,
    trace (snd (process_folders fs yyyymmdd cf w)) = trace w ++ evs
    /\ commands evs = []
    /\ forall cf', fst (process_folders fs yyyymmdd cf w) = Ok cf' ->
         forall f, f ∈ cf' -> EOpenW f ∈ written ++ evs.
Proof.
  revert cf w written. induction fs as [|g fs IH]; intros cf w written Hcf.
  - exists []. cbn [process_folders mret M_ret fst snd].
    rewrite !app_nil_r. split; [reflexivity|]. split; [reflexivity|].
    intros cf' [= <-]. exact Hcf.
  - cbn [process_folders]. unfold mbind, M_bind.
    change (os_path_join g (lit "index.html")) with (index_path g).
    change (os_path_join g (yyyymmdd ++ lit ".html"))
      with (page_path g yyyymmdd).
    destruct (reports_write_step _ _ w cf written
                (add_entry_reports_write g yyyymmdd) Hcf) as (e1 & T1 & C1 & W1).
    destruct (add_entry_to_index g yyyymmdd w) as [[a|ex] w1];
      cbn [fst snd] in *.
    2:{ exists e1. split; [exact T1|]. split; [exact C1|]. discriminate. }
    specialize (W1 a eq_refl).
    destruct (reports_write_step _ _ w1 _ (written ++ e1)
                (create_daily_reports_write g yyyymmdd) W1) as (e2 & T2 & C2 & W2).
    destruct (create_daily_file g yyyymmdd w1) as [[b|ex] w2];
      cbn [fst snd] in *.
    2:{ exists (e1 ++ e2). rewrite T2, T1, <- app_assoc, commands_app, C1, C2.
        split; [reflexivity|]. split; [reflexivity|]. discriminate. }
    specialize (W2 b eq_refl).
    destruct (IH _ w2 _ W2) as (e3 & T3 & C3 & W3).
    exists (e1 ++ e2 ++ e3).
    rewrite T3, T2, T1, <- !app_assoc, !commands_app, C1, C2, C3.
    split; [reflexivity|]. split; [reflexivity|].
    intros cf' Hcf' f Hf. specialize (W3 cf' Hcf' f Hf).
    now rewrite <- !app_assoc in W3.
Qed.

(** The commands of the commit are among five. *)
Lemma git_commit_changes_events (yyyymmdd : str) (changed_files : list str)
    (w : world) :
  exists evs,
    trace (snd (git_commit_changes yyyymmdd changed_files w)) = trace w ++ evs
    /\ forall argv, ERun argv ∈ evs ->
         argv !! 1 <> Some (lit "add")
         \/ argv = [lit "git"; lit "add"] ++ changed_files.
Proof.
  unfold git_commit_changes. destruct changed_files as [|f fs].
  { eexists. split; [reflexivity|]. intros argv H.
    apply list_elem_of_singleton in H. discriminate. }
  unfold mbind, M_bind, subprocess_run, print. cbn [andb negb].
  destruct (strip (stdout (child w (trace w) _)));
    repeat match goal with
           | |- context [if negb (?a =? 0)%Z then _ else _] =>
               destruct (Z.eqb_spec a 0); cbn [negb]
           end;
    eexists; cbn [snd log trace]; rewrite <- ?app_assoc;
    (split; [reflexivity|]); intros argv H; cbn [app] in H;
    repeat (apply elem_of_cons in H as [H|H];
            [first [discriminate H
                   | injection H as ->;
                     first [now right | left; vm_compute; discriminate]]|]);
    now apply elem_of_nil in H.
Qed.

Lemma commands_none (evs : list event) (argv : list str) :
  commands evs = [] -> ERun argv ∉ evs.
Proof.
  intros H Hin.
  assert (Hc : argv ∈ commands evs).
  { unfold commands. apply list_elem_of_omap. exists (ERun argv). auto. }
  rewrite H in Hc. now apply elem_of_nil in Hc.
Qed.

(** Where a trace that starts without commands holds a command, the
    part without commands comes first. *)
Lemma run_after_quiet (quiet rest before after : list event) (argv : list str) :
  commands quiet = [] ->
  quiet ++ rest = before ++ ERun argv :: after ->
  exists mid, before = quiet ++ mid /\ rest = mid ++ ERun argv :: after.
Proof.
  revert before. induction quiet as [|e quiet IH]; intros before Hq Heq.
  - exists before. auto.
  - destruct before as [|b before]; cbn [app] in Heq.
    + injection Heq as -> _. discriminate Hq.
    + injection Heq as <- Heq.
      assert (Hq' : commands quiet = []).
      { unfold commands in *. cbn [omap] in Hq. destruct e; cbn in Hq;
          first [exact Hq | discriminate Hq]. }
      destruct (IH before Hq' Heq) as (mid & -> & ->).
      exists mid. auto.
Qed.

(** X16: wherever a run runs a command, it has written a file before; and
    when the command is git add, each file it is handed was opened for
    writing before that command, in the same run. *)
Theorem main_stages_what_it_wrote (prog yyyymmdd : str) (w : world) :
  exists evs,
    trace (snd (main [prog; yyyymmdd] w)) = trace w ++ evs
    /\ forall before after argv,
         evs = before ++ ERun argv :: after ->
         (exists p, EOpenW p ∈ before)
         /\ forall fs, argv = [lit "git"; lit "add"] ++ fs ->
              forall f, f ∈ fs -> EOpenW f ∈ before.
Proof.
  assert (Hstop : forall evs, commands evs = [] ->
            forall before after argv,
              evs = before ++ ERun argv :: after ->
              (exists p, EOpenW p ∈ before)
              /\ forall fs, argv = [lit "git"; lit "add"] ++ fs ->
                   forall f, f ∈ fs -> EOpenW f ∈ before).
  { intros evs C before after argv Hevs. exfalso.
    apply (commands_none evs argv C). rewrite Hevs.
    apply elem_of_app. right. now left. }
  unfold main. cbn [length Nat.eqb negb py_index lookup list_lookup].
  rewrite bind_lift_ok.
  destruct (negb (fullmatch_d8 yyyymmdd)).
  { rewrite bind_print. eexists. cbn [snd raise log trace].
    split; [reflexivity|]. now apply Hstop. }
  unfold run_updates, mbind, M_bind.
  change (os_path_join (lit "today") (lit "index.html")) with today_path.
  change (lit "index.html") with root_path.
  destruct (process_folders_reports yyyymmdd folders [] w [])
    as (e1 & T1 & C1 & W1).
  { intros f Hf. now apply elem_of_nil in Hf. }
  destruct (process_folders folders yyyymmdd [] w) as [[cf1|ex] w1];
    cbn [fst snd app] in *.
  2:{ exists e1. split; [exact T1|]. now apply Hstop. }
  specialize (W1 cf1 eq_refl).
  destruct (reports_write_step _ _ w1 cf1 e1
              (update_root_reports_write yyyymmdd) W1) as (e2 & T2 & C2 & W2).
  destruct (update_root_index yyyymmdd w1) as [[a|ex] w2]; cbn [fst snd] in *.
  2:{ exists (e1 ++ e2). rewrite T2, T1, <- app_assoc.
      split; [reflexivity|]. apply Hstop. now rewrite commands_app, C1, C2. }
  specialize (W2 a eq_refl).
  destruct (reports_write_step _ _ w2 _ (e1 ++ e2)
              (update_today_reports_write yyyymmdd) W2) as (e3 & T3 & C3 & W3).
  destruct (update_today_index yyyymmdd w2) as [[b|ex] w3]; cbn [fst snd] in *.
  2:{ exists (e1 ++ e2 ++ e3). rewrite T3, T2, T1, <- !app_assoc.
      split; [reflexivity|]. apply Hstop. now rewrite !commands_app, C1, C2, C3. }
  specialize (W3 b eq_refl).
  match goal with
  | |- context [git_commit_changes yyyymmdd ?c] =>
      remember c as cf eqn:Hcf in *
  end.
  clear Hcf.
  assert (C123 : commands (e1 ++ e2 ++ e3) = [])
    by now rewrite !commands_app, C1, C2, C3.
  rewrite <- app_assoc in W3.
  destruct cf as [|f0 cf0].
  { exists (e1 ++ e2 ++ e3). cbn [mret M_ret snd].
    rewrite T3, T2, T1, <- !app_assoc. split; [reflexivity|]. now apply Hstop. }
  destruct (git_commit_changes_events yyyymmdd (f0 :: cf0) w3) as (e4 & T4 & G4).
  exists ((e1 ++ e2 ++ e3) ++ e4).
  rewrite T4, T3, T2, T1, <- !app_assoc. split; [reflexivity|].
  intros before after argv Hevs. rewrite !app_assoc in Hevs.
  rewrite <- !app_assoc in Hevs. rewrite !app_assoc in Hevs.
  rewrite <- (app_assoc e1 e2 e3) in Hevs.
  destruct (run_after_quiet _ _ _ _ _ C123 Hevs) as (mid & -> & He4).
  split.
  - exists f0. apply elem_of_app. left. apply W3. now left.
  - intros fs -> f Hf. apply elem_of_app. left. apply W3.
    assert (Hin : ERun ([lit "git"; lit "add"] ++ fs) ∈ e4).
    { rewrite He4. apply elem_of_app. right. now left. }
    destruct (G4 _ Hin) as [Hne|Heq]; [now contradict Hne|].
    cbn [app] in Heq. injection Heq as ->. exact Hf.
Qed.

End Updater.

(** * Concrete runs

    The examples below run the script with [ascii_digits_only] for the
    Unicode table: their inputs are ASCII, for which every table gives the
    same result. *)

Definition quiet_child : list event -> list str -> CompletedProcess :=
  fun _ _ => {| returncode := 0; stdout := [] |}.

(** A working tree with the given files, in which any file can be created
    and every command succeeds silently. *)
Definition tree (fs : list (str * str)) : world :=
  World (list_to_map fs) (fun _ => true) quiet_child [].

Definition li_line (d t : string) : str :=
  litq "    <li><a href=`" ++ lit d ++ litq ".html`>" ++ lit t
  ++ lit "</a></li>" ++ [NL].

Definition undated_line : str := lit "    <li>no date here</li>" ++ [NL].

(** An index page with two entries and a line without a date. *)
Definition sample_index : str :=
  lit "<html>" ++ [NL] ++ lit "<ul>" ++ [NL]
  ++ li_line "20250901" "September 1, 2025"
  ++ undated_line
  ++ li_line "20250915" "September 15, 2025"
  ++ lit "</ul>" ++ [NL] ++ lit "</html>".

Definition sample_tree : world := tree [(lit "zip/index.html", sample_index)].

(** An index page whose empty list is on one line. *)
Definition one_line_list_tree : world :=
  tree [(lit "zip/index.html", lit "<ul></ul>" ++ [NL])].

Definition one_line_list_first : result bool * world :=
  add_entry_to_index ascii_digits_only (lit "zip") (lit "20250923")
    one_line_list_tree.

Definition one_line_list_second : result bool * world :=
  add_entry_to_index ascii_digits_only (lit "zip") (lit "20250923")
    (snd one_line_list_first).

(** A landing page with one game card that has no link line. *)
Definition card_without_link : str :=
  litq "<div class=`game-card`>" ++ [NL] ++ lit "<h3>Zip</h3>" ++ [NL]
  ++ lit "<p>Coming soon</p>" ++ [NL] ++ lit "</div>" ++ [NL].

Definition card_without_link_tree : world :=
  tree [(lit "today/index.html", card_without_link)].

(** A landing page whose only heading line stands between the sub-heading
    and the link of a card, and whose link names no known game. *)
Definition heading_inside_card : str :=
  litq "<div class=`game-card`>" ++ [NL] ++ lit "<h3>Archive</h3>" ++ [NL]
  ++ lit "<h1>September 1, 2025</h1>" ++ [NL]
  ++ litq "<a href=`../archive/index.html`>Older solutions</a>" ++ [NL].

Definition heading_inside_card_tree : world :=
  tree [(lit "today/index.html", heading_inside_card)].

(** A landing page that already shows the date of the run. *)
Definition heading_up_to_date : str :=
  lit "    <h1>September 23, 2025</h1>" ++ [NL].

Definition heading_up_to_date_tree : world :=
  tree [(lit "today/index.html", heading_up_to_date)].

(** A tree in which the daily page of a game exists already. *)
Definition page_exists_tree : world :=
  tree [(lit "zip/20250923.html", lit "kept as it is")].

(** A tree without the index page of queens. *)
Definition queens_missing_tree : world :=
  tree [ (lit "minisudoku/index.html", sample_index);
         (lit "zip/index.html", sample_index);
         (lit "tango/index.html", sample_index);
         (lit "index.html", lit "<title>Old</title>" ++ [NL]);
         (lit "today/index.html", heading_up_to_date) ].

(** A repository in which the branch listing fails (exit status 128, no
    output) and every other command succeeds. *)
Definition listing_fails_tree : world :=
  World ∅ (fun _ => true)
    (fun _ argv =>
       if bool_decide (argv = git_branch_list (lit "20250923"))
       then {| returncode := 128; stdout := [] |}
       else {| returncode := 0; stdout := [] |})
    [].

(** The merge at the sample index page, merging 20250910. *)
Lemma add_entry_to_index_rewrites_block_witness :
  let folder := lit "zip" in
  let yyyymmdd := lit "20250910" in
  let display_date := lit "September 10, 2025" in
  let t := sample_index in
  let start := 2 in
  let end_ := 5 in
  let w := sample_tree in
  let index_path := os_path_join folder (lit "index.html") in
  let lines := split_lines (universal_newlines t) in
  let li_lines := slice lines start end_ in
  let new_line := new_li_line yyyymmdd display_date in
  ((files w !! index_path = Some t)
   /\ (fullmatch_d8 ascii_digits_only yyyymmdd = true)
   /\ (format_turkish_date ascii_digits_only yyyymmdd = Ok display_date)
   /\ (find_ul_block lines = Some (start, end_)))
  /\ (exists keys block changed w',
    add_entry_to_index ascii_digits_only folder yyyymmdd w = (Ok changed, w')
    /\ files w'
       = <[index_path := concat (take start lines ++ block ++ drop end_ lines)]>
           (files w)
    /\ Forall2 (fun k l => search_li ascii_digits_only l = Some k) keys block
    /\ Sorted str_gt keys
    /\ NoDup keys
    /\ (forall l, l ∈ block ->
          (l = new_line /\ changed = true)
          \/ exists before after,
               li_lines = before ++ l :: after
               /\ forall l', l' ∈ after -> search_li ascii_digits_only l' <> search_li ascii_digits_only l)
    /\ (forall l k, l ∈ li_lines -> search_li ascii_digits_only l = Some k -> k ∈ keys)
    /\ yyyymmdd ∈ keys
    /\ (changed = true <-> forall l, l ∈ li_lines -> search_li ascii_digits_only l <> Some yyyymmdd)
    /\ (start <= end_ ->
        let new_lines := take start lines ++ block ++ drop end_ lines in
        split_lines (universal_newlines (concat new_lines)) = new_lines
        /\ find_ul_block new_lines = Some (start, start + length block)
        /\ slice new_lines start (start + length block) = block)).
Proof.
  cbv zeta. split.
  - repeat split; vm_compute; reflexivity.
  - apply (add_entry_to_index_rewrites_block ascii_digits_only
             (lit "zip") (lit "20250910") (lit "September 10, 2025")
             sample_index 2 5 sample_tree);
      vm_compute; reflexivity.
Defined.


(** The theorem of C6 at a tree that holds the page already. *)
Lemma create_daily_file_never_overwrites_witness :
  let folder := lit "zip" in
  let yyyymmdd := lit "20250923" in
  let content := lit "kept as it is" in
  let w := page_exists_tree in
  let daily_path := os_path_join folder (yyyymmdd ++ lit ".html") in
  ((files w !! daily_path = Some content))
  /\ (exists w',
    create_daily_file ascii_digits_only folder yyyymmdd w = (Ok false, w')
    /\ files w' = files w
    /\ files w' !! daily_path = Some content
    /\ trace w' = trace w ++
         [EExists daily_path;
          EPrint (WARN ++ lit " " ++ daily_path ++ lit " already exists, skipping.")]).
Proof.
  cbv zeta. split.
  - vm_compute. reflexivity.
  - apply (create_daily_file_never_overwrites ascii_digits_only
             (lit "zip") (lit "20250923") (lit "kept as it is") page_exists_tree).
    vm_compute. reflexivity.
Defined.

(** The theorem of C5, as amended, at 20250923. *)
Lemma format_turkish_date_valid_witness :
  let code := lit "20250923" in
  let y := numeral_value (take 4 code) in
  let m := numeral_value (take 2 (drop 4 code)) in
  let d := numeral_value (drop 6 code) in
  ((length code = 8)
   /\ (forallb ascii_digit code = true)
   /\ (valid_date y m d = true))
  /\ (exists name,
    table_get m MONTHS_TR = Some name
    /\ format_turkish_date ascii_digits_only code
       = Ok (name ++ lit " " ++ str_of_N d ++ lit ", " ++ str_of_N y)
    /\ is_numeral_of d (str_of_N d) = true
    /\ is_numeral_of y (str_of_N y) = true
    /\ (length (str_of_N y) = 4 <-> (1000 <= y)%N)).
Proof.
  cbv zeta. split.
  - repeat split; vm_compute; reflexivity.
  - apply (format_turkish_date_valid ascii_digits_only (lit "20250923"));
      vm_compute; reflexivity.
Defined.

(** The theorem of C3 at a landing page whose card has no link line. *)
Lemma update_today_index_card_without_link_raises_witness :
  let yyyymmdd := lit "20250923" in
  let display_date := lit "September 23, 2025" in
  let t := card_without_link in
  let w := card_without_link_tree in
  let i := 0 in
  let acc := @nil str in
  let ch := false in
  let line := litq "<div class=`game-card`>" ++ [NL] in
  let h3 := lit "<h3>Zip</h3>" ++ [NL] in
  let lines := split_lines (universal_newlines t) in
  ((files w !! today_path = Some t)
   /\ (format_turkish_date ascii_digits_only yyyymmdd = Ok display_date)
   /\ (scan_reaches yyyymmdd display_date lines (i, acc, ch))
   /\ (lines !! i = Some line)
   /\ (startswith (strip line) (lit "<h1>") = false)
   /\ (str_in (litq "<div class=`game-card`>") line = true)
   /\ (i + 2 < length lines)
   /\ (lines !! (i + 1) = Some h3)
   /\ (startswith (strip h3) (lit "<h3>") = true)
   /\ (card_link_index lines i = None))
  /\ (fst (update_today_index ascii_digits_only yyyymmdd w) = Raise TypeError
  /\ files (snd (update_today_index ascii_digits_only yyyymmdd w)) = files w).
Proof.
  cbv zeta. split.
  - repeat split; try apply reaches_start; vm_compute; (reflexivity || lia).
  - apply (update_today_index_card_without_link_raises ascii_digits_only
             (lit "20250923") (lit "September 23, 2025") card_without_link
             card_without_link_tree 0 [] false
             (litq "<div class=`game-card`>" ++ [NL]) (lit "<h3>Zip</h3>" ++ [NL]));
      try apply reaches_start; vm_compute; (reflexivity || lia).
Defined.

(** The theorem of C10, as amended, at a landing page that shows the date already: the page is rewritten with its own text. *)
Lemma update_today_index_reports_change_witness :
  let yyyymmdd := lit "20250923" in
  let display_date := lit "September 23, 2025" in
  let t := heading_up_to_date in
  let w := heading_up_to_date_tree in
  let i := 0 in
  let acc := @nil str in
  let ch := false in
  let new_lines := [heading_up_to_date] in
  let changed := true in
  let lines := split_lines (universal_newlines t) in
  ((files w !! today_path = Some t)
   /\ (format_turkish_date ascii_digits_only yyyymmdd = Ok display_date)
   /\ (scan_reaches yyyymmdd display_date lines (i, acc, ch))
   /\ (at_heading lines i \/ at_card_with_game_link lines i)
   /\ (today_scan yyyymmdd display_date lines = Ok (new_lines, changed)))
  /\ (changed = true
  /\ fst (update_today_index ascii_digits_only yyyymmdd w) = Ok true
  /\ files (snd (update_today_index ascii_digits_only yyyymmdd w))
     = <[today_path := concat new_lines]> (files w)
  /\ EOpenW today_path ∈ trace (snd (update_today_index ascii_digits_only yyyymmdd w))
  /\ today_scan (lit "20250923") (lit "September 23, 2025")
       [lit "    <h1>September 23, 2025</h1>" ++ [NL]]
     = Ok ([lit "    <h1>September 23, 2025</h1>" ++ [NL]], true)).
Proof.
  cbv zeta.
  assert (Hat : at_heading (split_lines (universal_newlines heading_up_to_date)) 0).
  { exists heading_up_to_date. split; vm_compute; reflexivity. }
  split.
  - repeat split; try apply reaches_start; try (left; exact Hat);
      vm_compute; reflexivity.
  - apply (update_today_index_reports_change ascii_digits_only
             (lit "20250923") (lit "September 23, 2025") heading_up_to_date
             heading_up_to_date_tree 0 [] false [heading_up_to_date] true);
      try apply reaches_start; try (left; exact Hat); vm_compute; reflexivity.
Defined.

(** The theorem of C8, as amended, at a tree without the index page of
    queens. *)
Lemma main_survives_missing_index_witness :
  let prog := lit "update.py" in
  let yyyymmdd := lit "20250923" in
  let display_date := lit "September 23, 2025" in
  let missing := lit "queens" in
  let w := queens_missing_tree in
  ((fullmatch_d8 ascii_digits_only yyyymmdd = true)
   /\ (format_turkish_date ascii_digits_only yyyymmdd = Ok display_date)
   /\ (missing ∈ folders)
   /\ (files w !! index_path missing = None)
   /\ ((forall g, g ∈ folders ->
     is_file w (page_path g yyyymmdd) || creatable w (page_path g yyyymmdd) = true))
   /\ ((forall t, files w !! today_path = Some t ->
     exists r, today_scan yyyymmdd display_date
                 (split_lines (universal_newlines t)) = Ok r)))
  /\ (add_entry_to_index ascii_digits_only missing yyyymmdd w
  = (Ok false, log (not_found_msg missing) (log (EExists (index_path missing)) w))
  /\ (fst (main ascii_digits_only [prog; yyyymmdd] w) = Ok tt
      \/ fst (main ascii_digits_only [prog; yyyymmdd] w) = Raise CalledProcessError)
  /\ files (snd (main ascii_digits_only [prog; yyyymmdd] w)) !! index_path missing = None
  /\ not_found_msg missing ∈ trace (snd (main ascii_digits_only [prog; yyyymmdd] w))
  /\ (forall g, g ∈ folders ->
        files (snd (main ascii_digits_only [prog; yyyymmdd] w)) !! index_path g
        = files (snd (add_entry_to_index ascii_digits_only g yyyymmdd w)) !! index_path g
        /\ is_file (snd (main ascii_digits_only [prog; yyyymmdd] w)) (page_path g yyyymmdd) = true)
  /\ files (snd (main ascii_digits_only [prog; yyyymmdd] w)) !! root_path
     = files (snd (update_root_index ascii_digits_only yyyymmdd w)) !! root_path
  /\ files (snd (main ascii_digits_only [prog; yyyymmdd] w)) !! today_path
     = files (snd (update_today_index ascii_digits_only yyyymmdd w)) !! today_path).
Proof.
  cbv zeta.
  assert (Hqueens : lit "queens" ∈ folders).
  { unfold folders. do 2 apply list_elem_of_further. apply list_elem_of_here. }
  assert (Hpages : forall g, g ∈ folders ->
            is_file queens_missing_tree (page_path g (lit "20250923"))
            || creatable queens_missing_tree
                 (page_path g (lit "20250923")) = true).
  { intros g _. apply orb_true_r. }
  assert (Hscan : forall t, files queens_missing_tree !! today_path = Some t ->
            exists r, today_scan (lit "20250923") (lit "September 23, 2025")
                        (split_lines (universal_newlines t)) = Ok r).
  { intros t Ht. vm_compute in Ht. injection Ht as <-.
    eexists. vm_compute. reflexivity. }
  split.
  - repeat split; try exact Hqueens; try exact Hpages; try exact Hscan;
      vm_compute; reflexivity.
  - apply (main_survives_missing_index ascii_digits_only (lit "update.py")
             (lit "20250923") (lit "September 23, 2025") (lit "queens")
             queens_missing_tree);
      try exact Hqueens; try exact Hpages; try exact Hscan;
      vm_compute; reflexivity.
Defined.


(** ** Runs on which the script departs from its description *)

(** C1, refuted by the code: on an index page whose list opens and closes
    on one line both markers are found, the close marker on a line before
    the first line of the block ([start] is 1, [end] is 0).
    [add_entry_to_index] reports the entry as added and writes the lines
    up to [start], the entry, and the lines from [end] on: the list line,
    the entry, the list line again.  In the page as written the same two
    markers locate an empty block, so the entry is not in the entry block,
    and the line before the block and the line after it are one line of
    the old page written twice. *)
Theorem add_entry_to_index_one_line_list_loses_block :
  let page := lit "<ul></ul>" ++ [NL] in
  let entry := li_line "20250923" "September 23, 2025" in
  let lines := split_lines (universal_newlines page) in
  let new_lines := [page; entry; page] in
  files one_line_list_tree !! lit "zip/index.html" = Some page
  /\ find_ul_block lines = Some (1, 0)
  /\ fst one_line_list_first = Ok true
  /\ files (snd one_line_list_first) !! lit "zip/index.html"
     = Some (concat new_lines)
  /\ split_lines (universal_newlines (concat new_lines)) = new_lines
  /\ find_ul_block new_lines = Some (1, 0)
  /\ slice new_lines 1 0 = []
  /\ parse_li_line ascii_digits_only entry = Some (lit "20250923", entry)
  /\ take 1 lines = [page] /\ drop 0 lines = [page].
Proof.
  cbv zeta. split; [|split; [|split; [|split; [|split]]]].
  - vm_compute. reflexivity.
  - vm_compute. reflexivity.
  - vm_compute. reflexivity.
  - vm_compute. reflexivity.
  - vm_compute. reflexivity.
  - split; [|split; [|split; [|split]]]; vm_compute; reflexivity.
Qed.

(** C2, refuted by the code: on an index page whose list opens and closes
    on one line, the close marker is found on a line before the first line
    of the block, so the block read back is empty.  The first call of
    [add_entry_to_index] inserts the entry and reports a change; the second
    call with the same code does not find the entry, reports a change again
    and writes a longer page. *)
Theorem add_entry_to_index_repeats_on_one_line_list :
  let page := lit "<ul></ul>" ++ [NL] in
  let entry := li_line "20250923" "September 23, 2025" in
  files one_line_list_tree !! lit "zip/index.html" = Some page
  /\ fst one_line_list_first = Ok true
  /\ files (snd one_line_list_first) !! lit "zip/index.html"
     = Some (page ++ entry ++ page)
  /\ fst one_line_list_second = Ok true
  /\ files (snd one_line_list_second) !! lit "zip/index.html"
     = Some (page ++ entry ++ page ++ entry ++ page).
Proof.
  cbv zeta. split; [|split; [|split; [|split]]].
  - vm_compute. reflexivity.
  - vm_compute. reflexivity.
  - vm_compute. reflexivity.
  - vm_compute. reflexivity.
  - vm_compute. reflexivity.
Qed.

(** C5, the year of the claim: the 8 ASCII digits 00250903 spell a valid
    calendar date, and [format_turkish_date] renders its year with two
    digits. *)
Lemma format_turkish_date_year_25 :
  length (lit "00250903") = 8
  /\ forallb ascii_digit (lit "00250903") = true
  /\ valid_date 25 9 3 = true
  /\ format_turkish_date ascii_digits_only (lit "00250903")
     = Ok (lit "September 3, 25").
Proof.
  split; [reflexivity|]. split; [reflexivity|]. split; [reflexivity|].
  vm_compute. reflexivity.
Qed.

(** C7, refuted by the code: the branch listing is run without the check
    of its exit status.  In a repository where that command exits with
    status 128 and prints nothing, [git_commit_changes] raises nothing: it
    creates the branch, stages and commits. *)
Theorem git_commit_changes_ignores_failed_listing :
  let code := lit "20250923" in
  let r := git_commit_changes code [lit "index.html"] listing_fails_tree in
  returncode (child listing_fails_tree [] (git_branch_list code)) = 128%Z
  /\ fst r = Ok tt
  /\ trace (snd r)
     = [ ERun (git_branch_list code);
         ERun [lit "git"; lit "checkout"; lit "-b"; code];
         EPrint (CHECKMARK ++ lit " Created new branch '20250923'.");
         ERun [lit "git"; lit "add"; lit "index.html"];
         ERun [lit "git"; lit "commit"; lit "-m"; lit "Add 20250923 entry"];
         EPrint (CHECKMARK ++ lit " Committed changes in branch '20250923'.") ].
Proof.
  cbv zeta. split; [|split].
  - vm_compute. reflexivity.
  - vm_compute. reflexivity.
  - vm_compute. reflexivity.
Qed.

(** C10, the heading of the claim: a landing page has a line that starts
    with the h1 tag, the line stands inside a card whose link names no
    known game; [update_today_index] copies the page, reports no change
    and writes nothing. *)
Lemma update_today_index_heading_inside_card :
  let r := update_today_index ascii_digits_only (lit "20250923")
             heading_inside_card_tree in
  let heading := lit "<h1>September 1, 2025</h1>" ++ [NL] in
  files heading_inside_card_tree !! today_path = Some heading_inside_card
  /\ split_lines (universal_newlines heading_inside_card) !! 2 = Some heading
  /\ startswith (strip heading) (lit "<h1>") = true
  /\ fst r = Ok false
  /\ files (snd r) = files heading_inside_card_tree
  /\ trace (snd r)
     = [ EExists today_path; EOpenR today_path;
         EPrint (WARN ++ lit " today/index.html already up to date.") ].
Proof.
  cbv zeta. split; [|split; [|split; [|split; [|split]]]].
  - vm_compute. reflexivity.
  - vm_compute. reflexivity.
  - vm_compute. reflexivity.
  - vm_compute. reflexivity.
  - vm_compute. reflexivity.
  - vm_compute. reflexivity.
Qed.

(** A tree without the folder of queens: its index page is missing and no
    file can be created in it. *)
Definition queens_folder_missing_tree : world :=
  World (list_to_map
           [ (lit "minisudoku/index.html", sample_index);
             (lit "zip/index.html", sample_index);
             (lit "tango/index.html", sample_index);
             (lit "index.html", lit "<title>Old</title>" ++ [NL]);
             (lit "today/index.html", heading_up_to_date) ])
    (fun p => negb (startswith p (lit "queens/")))
    quiet_child [].

(** C8, the run of the claim: in a tree without the folder of queens the
    index page of queens is missing and its daily page cannot be created.
    The miss is reported, then the creation of the daily page raises
    [OSError] and ends the run: the index page of tango, the homepage and
    the landing page are as they were, the daily page of tango is not
    created, and nothing is committed. *)
Lemma main_stops_at_missing_folder :
  let w := queens_folder_missing_tree in
  let r := main ascii_digits_only [lit "update.py"; lit "20250923"] w in
  files w !! lit "queens/index.html" = None
  /\ fst r = Raise OSError
  /\ EPrint (CROSS ++ lit " queens/index.html not found.") ∈ trace (snd r)
  /\ last (trace (snd r)) = Some (EOpenW (lit "queens/20250923.html"))
  /\ files (snd r) !! lit "tango/index.html" = files w !! lit "tango/index.html"
  /\ files (snd r) !! lit "tango/20250923.html" = None
  /\ files (snd r) !! lit "index.html" = files w !! lit "index.html"
  /\ files (snd r) !! lit "today/index.html" = files w !! lit "today/index.html"
  /\ commands (trace (snd r)) = [].
Proof.
  cbv zeta. split; [|split; [|split; [|split; [|split]]]].
  - vm_compute. reflexivity.
  - vm_compute. reflexivity.
  - apply list_elem_of_In. vm_compute. tauto.
  - vm_compute. reflexivity.
  - vm_compute. reflexivity.
  - split; [|split; [|split]]; vm_compute; reflexivity.
Qed.

(** The theorem of C9 at the 7-digit argument 2025923: the run prints one
    message and exits with status 1. *)
Lemma main_rejects_malformed_arguments_witness :
  exists msg,
    main ascii_digits_only [lit "update.py"; lit "2025923"] sample_tree
    = (Raise (SystemExit 1), log (EPrint msg) sample_tree).
Proof.
  apply (proj1 (main_rejects_malformed_arguments ascii_digits_only
                  [lit "update.py"; lit "2025923"] sample_tree)).
  right. exists (lit "2025923"). split.
  - reflexivity.
  - vm_compute. reflexivity.
Defined.

(** ** More concrete runs *)



(** A homepage with an old title, an old link to today's page and a
    paragraph. *)
Definition sample_homepage : str :=
  lit "<title>Old title</title>" ++ [NL]
  ++ litq "    <li><a href=`/today/`>September 1, 2025</a></li>" ++ [NL]
  ++ lit "<p>Welcome</p>" ++ [NL].

Definition sample_homepage_tree : world :=
  tree [(lit "index.html", sample_homepage)].

(** A landing page with a heading and a card that links to a zip page. *)
Definition sample_landing_page : str :=
  lit "<h1>September 1, 2025</h1>" ++ [NL]
  ++ litq "<div class=`game-card`>" ++ [NL]
  ++ lit "<h3>Zip</h3>" ++ [NL]
  ++ litq "<a href=`../zip/20250901.html`>View Solution</a>" ++ [NL]
  ++ lit "</div>" ++ [NL].

Definition sample_landing_page_tree : world :=
  tree [(lit "today/index.html", sample_landing_page)].


(** February 30 is no date. *)
Lemma format_turkish_date_invalid_witness :
  let code := lit "20250230" in
  let y := numeral_value (take 4 code) in
  let m := numeral_value (take 2 (drop 4 code)) in
  let d := numeral_value (drop 6 code) in
  ((length code = 8)
   /\ (forallb ascii_digit code = true)
   /\ (valid_date y m d = false))
  /\ (format_turkish_date ascii_digits_only code = Raise ValueError).
Proof.
  cbv zeta. split.
  - repeat split; vm_compute; reflexivity.
  - apply (format_turkish_date_invalid ascii_digits_only (lit "20250230"));
      vm_compute; reflexivity.
Defined.

(** The line rendered for 20250923 is read back as 20250923. *)
Lemma parse_li_line_new_li_line_witness :
  let yyyymmdd := lit "20250923" in
  let display_date := lit "September 23, 2025" in
  ((fullmatch_d8 ascii_digits_only yyyymmdd = true))
  /\ (parse_li_line ascii_digits_only (new_li_line yyyymmdd display_date)
  = Some (yyyymmdd, new_li_line yyyymmdd display_date)).
Proof.
  cbv zeta. split.
  - vm_compute. reflexivity.
  - apply (parse_li_line_new_li_line ascii_digits_only).
    vm_compute. reflexivity.
Defined.


(** The zip page of 20250923 is created in an empty tree, once. *)
Lemma create_daily_file_creates_once_witness :
  let folder := lit "zip" in
  let yyyymmdd := lit "20250923" in
  let display_date := lit "September 23, 2025" in
  let title := lit "Zip" in
  let w := tree [] in
  let daily_path := os_path_join folder (yyyymmdd ++ lit ".html") in
  let page := daily_content title display_date folder yyyymmdd in
  ((files w !! daily_path = None)
   /\ (creatable w daily_path = true)
   /\ (format_turkish_date ascii_digits_only yyyymmdd = Ok display_date)
   /\ (dict_get folder dict_title = Some title))
  /\ (exists w1 w2,
    create_daily_file ascii_digits_only folder yyyymmdd w = (Ok true, w1)
    /\ files w1 = <[daily_path := page]> (files w)
    /\ str_in (lit "<title>" ++ title ++ lit " Solution " ++ [8211%N] ++ lit " "
               ++ display_date ++ lit "</title>") page = true
    /\ str_in (lit "<h1>" ++ title ++ lit " " ++ [8211%N] ++ lit " "
               ++ display_date ++ lit "</h1>") page = true
    /\ str_in (litq "<img src=`../images/" ++ folder ++ lit "_" ++ yyyymmdd
               ++ litq ".jpeg`") page = true
    /\ create_daily_file ascii_digits_only folder yyyymmdd w1 = (Ok false, w2)
    /\ files w2 = files w1).
Proof.
  cbv zeta. split.
  - repeat split; vm_compute; reflexivity.
  - apply (create_daily_file_creates_once ascii_digits_only (lit "zip")
             (lit "20250923") (lit "September 23, 2025") (lit "Zip") (tree []));
      vm_compute; reflexivity.
Defined.

(** The title table has no entry for crossclimb. *)
Lemma create_daily_file_unknown_folder_witness :
  let folder := lit "crossclimb" in
  let yyyymmdd := lit "20250923" in
  let display_date := lit "September 23, 2025" in
  let w := tree [] in
  let daily_path := os_path_join folder (yyyymmdd ++ lit ".html") in
  ((folder ∉ folders)
   /\ (files w !! daily_path = None)
   /\ (format_turkish_date ascii_digits_only yyyymmdd = Ok display_date))
  /\ (create_daily_file ascii_digits_only folder yyyymmdd w
  = (Raise KeyError, log (EExists daily_path) w)).
Proof.
  cbv zeta.
  assert (Hg : lit "crossclimb" ∉ folders).
  { unfold folders. intros H.
    repeat (apply elem_of_cons in H as [H|H]; [vm_compute in H; discriminate H|]).
    now apply elem_of_nil in H. }
  split.
  - repeat split; try exact Hg; vm_compute; reflexivity.
  - apply (create_daily_file_unknown_folder ascii_digits_only (lit "crossclimb")
             (lit "20250923") (lit "September 23, 2025") (tree []));
      try exact Hg; vm_compute; reflexivity.
Defined.

(** The sample homepage, line by line. *)
Lemma update_root_index_line_by_line_witness :
  let yyyymmdd := lit "20250923" in
  let display_date := lit "September 23, 2025" in
  let t := sample_homepage in
  let w := sample_homepage_tree in
  let lines := split_lines (universal_newlines t) in
  ((files w !! root_path = Some t)
   /\ (format_turkish_date ascii_digits_only yyyymmdd = Ok display_date))
  /\ (exists new_lines changed w',
    update_root_index ascii_digits_only yyyymmdd w = (Ok changed, w')
    /\ files w'
       = (if changed then <[root_path := concat new_lines]> (files w)
          else files w)
    /\ (changed = false -> new_lines = lines)
    /\ Forall2
         (fun old new =>
            if str_in (litq "<a href=`/today/`>") old
            then new = new_list_item display_date
            else if startswith (strip old) (lit "<title>")
            then strip new = strip new_title /\ (new = old \/ new = new_title)
            else if str_in (litq "property=`og:title`") old
            then strip new = strip new_og_title
                 /\ (new = old \/ new = new_og_title)
            else new = old)
         lines new_lines).
Proof.
  cbv zeta. split.
  - repeat split; vm_compute; reflexivity.
  - apply (update_root_index_line_by_line ascii_digits_only (lit "20250923")
             (lit "September 23, 2025") sample_homepage sample_homepage_tree);
      vm_compute; reflexivity.
Defined.

(** The sample homepage, updated twice. *)
Lemma update_root_index_twice_witness :
  let yyyymmdd := lit "20250923" in
  let display_date := lit "September 23, 2025" in
  let t := sample_homepage in
  let w := sample_homepage_tree in
  ((files w !! root_path = Some t)
   /\ (format_turkish_date ascii_digits_only yyyymmdd = Ok display_date))
  /\ (exists changed w1 w2,
    update_root_index ascii_digits_only yyyymmdd w = (Ok changed, w1)
    /\ update_root_index ascii_digits_only yyyymmdd w1 = (Ok false, w2)
    /\ files w2 = files w1).
Proof.
  cbv zeta. split.
  - repeat split; vm_compute; reflexivity.
  - apply (update_root_index_twice ascii_digits_only (lit "20250923")
             (lit "September 23, 2025") sample_homepage sample_homepage_tree);
      vm_compute; reflexivity.
Defined.

(** The sample landing page, line by line. *)
Lemma update_today_index_line_by_line_witness :
  let yyyymmdd := lit "20250923" in
  let display_date := lit "September 23, 2025" in
  let t := sample_landing_page in
  let w := sample_landing_page_tree in
  let lines := split_lines (universal_newlines t) in
  ((files w !! today_path = Some t)
   /\ (format_turkish_date ascii_digits_only yyyymmdd = Ok display_date))
  /\ ((fst (update_today_index ascii_digits_only yyyymmdd w) = Raise TypeError
   /\ files (snd (update_today_index ascii_digits_only yyyymmdd w)) = files w)
  \/ exists new_lines changed,
       fst (update_today_index ascii_digits_only yyyymmdd w) = Ok changed
       /\ files (snd (update_today_index ascii_digits_only yyyymmdd w))
          = (if changed then <[today_path := concat new_lines]> (files w)
             else files w)
       /\ (changed = false -> new_lines = lines)
       /\ Forall2 (today_line yyyymmdd display_date) lines new_lines).
Proof.
  cbv zeta. split.
  - repeat split; vm_compute; reflexivity.
  - apply (update_today_index_line_by_line ascii_digits_only (lit "20250923")
             (lit "September 23, 2025") sample_landing_page
             sample_landing_page_tree);
      vm_compute; reflexivity.
Defined.

(** The four commands in a repository where every command succeeds silently. *)
Lemma git_commit_changes_commands_witness :
  let yyyymmdd := lit "20250923" in
  let f := lit "index.html" in
  let fs := @nil str in
  let w := sample_tree in
  let listing := child w (trace w) (git_branch_list yyyymmdd) in
  (((forall history argv, argv <> git_branch_list yyyymmdd ->
     returncode (child w history argv) = 0%Z)))
  /\ (fst (git_commit_changes yyyymmdd (f :: fs) w) = Ok tt
  /\ commands (trace (snd (git_commit_changes yyyymmdd (f :: fs) w)))
     = commands (trace w)
       ++ [ git_branch_list yyyymmdd;
            match strip (stdout listing) with
            | [] => [lit "git"; lit "checkout"; lit "-b"; yyyymmdd]
            | _ :: _ => [lit "git"; lit "checkout"; yyyymmdd]
            end;
            [lit "git"; lit "add"] ++ f :: fs;
            [lit "git"; lit "commit"; lit "-m";
             lit "Add " ++ yyyymmdd ++ lit " entry"] ]).
Proof.
  cbv zeta. split.
  - intros history argv _. reflexivity.
  - apply (git_commit_changes_commands (lit "20250923") (lit "index.html") []
             sample_tree).
    intros history argv _. reflexivity.
Defined.


(** A run for 20250230 on the sample tree. *)
Lemma main_date_that_does_not_format_witness :
  let prog := lit "update.py" in
  let yyyymmdd := lit "20250230" in
  let w := sample_tree in
  ((fullmatch_d8 ascii_digits_only yyyymmdd = true)
   /\ (format_turkish_date ascii_digits_only yyyymmdd = Raise ValueError))
  /\ (fst (main ascii_digits_only [prog; yyyymmdd] w)
  = (if nothing_to_update yyyymmdd w then Ok tt else Raise ValueError)
  /\ files (snd (main ascii_digits_only [prog; yyyymmdd] w)) = files w
  /\ exists evs,
       trace (snd (main ascii_digits_only [prog; yyyymmdd] w)) = trace w ++ evs
       /\ forallb asks_or_prints evs = true).
Proof.
  cbv zeta. split.
  - repeat split; vm_compute; reflexivity.
  - apply (main_date_that_does_not_format ascii_digits_only (lit "update.py")
             (lit "20250230") sample_tree);
      vm_compute; reflexivity.
Defined.

(** The sample index page, merged twice with 20250910. *)
Lemma add_entry_to_index_twice_witness :
  let folder := lit "zip" in
  let yyyymmdd := lit "20250910" in
  let display_date := lit "September 10, 2025" in
  let t := sample_index in
  let start := 2 in
  let end_ := 5 in
  let w := sample_tree in
  let index_path := os_path_join folder (lit "index.html") in
  let lines := split_lines (universal_newlines t) in
  ((files w !! index_path = Some t)
   /\ (fullmatch_d8 ascii_digits_only yyyymmdd = true)
   /\ (format_turkish_date ascii_digits_only yyyymmdd = Ok display_date)
   /\ (find_ul_block lines = Some (start, end_))
   /\ (start <= end_))
  /\ (exists changed w1 w2,
    add_entry_to_index ascii_digits_only folder yyyymmdd w = (Ok changed, w1)
    /\ add_entry_to_index ascii_digits_only folder yyyymmdd w1 = (Ok false, w2)
    /\ files w2 = files w1).
Proof.
  cbv zeta. split.
  - repeat split; try lia; vm_compute; reflexivity.
  - apply (add_entry_to_index_twice ascii_digits_only (lit "zip")
             (lit "20250910") (lit "September 10, 2025") sample_index 2 5
             sample_tree);
      try lia; vm_compute; reflexivity.
Defined.
